(** * HyperToken Python bridge: client, AEC adapter, Parallel adapter, spaces

    A shallow embedding of [python/hypertoken/client.py], [env.py] and
    [spaces.py].  Values that come off the wire are the Python values that
    [json.loads] builds; the server behind the socket is a state machine
    given as a parameter; every method is a function in a state-and-exception
    monad over the object it belongs to and the network.

    The functions of [utils.py] that wait for a server, start one and
    measure its latency follow, with the clock as a further parameter; then
    the action map of [export.py], the Gymnasium wrapper of
    [examples/blackjack/train_and_export.py] and the basic-strategy policy of
    [python/examples/train_pettingzoo.py]. *)

From Stdlib Require Import ZArith String List Bool Lia.
From Stdlib Require Import SpecFloat.
From stdpp Require Import base option list strings gmap.

Open Scope string_scope.
Open Scope Z_scope.
Open Scope list_scope.

(** ** Python values decoded from JSON *)

(** [json.loads] yields [None], [bool], [int], [float], [str], [list] and
    [dict] with string keys.  A dict is kept as its list of items; a key is
    looked up at its first item. *)
#[warnings="-register-all"]
Inductive json : Type :=
| JNull
| JBool (b : bool)
| JInt (z : Z)
| JFloat (f : spec_float)
| JStr (s : string)
| JArr (l : list json)
| JObj (kv : list (string * json)).

(** The exceptions the bridge can raise or let through. *)
Inductive exn : Type :=
| RuntimeError (msg : string)
| KeyError (key : string)
| TypeError
| ValueError
| AttributeError
| OverflowError
| AssertionError
| MemoryError
| TransportError (msg : string).

Inductive result (A : Type) : Type :=
| Ok (a : A)
| Raise (e : exn).
Arguments Ok {A} a.
Arguments Raise {A} e.

(** ** Floating point: Python floats are binary64, numpy float32 is binary32 *)

Definition float64 := spec_float.
Definition float32 := spec_float.

Definition f64_zero : float64 := S754_zero false.
Definition f64_one : float64 := binary_normalize 53 1024 1 0 false.
Definition pos_inf : spec_float := S754_infinity false.
Definition neg_inf : spec_float := S754_infinity true.

(** [float(z)] for a Python int: the nearest binary64, [OverflowError] when
    that is out of range. *)
Definition float_of_int (z : Z) : result float64 :=
  match binary_normalize 53 1024 z 0 false with
  | S754_infinity _ => Raise OverflowError
  | f => Ok f
  end.

(** The cast binary64 -> binary32 that [np.array(..., dtype=np.float32)]
    applies to each element: round to nearest even, overflow to infinity. *)
Definition to_float32 (f : float64) : float32 :=
  match f with
  | S754_finite s m e => binary_normalize 24 128 (cond_Zopp s (Zpos m)) e s
  | _ => f
  end.

(** [ndarray.tolist()] on a float32 array: each element becomes the Python
    float of the same value. *)
Definition to_float64 (f : float32) : float64 :=
  match f with
  | S754_finite s m e => binary_normalize 53 1024 (cond_Zopp s (Zpos m)) e s
  | _ => f
  end.

(** ** Dicts and the Python built-ins the bridge applies to decoded values *)

Fixpoint dict_get (k : string) (kv : list (string * json)) : option json :=
  match kv with
  | [] => None
  | (k', v) :: rest => if String.eqb k k' then Some v else dict_get k rest
  end.

Definition dict_has (k : string) (kv : list (string * json)) : bool :=
  match dict_get k kv with Some _ => true | None => false end.

Definition dict_keys (kv : list (string * json)) : list string := map fst kv.

Definition is_str (s : string) (j : json) : bool :=
  match j with JStr s' => String.eqb s s' | _ => false end.

(** [k in x] for a string [k]: key membership in a dict, element membership in
    a list, substring test on a string, [TypeError] on the rest. *)
Definition py_in (k : string) (x : json) : result bool :=
  match x with
  | JObj kv => Ok (dict_has k kv)
  | JArr l => Ok (existsb (is_str k) l)
  | JStr s => Ok (match String.index 0 k s with Some _ => true | None => false end)
  | _ => Raise TypeError
  end.

(** [x[k]] for a string [k]. *)
Definition py_getitem (x : json) (k : string) : result json :=
  match x with
  | JObj kv => match dict_get k kv with Some v => Ok v | None => Raise (KeyError k) end
  | _ => Raise TypeError
  end.

(** [x.get(k, default)]: only dicts have [get]. *)
Definition py_get (x : json) (k : string) (default : json) : result json :=
  match x with
  | JObj kv => Ok (match dict_get k kv with Some v => v | None => default end)
  | _ => Raise AttributeError
  end.

Definition float_is_zero (f : spec_float) : bool :=
  match f with S754_zero _ => true | _ => false end.

(** Truthiness, as [bool(x)], [if x] and [while x] compute it. *)
Definition py_bool (x : json) : bool :=
  match x with
  | JNull => false
  | JBool b => b
  | JInt z => negb (z =? 0)
  | JFloat f => negb (float_is_zero f)
  | JStr s => negb (String.eqb s "")
  | JArr l => match l with [] => false | _ => true end
  | JObj kv => match kv with [] => false | _ => true end
  end.

Definition chars (s : string) : list json :=
  map (fun a => JStr (String a EmptyString)) (list_ascii_of_string s).

(** [list(x)]: the elements of a list, the keys of a dict, the characters of
    a string. *)
Definition py_list (x : json) : result (list json) :=
  match x with
  | JArr l => Ok l
  | JObj kv => Ok (map JStr (dict_keys kv))
  | JStr s => Ok (chars s)
  | _ => Raise TypeError
  end.

(** [len(x)]. *)
Definition py_len (x : json) : result Z :=
  match x with
  | JArr l => Ok (Z.of_nat (length l))
  | JObj kv => Ok (Z.of_nat (length kv))
  | JStr s => Ok (Z.of_nat (String.length s))
  | _ => Raise TypeError
  end.

Definition hashable (x : json) : bool :=
  match x with JArr _ | JObj _ => false | _ => true end.

(** One item of [dict(iterable)]: a two-element sequence with a hashable
    first element. *)
Definition dict_item (x : json) : result (json * json) :=
  match x with
  | JArr [k; v] => if hashable k then Ok (k, v) else Raise TypeError
  | JArr _ => Raise ValueError
  | JStr (String a (String b EmptyString)) =>
      Ok (JStr (String a EmptyString), JStr (String b EmptyString))
  | JStr _ => Raise ValueError
  | JObj [(k1, _); (k2, _)] => Ok (JStr k1, JStr k2)
  | JObj _ => Raise ValueError
  | _ => Raise TypeError
  end.

Fixpoint dict_items (l : list json) : result (list (json * json)) :=
  match l with
  | [] => Ok []
  | x :: rest =>
      match dict_item x with
      | Raise e => Raise e
      | Ok kv =>
          match dict_items rest with
          | Raise e => Raise e
          | Ok kvs => Ok (kv :: kvs)
          end
      end
  end.

(** Whether the float has the value of the int, compared exactly as Python
    compares an [int] with a [float]. *)
Definition float_eq_int (f : spec_float) (z : Z) : bool :=
  match f with
  | S754_zero _ => z =? 0
  | S754_finite s m e =>
      if 0 <=? e then z =? cond_Zopp s (Zpos m * 2 ^ e)
      else z * 2 ^ (- e) =? cond_Zopp s (Zpos m)
  | _ => false
  end.

(** The number a key stands for, if it is one: [True] and [False] are the
    ints 1 and 0. *)
Definition key_number (k : json) : option (Z + spec_float) :=
  match k with
  | JBool b => Some (inl (if b then 1 else 0))
  | JInt z => Some (inl z)
  | JFloat f => Some (inr f)
  | _ => None
  end.

(** Whether a dict takes two hashable values for one key: equal strings,
    [None] and [None], numbers of equal value ([True], [1] and [1.0] are one
    key, [0.0] and [-0.0] too).  The NaN of the JSON decoder is one object,
    which a dict finds again by identity. *)
Definition key_eqb (a b : json) : bool :=
  match key_number a, key_number b with
  | Some (inl x), Some (inl y) => x =? y
  | Some (inl x), Some (inr f) | Some (inr f), Some (inl x) => float_eq_int f x
  | Some (inr f), Some (inr g) =>
      match f, g with
      | S754_nan, S754_nan => true
      | _, _ => SFeqb f g
      end
  | None, None =>
      match a, b with
      | JNull, JNull => true
      | JStr s, JStr t => String.eqb s t
      | _, _ => false
      end
  | _, _ => false
  end.

(** [d[k] = v] on a dict kept as its list of items, in insertion order: a
    key that is there keeps its place (and its first spelling) and gets the
    new value. *)
Fixpoint dict_set (k v : json) (d : list (json * json)) : list (json * json) :=
  match d with
  | [] => [(k, v)]
  | (k', v') :: rest =>
      if key_eqb k' k then (k', v) :: rest else (k', v') :: dict_set k v rest
  end.

(** The items of a decoded object as a dict with [json] keys; an item whose
    key came before is out of reach of a lookup and is dropped. *)
Definition dict_copy (kv : list (string * json)) : list (json * json) :=
  fold_left (fun d p =>
               if existsb (fun q => key_eqb (fst q) (JStr (fst p))) d then d
               else d ++ [(JStr (fst p), snd p)]) kv [].

(** [dict(x)]: a copy of a dict, or a dict built from a sequence of pairs
    (whose keys need not be strings, hence the [json] keys), each pair set
    in turn. *)
Definition py_dict (x : json) : result (list (json * json)) :=
  match x with
  | JObj kv => Ok (dict_copy kv)
  | JArr l =>
      match dict_items l with
      | Ok items => Ok (fold_left (fun d p => dict_set (fst p) (snd p) d) items [])
      | Raise e => Raise e
      end
  | JStr s =>
      match dict_items (chars s) with
      | Ok items => Ok (fold_left (fun d p => dict_set (fst p) (snd p) d) items [])
      | Raise e => Raise e
      end
  | _ => Raise TypeError
  end.

(** What the embedding leaves to the Python run time, the machine and the
    installed libraries:
    - the text [str(x)] gives for a value that is not a string, the parsing
      of a float out of text, numpy's conversion of text to [bool];
    - whether the machine has room for a new list of that many elements and
      for the array made of it (CPython itself refuses a list of 2^60
      elements or more, whatever the machine);
    - the number of dimensions numpy allows an array (32 before numpy 2.0,
      64 from then on);
    - what the installed spaces library makes of one entry of the [low] and
      of the [high] bound of a [Box] (gymnasium 1.x and gym keep it;
      gymnasium 0.26 to 0.29 set every infinite entry of [low] to -inf and
      every infinite entry of [high] to +inf), and the checks it makes on
      the values of the bounds it keeps, given in row-major order
      (gymnasium 1.x refuses NaN and [low > high]; the others accept
      everything). *)
Record PyRuntime : Type := {
  py_repr : json -> string;
  float_of_str : string -> result float64;
  np_bool_of_str : string -> result bool;
  list_fits : Z -> bool;
  np_maxdims : nat;
  box_low : float32 -> float32;
  box_high : float32 -> float32;
  box_accepts : list float32 -> list float32 -> bool
}.

Section Builtins.
Context (rt : PyRuntime).

(** [str(x)], which an f-string applies to [{x}]. *)
Definition py_str (x : json) : string :=
  match x with
  | JStr s => s
  | _ => py_repr rt x
  end.

(** [float(x)]. *)
Definition py_float (x : json) : result float64 :=
  match x with
  | JInt z => float_of_int z
  | JFloat f => Ok f
  | JBool b => Ok (if b then f64_one else f64_zero)
  | JStr s => float_of_str rt s
  | _ => Raise TypeError
  end.
End Builtins.

(** Exceptions thread through pure conversions as well. *)
#[export] Instance result_ret : MRet result := fun A a => Ok a.

#[export] Instance result_bind : MBind result := fun A B f r =>
  match r with
  | Ok a => f a
  | Raise e => Raise e
  end.

(** The values of a list of results, or the first exception among them. *)
Fixpoint collect {A} (l : list (result A)) : result (list A) :=
  match l with
  | [] => Ok []
  | r :: rest => a ← r; rest' ← collect rest; mret (a :: rest')
  end.

(** ** numpy arrays: a shape and the elements in row-major order *)

Record ndarray (A : Type) : Type := {
  nd_shape : list Z;
  nd_data : list A
}.
Arguments nd_shape {A} _.
Arguments nd_data {A} _.

Definition shape_eqb (s1 s2 : list Z) : bool := bool_decide (s1 = s2).

Definition prod_dims (dims : list Z) : Z := fold_right Z.mul 1 dims.

(** Stacking the arrays built from the elements of a list: all must have
    one shape ([ValueError] otherwise); an empty list is an array of shape
    [(0,)]. *)
Definition np_stack {A} (parts : list (ndarray A)) : result (ndarray A) :=
  match parts with
  | [] => Ok {| nd_shape := [0]; nd_data := [] |}
  | a :: rest =>
      if forallb (fun b => shape_eqb (nd_shape b) (nd_shape a)) rest
      then Ok {| nd_shape := Z.of_nat (length parts) :: nd_shape a;
                 nd_data := concat (map nd_data parts) |}
      else Raise ValueError
  end.

(** [np.array(x, dtype=...)], with [leaf] the conversion of one scalar to the
    dtype. *)
Fixpoint np_array {A} (leaf : json -> result A) (x : json) : result (ndarray A) :=
  match x with
  | JArr l =>
      parts ← collect (map (np_array leaf) l);
      np_stack parts
  | _ =>
      a ← leaf x;
      mret {| nd_shape := []; nd_data := [a] |}
  end.

(** [np.prod] multiplies in int64 and wraps around. *)
Definition wrap64 (z : Z) : Z := (z + 2 ^ 63) mod 2 ^ 64 - 2 ^ 63.

(** The product of the dimensions that are not 0. *)
Definition prod_nonzero (dims : list Z) : Z :=
  fold_right (fun d acc => if d =? 0 then acc else d * acc) 1 dims.

(** [a.reshape(shape)] for dimensions that are non-negative ints and
    elements of [itemsize] bytes: the shape may have no more dimensions than
    numpy allows, the element counts must agree, and the byte count of the
    dimensions that are not 0 has to fit a signed 64-bit size, which numpy
    checks for an array without elements as well.  All three fail with
    [ValueError]. *)
Definition np_reshape {A} (rt : PyRuntime) (itemsize : Z) (shape : list Z) (a : ndarray A)
  : result (ndarray A) :=
  if (length shape <=? np_maxdims rt)%nat
     && (itemsize * prod_nonzero shape <? 2 ^ 63)
     && (prod_dims shape =? Z.of_nat (length (nd_data a)))
  then Ok {| nd_shape := shape; nd_data := nd_data a |}
  else Raise ValueError.

(** [[x] * n]: no element for [n <= 0]; [MemoryError] when there is no room
    for the list. *)
Definition py_repeat (rt : PyRuntime) (x : json) (n : Z) : result json :=
  if n <=? 0 then Ok (JArr [])
  else if (n <? 2 ^ 60) && list_fits rt n then Ok (JArr (replicate (Z.to_nat n) x))
  else Raise MemoryError.

Section NumpyScalars.
Context (rt : PyRuntime).

(** One scalar under [dtype=np.float32]; an int goes through its Python
    float. *)
Definition np_float32 (x : json) : result float32 :=
  match x with
  | JNull => Ok S754_nan
  | JObj _ => Raise TypeError
  | _ => f ← py_float rt x; mret (to_float32 f)
  end.

(** One scalar under [dtype=bool]. *)
Definition np_bool (x : json) : result bool :=
  match x with
  | JStr s => np_bool_of_str rt s
  | _ => Ok (py_bool x)
  end.
End NumpyScalars.

(** ** gymnasium spaces, as the data they keep *)

Inductive Space : Type :=
| Discrete (n : Z)
| Box (low high : ndarray float32) (shape : list Z).

(** [spaces.Discrete(n)] asserts a positive integer and keeps it as an
    int64. *)
Definition spaces_Discrete (n : json) : result Space :=
  match n with
  | JInt z =>
      if 0 <? z then (if z <? 2 ^ 63 then Ok (Discrete z) else Raise OverflowError)
      else Raise AssertionError
  | _ => Raise AssertionError
  end.

(** [spaces.Box(low, high, shape, dtype)] asserts that both arrays have the
    given shape, and keeps the bounds as the library makes them, entry by
    entry, if they pass its checks. *)
Definition spaces_Box (rt : PyRuntime) (low high : ndarray float32) (shape : list Z)
  : result Space :=
  if shape_eqb (nd_shape low) shape && shape_eqb (nd_shape high) shape
  then
    let low := {| nd_shape := nd_shape low; nd_data := map (box_low rt) (nd_data low) |} in
    let high := {| nd_shape := nd_shape high; nd_data := map (box_high rt) (nd_data high) |} in
    if box_accepts rt (nd_data low) (nd_data high) then Ok (Box low high shape)
    else Raise ValueError
  else Raise AssertionError.

(** The dimensions of [tuple(space_def["shape"])] that [np.prod], [reshape]
    and [Box] all accept: non-negative ints that fit int64.  (A [-1] would
    make [reshape] infer a dimension and [Box] reject the result; any other
    element fails in one of the three.) *)
Definition shape_dim (x : json) : result Z :=
  match x with
  | JInt z =>
      if 0 <=? z then (if z <? 2 ^ 63 then Ok z else Raise OverflowError)
      else Raise ValueError
  | _ => Raise TypeError
  end.

Section Spaces.
Context (rt : PyRuntime).

Definition convert_space (space_def : json) : result Space :=
  has_n ← py_in "n" space_def;
  if has_n : bool then
    n ← py_getitem space_def "n";
    spaces_Discrete n
  else
    has_shape ← py_in "shape" space_def;
    if has_shape : bool then
      sh ← py_getitem space_def "shape";
      tup ← py_list sh;
      shape ← collect (map shape_dim tup);
      let size := if py_bool (JArr tup) then wrap64 (prod_dims shape) else 1 in
      low ← py_get space_def "low" JNull;
      high ← py_get space_def "high" JNull;
      low ← (if low is JNull then py_repeat rt (JFloat neg_inf) size else Ok low);
      high ← (if high is JNull then py_repeat rt (JFloat pos_inf) size else Ok high);
      low_arr ← np_array (np_float32 rt) low;
      low_arr ← np_reshape rt 4 shape low_arr;
      high_arr ← np_array (np_float32 rt) high;
      high_arr ← np_reshape rt 4 shape high_arr;
      spaces_Box rt low_arr high_arr shape
    else Raise ValueError.

Definition tolist (a : ndarray float32) : json :=
  JArr (map (fun f => JFloat (to_float64 f)) (nd_data a)).

Definition space_to_dict (space : Space) : json :=
  match space with
  | Discrete n => JObj [("n", JInt n)]
  | Box low high shape =>
      JObj [("shape", JArr (map JInt shape));
            ("low", tolist low);
            ("high", tolist high)]
  end.

(** A descriptor converted to a space and back. *)
Definition round_trip (space_def : json) : result json :=
  space ← convert_space space_def;
  mret (space_to_dict space).
End Spaces.

(** ** The state-and-exception monad

    A method runs on a state and returns a value or raises; what it did to
    the state before raising stays done. *)

Definition M (St A : Type) : Type := St -> result A * St.

#[export] Instance M_ret {St} : MRet (M St) := fun A a st => (Ok a, st).

#[export] Instance M_bind {St} : MBind (M St) := fun A B f m st =>
  match m st with
  | (Ok a, st') => f a st'
  | (Raise e, st') => (Raise e, st')
  end.

Definition raise {St A} (e : exn) : M St A := fun st => (Raise e, st).

Definition lift_result {St A} (r : result A) : M St A := fun st => (r, st).

Definition gets {St A} (f : St -> A) : M St A := fun st => (Ok (f st), st).

Definition modify {St} (f : St -> St) : M St unit := fun st => (Ok tt, f st).

(** [try: m  except Exception: pass] *)
Definition try_pass {St A} (m : M St A) : M St unit := fun st =>
  match m st with
  | (_, st') => (Ok tt, st')
  end.

Definition discard {St A} (m : M St A) : M St unit := m ;; mret tt.

(** [for x in l: body(x)] *)
Fixpoint for_each {St A} (l : list A) (body : A -> M St unit) : M St unit :=
  match l with
  | [] => mret tt
  | x :: rest => body x ;; for_each rest body
  end.

(** ** The other end of the socket

    The server is reachable only through the socket.  [accept] is what
    [websocket.create_connection] meets, [exchange] is one [ws.send] of an
    encoded command followed by one [ws.recv] and [json.loads] (a reply, or
    the exception of a dropped connection, a timeout or malformed text),
    [hangup] is [ws.close]. *)
Record Peer : Type := {
  srv : Type;
  accept : srv -> srv * result unit;
  exchange : srv -> json -> srv * result json;
  hangup : srv -> srv * result unit
}.

(** What goes over the wire: a connection being opened, a command sent with
    what came back for it, a connection being closed. *)
Inductive event : Type :=
| EvConnect
| EvSend (cmd : json) (reply : result json)
| EvClose.

(** The commands sent in a stretch of the trace. *)
Definition sent (evs : list event) : list json :=
  omap (fun ev => match ev with EvSend cmd _ => Some cmd | _ => None end) evs.

(** The name in the [cmd] field of a command. *)
Definition is_cmd (name : string) (cmd : json) : bool :=
  match cmd with
  | JObj kv => match dict_get "cmd" kv with Some v => is_str name v | None => false end
  | _ => false
  end.

(** The action of a [step] command. *)
Definition step_action (cmd : json) : option Z :=
  match cmd with
  | JObj kv =>
      if is_cmd "step" cmd then
        match dict_get "action" kv with Some (JInt a) => Some a | _ => None end
      else None
  | _ => None
  end.

Inductive WebSocket : Type := websocket_to (url : string).

(** [HyperTokenClient]: the fields [__init__] sets ([timeout] only bounds the
    waiting time of the socket calls). *)
Record HyperTokenClient : Type := {
  url : string;
  ws : option WebSocket
}.

Definition new_client (u : string) : HyperTokenClient := {| url := u; ws := None |}.

Definition set_ws (o : option WebSocket) (c : HyperTokenClient) : HyperTokenClient :=
  {| url := url c; ws := o |}.

(** The network: the server's state and everything that went over the wire
    so far, oldest first. *)
Record World (P : Peer) : Type := {
  server : srv P;
  trace : list event
}.
Arguments server {P} _.
Arguments trace {P} _.

(** ** The client *)

Module Client.
Section Client.
Context (rt : PyRuntime) (P : Peer).

Definition ClientSt : Type := HyperTokenClient * World P.

Definition create_connection (u : string) : M ClientSt WebSocket := fun '(c, w) =>
  match accept P (server w) with
  | (s', Ok _) => (Ok (websocket_to u), (c, {| server := s'; trace := trace w ++ [EvConnect] |}))
  | (s', Raise e) => (Raise e, (c, {| server := s'; trace := trace w |}))
  end.

Definition ws_close : M ClientSt unit := fun '(c, w) =>
  match hangup P (server w) with
  | (s', r) => (r, (c, {| server := s'; trace := trace w ++ [EvClose] |}))
  end.

Definition ws_send_recv (cmd : json) : M ClientSt json := fun '(c, w) =>
  match exchange P (server w) cmd with
  | (s', r) => (r, (c, {| server := s'; trace := trace w ++ [EvSend cmd r] |}))
  end.

Definition disconnect : M ClientSt unit :=
  c ← gets fst;
  match ws c with
  | Some _ =>
      try_pass ws_close ;;
      modify (fun '(c, w) => (set_ws None c, w))
  | None => mret tt
  end.

Definition connect : M ClientSt unit :=
  c ← gets fst;
  (if ws c is Some _ then disconnect else mret tt) ;;
  u ← gets (fun st => url (fst st));
  sock ← create_connection u;
  modify (fun '(c, w) => (set_ws (Some sock) c, w)).

Definition _send (cmd : json) : M ClientSt json :=
  c ← gets fst;
  match ws c with
  | None => raise (RuntimeError "Not connected. Call connect() first.")
  | Some _ =>
      response ← ws_send_recv cmd;
      has_error ← lift_result (py_in "error" response);
      if has_error : bool then
        err ← lift_result (py_getitem response "error");
        raise (RuntimeError ("Server error: " +:+ py_str rt err))
      else mret response
  end.

(** *** Environment API *)

Definition cmd0 (name : string) : json := JObj [("cmd", JStr name)].

Definition cmd_agent (name : string) (agent : json) : json :=
  JObj [("cmd", JStr name); ("agent", agent)].

Definition reset_cmd (seed : option Z) : json :=
  match seed with
  | Some n => JObj [("cmd", JStr "reset"); ("seed", JInt n)]
  | None => cmd0 "reset"
  end.

Definition step_cmd (action : Z) : json :=
  JObj [("cmd", JStr "step"); ("action", JInt action)].

Definition field (name key : string) : M ClientSt json :=
  response ← _send (cmd0 name);
  lift_result (py_getitem response key).

Definition agent_field (name : string) (agent : json) (key : string) : M ClientSt json :=
  response ← _send (cmd_agent name agent);
  lift_result (py_getitem response key).

Definition reset (seed : option Z) : M ClientSt unit :=
  _send (reset_cmd seed) ;; mret tt.

Definition step (action : Z) : M ClientSt unit :=
  _send (step_cmd action) ;; mret tt.

Definition observe (agent : json) : M ClientSt (ndarray float32) :=
  obs ← agent_field "observe" agent "observation";
  lift_result (np_array (np_float32 rt) obs).

Definition last : M ClientSt json := _send (cmd0 "last").

Definition agents : M ClientSt json := field "agents" "agents".

Definition possible_agents : M ClientSt json := field "possible_agents" "possible_agents".

Definition agent_selection : M ClientSt json := field "agent_selection" "agent".

Definition observation_space (agent : json) : M ClientSt json :=
  agent_field "observation_space" agent "space".

Definition action_space (agent : json) : M ClientSt json :=
  agent_field "action_space" agent "space".

Definition rewards : M ClientSt json := field "rewards" "rewards".

Definition terminations : M ClientSt json := field "terminations" "terminations".

Definition truncations : M ClientSt json := field "truncations" "truncations".

Definition infos : M ClientSt json := field "infos" "infos".

Definition action_mask (agent : json) : M ClientSt (option (ndarray bool)) :=
  response ← _send (cmd_agent "action_mask" agent);
  mask ← lift_result (py_get response "mask" JNull);
  if py_bool mask then
    arr ← lift_result (np_array (np_bool rt) mask);
    mret (Some arr)
  else mret None.

Definition render : M ClientSt unit := _send (cmd0 "render") ;; mret tt.

Definition close : M ClientSt unit :=
  try_pass (_send (cmd0 "close")) ;;
  disconnect.

(** The latency [ping] returns is read off the clock and has no model here;
    what it does on the wire is one command. *)
Definition ping : M ClientSt unit := _send (cmd0 "ping") ;; mret tt.

Definition env_info : M ClientSt json := _send (cmd0 "env_info").

(** Every method that talks to the server, by name, with the command it
    encodes. *)
Inductive ClientMethod : Type :=
| CReset (seed : option Z)
| CStep (action : Z)
| CObserve (agent : json)
| CLast
| CAgents
| CPossibleAgents
| CAgentSelection
| CObservationSpace (agent : json)
| CActionSpace (agent : json)
| CRewards
| CTerminations
| CTruncations
| CInfos
| CActionMask (agent : json)
| CRender
| CClose
| CPing
| CEnvInfo.

Definition is_close (m : ClientMethod) : bool :=
  match m with CClose => true | _ => false end.

Definition command_of (m : ClientMethod) : json :=
  match m with
  | CReset seed => reset_cmd seed
  | CStep action => step_cmd action
  | CObserve agent => cmd_agent "observe" agent
  | CLast => cmd0 "last"
  | CAgents => cmd0 "agents"
  | CPossibleAgents => cmd0 "possible_agents"
  | CAgentSelection => cmd0 "agent_selection"
  | CObservationSpace agent => cmd_agent "observation_space" agent
  | CActionSpace agent => cmd_agent "action_space" agent
  | CRewards => cmd0 "rewards"
  | CTerminations => cmd0 "terminations"
  | CTruncations => cmd0 "truncations"
  | CInfos => cmd0 "infos"
  | CActionMask agent => cmd_agent "action_mask" agent
  | CRender => cmd0 "render"
  | CClose => cmd0 "close"
  | CPing => cmd0 "ping"
  | CEnvInfo => cmd0 "env_info"
  end.

(** Calling a method and dropping what it returns. *)
Definition call (m : ClientMethod) : M ClientSt unit :=
  match m with
  | CReset seed => reset seed
  | CStep action => step action
  | CObserve agent => discard (observe agent)
  | CLast => discard last
  | CAgents => discard agents
  | CPossibleAgents => discard possible_agents
  | CAgentSelection => discard agent_selection
  | CObservationSpace agent => discard (observation_space agent)
  | CActionSpace agent => discard (action_space agent)
  | CRewards => discard rewards
  | CTerminations => discard terminations
  | CTruncations => discard truncations
  | CInfos => discard infos
  | CActionMask agent => discard (action_mask agent)
  | CRender => render
  | CClose => close
  | CPing => ping
  | CEnvInfo => discard env_info
  end.
End Client.
End Client.

(** ** The AEC adapter *)

Record HyperTokenAECEnv : Type := {
  client : HyperTokenClient;
  render_mode : option string;
  _connected : bool;
  _possible_agents : json;
  _observation_spaces : gmap string Space;
  _action_spaces : gmap string Space
}.

Definition set_client (c : HyperTokenClient) (e : HyperTokenAECEnv) : HyperTokenAECEnv :=
  {| client := c; render_mode := render_mode e; _connected := _connected e;
     _possible_agents := _possible_agents e;
     _observation_spaces := _observation_spaces e;
     _action_spaces := _action_spaces e |}.

Definition set_connected (b : bool) (e : HyperTokenAECEnv) : HyperTokenAECEnv :=
  {| client := client e; render_mode := render_mode e; _connected := b;
     _possible_agents := _possible_agents e;
     _observation_spaces := _observation_spaces e;
     _action_spaces := _action_spaces e |}.

Definition set_possible_agents (l : json) (e : HyperTokenAECEnv) : HyperTokenAECEnv :=
  {| client := client e; render_mode := render_mode e; _connected := _connected e;
     _possible_agents := l;
     _observation_spaces := _observation_spaces e;
     _action_spaces := _action_spaces e |}.

Definition set_observation_space (k : string) (sp : Space) (e : HyperTokenAECEnv) : HyperTokenAECEnv :=
  {| client := client e; render_mode := render_mode e; _connected := _connected e;
     _possible_agents := _possible_agents e;
     _observation_spaces := <[k := sp]> (_observation_spaces e);
     _action_spaces := _action_spaces e |}.

Definition set_action_space (k : string) (sp : Space) (e : HyperTokenAECEnv) : HyperTokenAECEnv :=
  {| client := client e; render_mode := render_mode e; _connected := _connected e;
     _possible_agents := _possible_agents e;
     _observation_spaces := _observation_spaces e;
     _action_spaces := <[k := sp]> (_action_spaces e) |}.

(** What the adapter keeps of its own: the cached agent list, the cached
    spaces and the connected flag. *)
Definition local_state (e : HyperTokenAECEnv)
  : json * gmap string Space * gmap string Space * bool :=
  (_possible_agents e, _observation_spaces e, _action_spaces e, _connected e).

(** The key under which a dict keeps an agent.  Lists and dicts are not
    hashable ([TypeError]).  Agent names are strings; a name of another
    hashable type would become a key of that type, which the string-keyed
    maps of this model do not hold, so it is refused here as well. *)
Definition agent_key (agent : json) : result string :=
  match agent with
  | JStr s => Ok s
  | _ => Raise TypeError
  end.

Definition is_human (mode : option string) : bool :=
  match mode with
  | Some s => String.eqb s "human"
  | None => false
  end.

(** The result of [last]: observation, reward, terminated, truncated, info. *)
Definition LastResult : Type :=
  option (ndarray float32) * float64 * bool * bool * list (json * json).

Module AECEnv.
Section AEC.
Context (rt : PyRuntime) (P : Peer).

Definition EnvSt : Type := HyperTokenAECEnv * World P.

(** Running a method of [self.client]. *)
Definition via_client {A} (m : M (Client.ClientSt P) A) : M EnvSt A := fun '(e, w) =>
  match m (client e, w) with
  | (r, (c', w')) => (r, (set_client c' e, w'))
  end.

Definition self : M EnvSt HyperTokenAECEnv := gets fst.

Definition update (f : HyperTokenAECEnv -> HyperTokenAECEnv) : M EnvSt unit :=
  modify (fun '(e, w) => (f e, w)).

Definition cache_spaces (agent : json) : M EnvSt unit :=
  obs_space_def ← via_client (Client.observation_space rt P agent);
  act_space_def ← via_client (Client.action_space rt P agent);
  obs_space ← lift_result (convert_space rt obs_space_def);
  k ← lift_result (agent_key agent);
  update (set_observation_space k obs_space) ;;
  act_space ← lift_result (convert_space rt act_space_def);
  k ← lift_result (agent_key agent);
  update (set_action_space k act_space).

Definition _connect_and_init : M EnvSt unit :=
  e ← self;
  if _connected e then mret tt
  else
    via_client (Client.connect P) ;;
    update (set_connected true) ;;
    l ← via_client (Client.possible_agents rt P);
    update (set_possible_agents l) ;;
    e ← self;
    each ← lift_result (py_list (_possible_agents e));
    for_each each cache_spaces.

(** [HyperTokenAECEnv(url, render_mode, auto_connect)] *)
Definition __init__ (u : string) (mode : option string) (auto_connect : bool)
  : World P -> result HyperTokenAECEnv * World P := fun w =>
  let e := {| client := new_client u; render_mode := mode; _connected := false;
              _possible_agents := JArr []; _observation_spaces := ∅;
              _action_spaces := ∅ |} in
  if auto_connect then
    match _connect_and_init (e, w) with
    | (Ok _, (e', w')) => (Ok e', w')
    | (Raise x, (_, w')) => (Raise x, w')
    end
  else (Ok e, w).

(** *** Agent properties *)

Definition possible_agents : M EnvSt (list json) :=
  e ← self;
  lift_result (py_list (_possible_agents e)).

Definition agents : M EnvSt json :=
  e ← self;
  if negb (_connected e) then mret (JArr [])
  else via_client (Client.agents rt P).

Definition num_agents : M EnvSt Z :=
  l ← agents;
  lift_result (py_len l).

Definition agent_selection : M EnvSt json :=
  e ← self;
  if negb (_connected e) then mret (JStr "")
  else via_client (Client.agent_selection rt P).

(** *** Space methods *)

Definition observation_space (agent : string) : M EnvSt Space :=
  e ← self;
  match _observation_spaces e !! agent with
  | Some sp => mret sp
  | None => raise (KeyError agent)
  end.

Definition action_space (agent : string) : M EnvSt Space :=
  e ← self;
  match _action_spaces e !! agent with
  | Some sp => mret sp
  | None => raise (KeyError agent)
  end.

(** *** Core API *)

Definition render : M EnvSt unit := via_client (Client.render rt P).

Definition reset (seed : option Z) : M EnvSt unit :=
  e ← self;
  (if negb (_connected e) then _connect_and_init else mret tt) ;;
  via_client (Client.reset rt P seed) ;;
  e ← self;
  if is_human (render_mode e) then render else mret tt.

Definition step (action : option Z) : M EnvSt unit :=
  match action with
  | Some a => via_client (Client.step rt P a)
  | None => mret tt
  end ;;
  e ← self;
  if is_human (render_mode e) then render else mret tt.

Definition observe (agent : json) : M EnvSt (ndarray float32) :=
  via_client (Client.observe rt P agent).

Definition last (with_obs : bool) : M EnvSt LastResult :=
  result ← via_client (Client.last rt P);
  agent ← agent_selection;
  obs ← (if with_obs then o ← observe agent; mret (Some o) else mret None);
  reward ← lift_result (py_get result "reward" (JFloat f64_zero) ≫= py_float rt);
  terminated ← lift_result (py_get result "terminated" (JBool false));
  truncated ← lift_result (py_get result "truncated" (JBool false));
  info ← lift_result (py_get result "info" (JObj []) ≫= py_dict);
  mret (obs, reward, py_bool terminated, py_bool truncated, info).

(** *** State queries *)

Definition rewards : M EnvSt json := via_client (Client.rewards rt P).
Definition terminations : M EnvSt json := via_client (Client.terminations rt P).
Definition truncations : M EnvSt json := via_client (Client.truncations rt P).
Definition infos : M EnvSt json := via_client (Client.infos rt P).

Definition action_mask (agent : json) : M EnvSt (option (ndarray bool)) :=
  via_client (Client.action_mask rt P agent).

(** *** Cleanup and context manager *)

Definition close : M EnvSt unit :=
  e ← self;
  if _connected e then
    via_client (Client.close rt P) ;;
    update (set_connected false)
  else mret tt.

Definition __enter__ : M EnvSt unit :=
  e ← self;
  if negb (_connected e) then _connect_and_init else mret tt.

Definition __exit__ : M EnvSt unit := close.

(** *** Iteration

    [agent_iter] is a generator.  Its frame holds [count] and [max_iter];
    one resumption evaluates the loop test and either yields the selected
    agent or stops. *)
Definition agent_iter_next (count max_iter : Z) : M EnvSt (option json) :=
  ags ← agents;
  if py_bool ags && (count <? max_iter) then
    agent ← agent_selection;
    mret (Some agent)
  else mret None.

(** How a [for agent in env.agent_iter(max_iter): body(agent)] loop ends. *)
Inductive loop_end : Type :=
| StopIteration
| Raised (e : exn)
| OutOfFuel.

(** The [for] loop over the generator, from a frame with [count]: the agents
    yielded, how the loop ended, and the final state. *)
Fixpoint for_agent_iter (fuel : nat) (count max_iter : Z)
    (body : json -> M EnvSt unit) (st : EnvSt) : list json * loop_end * EnvSt :=
  match fuel with
  | O => ([], OutOfFuel, st)
  | S fuel' =>
      match agent_iter_next count max_iter st with
      | (Raise e, st1) => ([], Raised e, st1)
      | (Ok None, st1) => ([], StopIteration, st1)
      | (Ok (Some agent), st1) =>
          match body agent st1 with
          | (Raise e, st2) => ([agent], Raised e, st2)
          | (Ok _, st2) =>
              match for_agent_iter fuel' (count + 1) max_iter body st2 with
              | (ys, fin, st3) => (agent :: ys, fin, st3)
              end
          end
      end
  end.

(** The default [max_iter]. *)
Definition default_max_iter : Z := 2 ^ 63.

(** Every operation of the adapter, by name. *)
Inductive Operation : Type :=
| OPossibleAgents
| OAgents
| ONumAgents
| OAgentSelection
| OObservationSpace (agent : string)
| OActionSpace (agent : string)
| OReset (seed : option Z)
| OStep (action : option Z)
| OObserve (agent : json)
| OLast (with_obs : bool)
| ORewards
| OTerminations
| OTruncations
| OInfos
| OActionMask (agent : json)
| OAgentIterNext (count max_iter : Z)
| ORender
| OClose
| OEnter
| OExit.


(** The loop body of the class docstring, with a constant policy:
    [obs, reward, term, trunc, info = env.last()], then [env.step(None)] for
    a finished agent and [env.step(action)] otherwise. *)
Definition docstring_body (action : Z) (agent : json) : M EnvSt unit :=
  res ← last true;
  match res with
  | (_, _, term, trunc, _) =>
      if term || trunc then step None else step (Some action)
  end.

(** A sequence of [reset] calls, each caught or not by the caller. *)
Fixpoint reset_each (seeds : list (option Z)) (st : EnvSt) : EnvSt :=
  match seeds with
  | [] => st
  | seed :: rest => reset_each rest (snd (reset seed st))
  end.

(** Performing an operation and dropping what it returns. *)
Definition perform (op : Operation) : M EnvSt unit :=
  match op with
  | OPossibleAgents => discard possible_agents
  | OAgents => discard agents
  | ONumAgents => discard num_agents
  | OAgentSelection => discard agent_selection
  | OObservationSpace agent => discard (observation_space agent)
  | OActionSpace agent => discard (action_space agent)
  | OReset seed => reset seed
  | OStep action => step action
  | OObserve agent => discard (observe agent)
  | OLast with_obs => discard (last with_obs)
  | ORewards => discard rewards
  | OTerminations => discard terminations
  | OTruncations => discard truncations
  | OInfos => discard infos
  | OActionMask agent => discard (action_mask agent)
  | OAgentIterNext count max_iter => discard (agent_iter_next count max_iter)
  | ORender => render
  | OClose => close
  | OEnter => __enter__
  | OExit => __exit__
  end.

(** A sequence of operations, each caught or not by the caller. *)
Fixpoint perform_each (ops : list Operation) (st : EnvSt) : EnvSt :=
  match ops with
  | [] => st
  | op :: rest => perform_each rest (snd (perform op st))
  end.
End AEC.
End AECEnv.

(** ** The Parallel adapter *)

Module ParallelEnv.

Record HyperTokenParallelEnv : Type := {
  _aec_env : HyperTokenAECEnv;
  render_mode : option string
}.

Definition set_aec_env (e : HyperTokenAECEnv) (p : HyperTokenParallelEnv) : HyperTokenParallelEnv :=
  {| _aec_env := e; render_mode := render_mode p |}.

(** [agent in actions] together with [actions[agent]]: hashing a list or a
    dict raises, a hashable value that is not a string equals no key. *)
Definition lookup_action (agent : json) (actions : gmap string Z) : result (option Z) :=
  match agent with
  | JStr s => Ok (actions !! s)
  | JArr _ | JObj _ => Raise TypeError
  | _ => Ok None
  end.

(** [current == agent] for an [agent] that is a key of [actions], hence a
    string: only the same string equals it. *)
Definition py_eq_name (current agent : json) : bool :=
  match agent with
  | JStr s => is_str s current
  | _ => false
  end.

(** What [step] returns: observations, rewards, terminations, truncations,
    infos. *)
Definition StepResult : Type :=
  gmap string (ndarray float32) * json * json * json * json.

Section Parallel.
Context (rt : PyRuntime) (P : Peer).

Definition ParSt : Type := HyperTokenParallelEnv * World P.

(** Running a method of [self._aec_env]. *)
Definition via_aec {A} (m : M (AECEnv.EnvSt P) A) : M ParSt A := fun '(p, w) =>
  match m (_aec_env p, w) with
  | (r, (e', w')) => (r, (set_aec_env e' p, w'))
  end.

(** [HyperTokenParallelEnv(url, render_mode)] *)
Definition __init__ (u : string) (mode : option string)
  : World P -> result HyperTokenParallelEnv * World P := fun w =>
  match AECEnv.__init__ rt P u mode true w with
  | (Ok e, w') => (Ok {| _aec_env := e; render_mode := mode |}, w')
  | (Raise x, w') => (Raise x, w')
  end.

Definition possible_agents : M ParSt (list json) := via_aec (AECEnv.possible_agents P).
Definition agents : M ParSt json := via_aec (AECEnv.agents rt P).
Definition num_agents : M ParSt Z := via_aec (AECEnv.num_agents rt P).

Definition observation_space (agent : string) : M ParSt Space :=
  via_aec (AECEnv.observation_space P agent).

Definition action_space (agent : string) : M ParSt Space :=
  via_aec (AECEnv.action_space P agent).

(** [{agent: self._aec_env.observe(agent) for agent in l}], filling [acc]. *)
Fixpoint observe_each (l : list json) (acc : gmap string (ndarray float32))
  : M ParSt (gmap string (ndarray float32)) :=
  match l with
  | [] => mret acc
  | agent :: rest =>
      obs ← via_aec (AECEnv.observe rt P agent);
      k ← lift_result (agent_key agent);
      observe_each rest (<[k := obs]> acc)
  end.

Definition observe_all (current_agents : json) : M ParSt (gmap string (ndarray float32)) :=
  l ← lift_result (py_list current_agents);
  observe_each l ∅.

Definition reset (seed : option Z) : M ParSt (gmap string (ndarray float32) * json) :=
  via_aec (AECEnv.reset rt P seed) ;;
  current_agents ← agents;
  observations ← observe_all current_agents;
  infos ← via_aec (AECEnv.infos rt P);
  mret (observations, infos).

(** The body of the loop of [step] for one agent of the list. *)
Definition step_agent (actions : gmap string Z) (agent : json) : M ParSt unit :=
  found ← lift_result (lookup_action agent actions);
  match found with
  | Some action =>
      current ← via_aec (AECEnv.agent_selection rt P);
      if py_eq_name current agent
      then via_aec (AECEnv.step rt P (Some action))
      else mret tt
  | None => mret tt
  end.

Definition step (actions : gmap string Z) : M ParSt StepResult :=
  round ← agents;
  l ← lift_result (py_list round);
  for_each l (step_agent actions) ;;
  current_agents ← agents;
  observations ← observe_all current_agents;
  rewards ← via_aec (AECEnv.rewards rt P);
  terminations ← via_aec (AECEnv.terminations rt P);
  truncations ← via_aec (AECEnv.truncations rt P);
  infos ← via_aec (AECEnv.infos rt P);
  mret (observations, rewards, terminations, truncations, infos).

Definition state : M ParSt (gmap string (ndarray float32)) :=
  current_agents ← agents;
  observe_all current_agents.

Definition action_mask (agent : json) : M ParSt (option (ndarray bool)) :=
  via_aec (AECEnv.action_mask rt P agent).

Definition render : M ParSt unit := via_aec (AECEnv.render rt P).

Definition close : M ParSt unit := via_aec (AECEnv.close rt P).
End Parallel.
End ParallelEnv.

(** ** A reference server

    A small turn-based game server speaking the protocol, to run the bridge
    on concrete inputs: agents act in turn, a finished agent stays in the
    active list (and stays selected when its turn comes) until the game is
    reset, and the server can be put into a failed state in which it answers
    every command with an error. *)

Module TurnServer.

Record game : Type := {
  g_possible : list string;
  g_agents : list string;
  g_turn : nat;
  g_done : list string;
  g_fault : option string;
  g_terse : bool;
  g_log : list (string * Z)
}.

Definition selected (g : game) : string := nth (g_turn g) (g_agents g) "".

Definition is_done (g : game) (a : string) : bool := existsb (String.eqb a) (g_done g).

Definition half : float64 := binary_normalize 53 1024 1 (-1) false.

Definition ack : json := JObj [].

Definition per_agent (g : game) (f : string -> json) : json :=
  JObj (map (fun a => (a, f a)) (g_possible g)).

Definition after_reset (g : game) : game :=
  {| g_possible := g_possible g; g_agents := g_possible g; g_turn := 0;
     g_done := []; g_fault := g_fault g; g_terse := g_terse g; g_log := [] |}.

Definition after_step (g : game) (a : Z) : game :=
  {| g_possible := g_possible g; g_agents := g_agents g;
     g_turn := Nat.modulo (S (g_turn g)) (length (g_agents g));
     g_done := g_done g; g_fault := g_fault g; g_terse := g_terse g;
     g_log := g_log g ++ [(selected g, a)] |}.

Definition box_def : json :=
  JObj [("shape", JArr [JInt 2]); ("low", JArr [JInt 0; JInt 0]);
        ("high", JArr [JInt 1; JInt 1])].

Definition answer (g : game) (name : string) (kv : list (string * json)) : game * json :=
  if String.eqb name "reset" then (after_reset g, ack)
  else if String.eqb name "step" then
    match dict_get "action" kv with
    | Some (JInt a) =>
        if (0 <=? a) && (a <? 2) then (after_step g a, ack)
        else (g, JObj [("error", JStr "invalid action")])
    | _ => (g, JObj [("error", JStr "invalid action")])
    end
  else if String.eqb name "observe" then
    (g, JObj [("observation", JArr [JFloat half; JInt 1])])
  else if String.eqb name "last" then
    (g, if g_terse g then ack
        else JObj [("reward", JInt 0); ("terminated", JBool (is_done g (selected g)));
                   ("truncated", JBool false); ("info", JObj [])])
  else if String.eqb name "agents" then
    (g, JObj [("agents", JArr (map JStr (g_agents g)))])
  else if String.eqb name "possible_agents" then
    (g, JObj [("possible_agents", JArr (map JStr (g_possible g)))])
  else if String.eqb name "agent_selection" then
    (g, JObj [("agent", JStr (selected g))])
  else if String.eqb name "observation_space" then (g, JObj [("space", box_def)])
  else if String.eqb name "action_space" then (g, JObj [("space", JObj [("n", JInt 2)])])
  else if String.eqb name "rewards" then
    (g, JObj [("rewards", per_agent g (fun _ => JFloat f64_zero))])
  else if String.eqb name "terminations" then
    (g, JObj [("terminations", per_agent g (fun a => JBool (is_done g a)))])
  else if String.eqb name "truncations" then
    (g, JObj [("truncations", per_agent g (fun _ => JBool false))])
  else if String.eqb name "infos" then
    (g, JObj [("infos", per_agent g (fun _ => JObj []))])
  else if String.eqb name "action_mask" then
    match dict_get "agent" kv with
    | Some (JStr a) =>
        (g, JObj [("mask", JArr (if is_done g a then [] else [JBool true; JBool true]))])
    | _ => (g, ack)
    end
  else if String.eqb name "render" then (g, ack)
  else if String.eqb name "close" then (g, ack)
  else if String.eqb name "ping" then (g, ack)
  else if String.eqb name "env_info" then (g, JObj [("env_type", JStr "aec")])
  else (g, JObj [("error", JStr "unknown command")]).

Definition handle (g : game) (cmd : json) : game * result json :=
  match g_fault g with
  | Some msg => (g, Ok (JObj [("error", JStr msg)]))
  | None =>
      match cmd with
      | JObj kv =>
          match dict_get "cmd" kv with
          | Some (JStr name) => let (g', reply) := answer g name kv in (g', Ok reply)
          | _ => (g, Ok (JObj [("error", JStr "unknown command")]))
          end
      | _ => (g, Ok (JObj [("error", JStr "unknown command")]))
      end
  end.

Definition peer : Peer :=
  {| srv := game;
     accept := fun g => (g, Ok tt);
     exchange := handle;
     hangup := fun g => (g, Ok tt) |}.

(** The conversions of text left out of the model are never reached on
    this server's replies, so any choice will do; the machine has room for
    lists of up to 2^20 elements; numpy is a 2.x; the spaces library is
    gymnasium 1.x, which keeps the bounds of a [Box] as given and checks
    [low <= high] element by element (which refuses NaN as well). *)
Definition runtime : PyRuntime :=
  {| py_repr := fun _ => "";
     float_of_str := fun _ => Raise ValueError;
     np_bool_of_str := fun _ => Raise ValueError;
     list_fits := fun n => n <=? 2 ^ 20;
     np_maxdims := 64;
     box_low := fun f => f;
     box_high := fun f => f;
     box_accepts := fun low high =>
       forallb (fun p => SFleb (fst p) (snd p)) (zip low high) |}.

(** A game of three possible agents with two of them active. *)
Definition two_of_three (turn : nat) (done : list string) : game :=
  {| g_possible := ["player_0"; "player_1"; "player_2"];
     g_agents := ["player_0"; "player_1"];
     g_turn := turn; g_done := done; g_fault := None; g_terse := false;
     g_log := [] |}.

Definition world_of (g : game) : World peer := Build_World peer g [].

Definition open_client : HyperTokenClient :=
  {| url := "ws://localhost:9999"; ws := Some (websocket_to "ws://localhost:9999") |}.

(** An adapter as [_connect_and_init] leaves it on this server. *)
Definition open_env : HyperTokenAECEnv :=
  let box := {| nd_shape := [2]; nd_data := [S754_zero false; S754_zero false] |} in
  let one := binary_normalize 24 128 1 0 false in
  let sp := Box box {| nd_shape := [2]; nd_data := [one; one] |} [2] in
  {| client := open_client; render_mode := None; _connected := true;
     _possible_agents := JArr [JStr "player_0"; JStr "player_1"; JStr "player_2"];
     _observation_spaces := list_to_map [("player_0", sp); ("player_1", sp); ("player_2", sp)];
     _action_spaces := list_to_map [("player_0", Discrete 2); ("player_1", Discrete 2);
                                    ("player_2", Discrete 2)] |}.

(** A Parallel adapter around [open_env], and an action for each of the two
    active agents. *)
Definition open_parallel : ParallelEnv.HyperTokenParallelEnv :=
  {| ParallelEnv._aec_env := open_env; ParallelEnv.render_mode := None |}.

Definition both_act : gmap string Z := list_to_map [("player_0", 0); ("player_1", 1)].

End TurnServer.

(** ** Vocabulary of the properties *)

(** A method respects a relation between states when every run of it,
    returning or raising, takes a state to a related one. *)
Definition respects {St A} (R : relation St) (m : M St A) : Prop :=
  forall st r st', m st = (r, st') -> R st st'.

(** The actions of the [step] commands in a stretch of the trace. *)
Definition steps_of (evs : list event) : list Z := omap step_action (sent evs).

Section Worlds.
Context {P : Peer}.

(** The trace only grows, and by commands that all satisfy [ok]. *)
Definition grows (ok : json -> bool) (w w' : World P) : Prop :=
  exists evs, trace w' = trace w ++ evs /\ Forall (fun c => ok c = true) (sent evs).

(** A relation on the network, read on a state that carries it. *)
Definition on_world {X : Type} (R : relation (World P)) : relation (X * World P) :=
  fun st st' => R (snd st) (snd st').

(** The reply the server gives to [cmd] in [w], and the network after that
    exchange. *)
Definition reply_to (w : World P) (cmd : json) : result json :=
  snd (exchange P (server w) cmd).

Definition exchanged (w : World P) (cmd : json) : World P :=
  {| server := fst (exchange P (server w) cmd);
     trace := trace w ++ [EvSend cmd (reply_to w cmd)] |}.
End Worlds.

Definition not_connected : exn := RuntimeError "Not connected. Call connect() first.".

(** What [_send] makes of a reply. *)
Definition check_reply (rt : PyRuntime) (reply : result json) : result json :=
  response ← reply;
  has_error ← py_in "error" response;
  if has_error : bool then
    err ← py_getitem response "error";
    Raise (RuntimeError ("Server error: " +:+ py_str rt err))
  else Ok response.

Definition any_cmd (c : json) : bool := true.
Definition not_step (c : json) : bool := negb (is_cmd "step" c).
Definition reset_or_render (c : json) : bool := is_cmd "reset" c || is_cmd "render" c.

(** The adapter's own state is the same in both states. *)
Definition same_local {P : Peer} : relation (AECEnv.EnvSt P) :=
  fun st st' => local_state (fst st') = local_state (fst st).

(** A disconnected flag goes with a closed socket: what [__init__] sets up
    and every operation of the adapter keeps. *)
Definition consistent (e : HyperTokenAECEnv) : bool :=
  _connected e || match ws (client e) with None => true | Some _ => false end.

(** The adapter after [close]: flag down, socket gone. *)
Definition closed (e : HyperTokenAECEnv) : Prop :=
  _connected e = false /\ ws (client e) = None.

(** A connected adapter resets without initialising again. *)
Definition reset_connected (rt : PyRuntime) (P : Peer) (seed : option Z)
  : M (AECEnv.EnvSt P) unit :=
  AECEnv.via_client P (Client.reset rt P seed) ;;
  e ← AECEnv.self P;
  if is_human (render_mode e) then AECEnv.render rt P else mret tt.

(** A value rounded to float32 and read back as a Python float. *)
Definition f32_round (f : float64) : float64 := to_float64 (to_float32 f).

(** The Python floats [tolist] makes of float32 values. *)
Definition floats_of (data : list float32) : json :=
  JArr (map (fun f => JFloat (to_float64 f)) data).

(** [x] is the JSON number whose Python float is [f]. *)
Inductive json_number : json -> float64 -> Prop :=
| number_int (z : Z) (f : float64) : float_of_int z = Ok f -> json_number (JInt z) f
| number_float (f : float64) : json_number (JFloat f) f.

(** The float32 bounds a space gets from the [low] or [high] field of a
    descriptor for [count] elements: a missing (or null) field is filled with
    the default, a flat list of [count] numbers is cast to float32 element by
    element. *)
Inductive bounds_become (count : Z) (default : float32) : option json -> list float32 -> Prop :=
| bounds_absent : bounds_become count default None (replicate (Z.to_nat count) default)
| bounds_null : bounds_become count default (Some JNull) (replicate (Z.to_nat count) default)
| bounds_listed (xs : list json) (fs : list float64) :
    Forall2 json_number xs fs ->
    Z.of_nat (length xs) = count ->
    bounds_become count default (Some (JArr xs)) (map to_float32 fs).

(** The field is missing or null, so that [convert_space] builds the default
    list for it; and whether the machine has room for that list. *)
Definition needs_default (field : option json) : bool :=
  match field with
  | None | Some JNull => true
  | Some _ => false
  end.

(** The length [convert_space] gives a default list: the element count as
    [np.prod] computes it, 1 for an empty shape. *)
Definition default_size (dims : list Z) : Z :=
  match dims with
  | [] => 1
  | _ => wrap64 (prod_dims dims)
  end.

Definition default_fits (rt : PyRuntime) (count : Z) (field : option json) : bool :=
  negb (needs_default field) || (count <=? 0) || ((count <? 2 ^ 60) && list_fits rt count).

(** The fields of a [last] reply that are present hold values [float()] and
    [dict()] accept ([bool()] accepts everything). *)
Definition coercible (rt : PyRuntime) (kv : list (string * json)) : Prop :=
  (forall v, dict_get "reward" kv = Some v -> exists f, py_float rt v = Ok f) /\
  (forall v, dict_get "info" kv = Some v -> exists d, py_dict v = Ok d).

(** In a stretch of the trace, no command goes out before a connection is
    opened. *)
Definition no_send_before_connect (evs : list event) : Prop :=
  forall pre cmd reply post, evs = pre ++ EvSend cmd reply :: post -> EvConnect ∈ pre.

(** A command that fetches the possible agents or a space. *)
Definition is_fetch (c : json) : bool :=
  is_cmd "possible_agents" c || is_cmd "observation_space" c || is_cmd "action_space" c.

(** What a client with an open socket makes of the server's reply to [cmd]
    in [w] when it wants the field [key] of it: a dropped connection and an
    error reply are raised, and so is a reply without the field. *)
Definition reported (rt : PyRuntime) {P : Peer} (w : World P) (cmd : json) (key : string)
  : result json :=
  response ← check_reply rt (reply_to w cmd);
  py_getitem response key.

(** The adapter is linked to the server: flag up, socket open. *)
Definition linked (e : HyperTokenAECEnv) : Prop :=
  _connected e = true /\ is_Some (ws (client e)).

(** The state after the adapter asked the server for the active agents, and
    after it asked for the selected agent as well: the adapter is as it was,
    the commands went over the wire. *)
Definition asked_agents {P : Peer} (st : AECEnv.EnvSt P) : AECEnv.EnvSt P :=
  (fst st, exchanged (snd st) (Client.cmd0 "agents")).

Definition asked_selection {P : Peer} (st : AECEnv.EnvSt P) : AECEnv.EnvSt P :=
  (fst st, exchanged (snd (asked_agents st)) (Client.cmd0 "agent_selection")).

(** A resumption of [agent_iter] in [st], after [count] agents were yielded,
    yields [agent]: fewer than [max_iter] agents were yielded, the server,
    asked for the active agents, reports a non-empty list, and asked next
    for the selected agent, reports [agent]. *)
Definition yields_at (rt : PyRuntime) {P : Peer} (count max_iter : Z)
    (st : AECEnv.EnvSt P) (agent : json) : Prop :=
  linked (fst st) /\ count < max_iter /\
  (exists ags, reported rt (snd st) (Client.cmd0 "agents") "agents" = Ok ags /\
               py_bool ags = true) /\
  reported rt (snd (asked_agents st)) (Client.cmd0 "agent_selection") "agent" = Ok agent.

(** A resumption that ends the sequence and leaves [st']: the adapter's flag
    is down (it then has no active agents, and the server is not asked), or
    the server, asked for the active agents, reports an empty list, or
    [max_iter] agents were yielded already. *)
Definition stops_at (rt : PyRuntime) {P : Peer} (count max_iter : Z)
    (st st' : AECEnv.EnvSt P) : Prop :=
  (_connected (fst st) = false /\ st' = st) \/
  (linked (fst st) /\ st' = asked_agents st /\
   exists ags, reported rt (snd st) (Client.cmd0 "agents") "agents" = Ok ags /\
               (py_bool ags = false \/ max_iter <= count)).

(** A resumption at which a query raises [e] and leaves [st']: the flag is
    up and the socket is not open, or the query for the active agents
    raises, or the one for the selected agent does. *)
Definition query_raises (rt : PyRuntime) {P : Peer} (count max_iter : Z)
    (st : AECEnv.EnvSt P) (e : exn) (st' : AECEnv.EnvSt P) : Prop :=
  _connected (fst st) = true /\
  ((ws (client (fst st)) = None /\ e = not_connected /\ st' = st) \/
   (is_Some (ws (client (fst st))) /\ st' = asked_agents st /\
    reported rt (snd st) (Client.cmd0 "agents") "agents" = Raise e) \/
   (is_Some (ws (client (fst st))) /\ st' = asked_selection st /\ count < max_iter /\
    (exists ags, reported rt (snd st) (Client.cmd0 "agents") "agents" = Ok ags /\
                 py_bool ags = true) /\
    reported rt (snd (asked_agents st)) (Client.cmd0 "agent_selection") "agent" = Raise e)).

(** A [for agent in env.agent_iter(max_iter): body(agent)] loop from a
    generator frame with [count], told resumption by resumption: the agents
    yielded, how the loop ended, and the state it left.  The body runs in the
    state the yielding resumption left, and the next resumption in the state
    the body left. *)
Inductive iterates (rt : PyRuntime) {P : Peer} (max_iter : Z)
    (body : json -> M (AECEnv.EnvSt P) unit)
  : Z -> AECEnv.EnvSt P -> list json -> AECEnv.loop_end -> AECEnv.EnvSt P -> Prop :=
| iterates_stop count st st' :
    stops_at rt count max_iter st st' ->
    iterates rt max_iter body count st [] AECEnv.StopIteration st'
| iterates_query_raises count st e st' :
    query_raises rt count max_iter st e st' ->
    iterates rt max_iter body count st [] (AECEnv.Raised e) st'
| iterates_body_raises count st agent e st' :
    yields_at rt count max_iter st agent ->
    body agent (asked_selection st) = (Raise e, st') ->
    iterates rt max_iter body count st [agent] (AECEnv.Raised e) st'
| iterates_yield count st agent st2 ys fin st' :
    yields_at rt count max_iter st agent ->
    body agent (asked_selection st) = (Ok tt, st2) ->
    iterates rt max_iter body (count + 1) st2 ys fin st' ->
    iterates rt max_iter body count st (agent :: ys) fin st'.

(** A float32 array of one element. *)
Definition scalar32 (f : float64) : ndarray float32 :=
  {| nd_shape := []; nd_data := [to_float32 f] |}.

(** The action [actions] supplies for an agent of the round, if any. *)
Definition supplied (actions : gmap string Z) (agent : json) : option Z :=
  match ParallelEnv.lookup_action agent actions with
  | Ok (Some action) => Some action
  | _ => None
  end.

(** What goes over the wire for one agent of the round in a call of the
    Parallel adapter's [step] that gets past this agent: nothing for an
    agent without a supplied action; for an agent with the action [a], the
    query for the selected agent followed by at most one [step], which
    carries [a], and by exactly one when the server names this agent. *)
Definition turn_of (rt : PyRuntime) (actions : gmap string Z) (agent : json)
    (evs : list event) : Prop :=
  match supplied actions agent with
  | None => evs = []
  | Some a =>
      exists reply rest,
        evs = EvSend (Client.cmd0 "agent_selection") reply :: rest /\
        (steps_of rest = [] \/ steps_of rest = [a]) /\
        forall current,
          (response ← check_reply rt reply; py_getitem response "agent") = Ok current ->
          ParallelEnv.py_eq_name current agent = true ->
          steps_of rest = [a]
  end.

(** At most one [step] went out, and then with action [a]. *)
Definition at_most_step (a : Z) (evs : list event) : Prop :=
  steps_of evs = [] \/ steps_of evs = [a].

(** The trace grew by a stretch that satisfies [Q]. *)
Definition emits {P : Peer} (Q : list event -> Prop) (w w' : World P) : Prop :=
  exists evs, trace w' = trace w ++ evs /\ Q evs.

(** The second half of the Parallel adapter's [step]: the queries made once
    the round is over. *)
Definition step_results (rt : PyRuntime) (P : Peer) : M (ParallelEnv.ParSt P) ParallelEnv.StepResult :=
  current_agents ← ParallelEnv.agents rt P;
  observations ← ParallelEnv.observe_all rt P current_agents;
  rewards ← ParallelEnv.via_aec P (AECEnv.rewards rt P);
  terminations ← ParallelEnv.via_aec P (AECEnv.terminations rt P);
  truncations ← ParallelEnv.via_aec P (AECEnv.truncations rt P);
  infos ← ParallelEnv.via_aec P (AECEnv.infos rt P);
  mret (observations, rewards, terminations, truncations, infos).

(** The connected flag is the same in both states. *)
Definition keeps_connected {P : Peer} : relation (AECEnv.EnvSt P) :=
  fun st st' => _connected (fst st') = _connected (fst st).

(** Some Python floats: 0.1, 3.0 and 10^39 (the last one beyond the float32
    range). *)
Definition tenth : float64 := SFdiv 53 1024 f64_one (binary_normalize 53 1024 10 0 false).
Definition three : float64 := binary_normalize 53 1024 3 0 false.
Definition ten_to_39 : float64 := binary_normalize 53 1024 (10 ^ 39) 0 false.

(** ** More vocabulary: the client on the wire *)

(** The field of the reply a client method returns, for the methods that
    return one field. *)
Definition reply_field (m : Client.ClientMethod) : option string :=
  match m with
  | Client.CObserve _ => Some "observation"
  | Client.CAgents => Some "agents"
  | Client.CPossibleAgents => Some "possible_agents"
  | Client.CAgentSelection => Some "agent"
  | Client.CObservationSpace _ | Client.CActionSpace _ => Some "space"
  | Client.CRewards => Some "rewards"
  | Client.CTerminations => Some "terminations"
  | Client.CTruncations => Some "truncations"
  | Client.CInfos => Some "infos"
  | _ => None
  end.

(** The network after the socket was closed from this side. *)
Definition hung_up {P : Peer} (w : World P) : World P :=
  {| server := fst (hangup P (server w)); trace := trace w ++ [EvClose] |}.

(** ** More vocabulary: the adapters *)

(** The commands that fetch the two spaces of each agent of [l], in order. *)
Definition space_fetches (l : list json) : list json :=
  flat_map (fun a => [Client.cmd_agent "observation_space" a;
                      Client.cmd_agent "action_space" a]) l.

(** Both caches of the adapter hold a space for the agent. *)
Definition cached (e : HyperTokenAECEnv) (agent : json) : Prop :=
  exists s, agent = JStr s /\
            is_Some (_observation_spaces e !! s) /\ is_Some (_action_spaces e !! s).

(** From this state on, [observation_space] and [action_space] return a
    space for the agent. *)
Definition has_spaces {P : Peer} (st : AECEnv.EnvSt P) (agent : json) : Prop :=
  exists s osp asp, agent = JStr s /\
    AECEnv.observation_space P s st = (Ok osp, st) /\
    AECEnv.action_space P s st = (Ok asp, st).

(** The commands that went out between two states of the network. *)
Definition sends {P : Peer} (cmds : list json) (w w' : World P) : Prop :=
  exists evs, trace w' = trace w ++ evs /\ sent evs = cmds.

(** The observation of a [last] result. *)
Definition last_obs (res : LastResult) : option (ndarray float32) := res.1.1.1.1.

(** The [observe] commands for the agents of [l], in order. *)
Definition observes (l : list json) : list json := map (Client.cmd_agent "observe") l.

(** The list of agents the server gives in reply to [agents] in [w]. *)
Definition listed_agents {P : Peer} (w : World P) (l : list json) : Prop :=
  exists resp ags, reply_to w (Client.cmd0 "agents") = Ok resp /\
                   py_getitem resp "agents" = Ok ags /\ py_list ags = Ok l.

(** The dict has exactly the agents of [l] as keys. *)
Definition keyed_by {A} (obs : gmap string A) (l : list json) : Prop :=
  forall s, is_Some (obs !! s) <-> JStr s ∈ l.

(** ** More vocabulary: spaces *)


(** ** Utilities: waiting for a server, starting one *)

(** The clock as the run time provides it: the successive readings of
    [time.time()], and [time.sleep], which refuses some durations (negative
    ones and NaN with [ValueError], too large ones with [OverflowError]). *)
Record Clock : Type := {
  time_time : nat -> float64;
  time_sleep : float64 -> result unit
}.

(** How a loop that is run with fuel ends. *)
Inductive ended (A : Type) : Type :=
| Returned (a : A)
| Failed (e : exn)
| Unfinished.
Arguments Returned {A} a.
Arguments Failed {A} e.
Arguments Unfinished {A}.

(** What the embedding leaves to the [statistics] module: the mean and the
    median of a non-empty list of floats. *)
Record Statistics : Type := {
  statistics_mean : list float64 -> result float64;
  statistics_median : list float64 -> result float64
}.

(** The dict [measure_latency] returns. *)
Record LatencyStats : Type := {
  stats_min : float64;
  stats_max : float64;
  stats_mean : float64;
  stats_median : float64;
  stats_samples : Z
}.

(** [min(l)] and [max(l)] on floats: the first element that no later one is
    below (above); [ValueError] on an empty list. *)
Definition py_min (l : list float64) : result float64 :=
  match l with
  | [] => Raise ValueError
  | x :: rest => Ok (fold_left (fun m y => if SFltb y m then y else m) rest x)
  end.

Definition py_max (l : list float64) : result float64 :=
  match l with
  | [] => Raise ValueError
  | x :: rest => Ok (fold_left (fun m y => if SFltb m y then y else m) rest x)
  end.

(** The process [subprocess.Popen] is asked for: the command line, and
    whether standard output and standard error are piped. *)
Record Popen : Type := {
  popen_args : list string;
  popen_stdout_pipe : bool;
  popen_stderr_pipe : bool
}.

Module Utils.
Section Utils.
Context (rt : PyRuntime) (P : Peer) (clock : Clock) (stats : Statistics).

(** The state of the functions that read the clock: their client, the
    network, and the number of clock readings taken so far. *)
Definition ClockSt : Type := Client.ClientSt P * nat.

(** The [while] loop of [wait_for_server]. *)
Fixpoint wait_loop (fuel : nat) (start timeout poll_interval : float64) (st : ClockSt)
  : ended bool * ClockSt :=
  match fuel with
  | O => (Unfinished, st)
  | S fuel' =>
      let '(cst, reads) := st in
      if SFltb (SFsub 53 1024 (time_time clock reads) start) timeout then
        match (Client.connect P ;; Client.disconnect P) cst with
        | (Ok _, cst') => (Returned true, (cst', S reads))
        | (Raise _, cst') =>
            match time_sleep clock poll_interval with
            | Ok _ => wait_loop fuel' start timeout poll_interval (cst', S reads)
            | Raise e => (Failed e, (cst', S reads))
            end
        end
      else (Returned false, (cst, S reads))
  end.

Definition wait_for_server (fuel : nat) (u : string) (timeout poll_interval : float64)
    (w : World P) : ended bool * ClockSt :=
  let start := time_time clock 0 in
  let client := new_client u in
  wait_loop fuel start timeout poll_interval ((client, w), 1%nat).

(** [HyperTokenClient.ping] with its clock readings: the round trip of one
    [ping] command, in milliseconds. *)
Definition ping : M ClockSt float64 := fun '(cst, reads) =>
  let start := time_time clock reads in
  match Client._send rt P (Client.cmd0 "ping") cst with
  | (Ok _, cst') =>
      (Ok (SFmul 53 1024 (SFsub 53 1024 (time_time clock (S reads)) start)
             (binary_normalize 53 1024 1000 0 false)),
       (cst', S (S reads)))
  | (Raise e, cst') => (Raise e, (cst', S reads))
  end.

(** Running a method of the client. *)
Definition with_client {A} (m : M (Client.ClientSt P) A) : M ClockSt A := fun '(cst, reads) =>
  match m cst with
  | (r, cst') => (r, (cst', reads))
  end.

(** [for _ in range(n): latencies.append(client.ping())] *)
Fixpoint ping_each (n : nat) (latencies : list float64) : M ClockSt (list float64) :=
  match n with
  | O => mret latencies
  | S n' =>
      latency ← ping;
      ping_each n' (latencies ++ [latency])
  end.

Definition measure_latency (u : string) (samples : Z) (w : World P)
  : result LatencyStats * ClockSt :=
  (with_client (Client.connect P) ;;
   latencies ← ping_each (Z.to_nat samples) [];
   with_client (Client.disconnect P) ;;
   lo ← lift_result (py_min latencies);
   hi ← lift_result (py_max latencies);
   mean ← lift_result (statistics_mean stats latencies);
   median ← lift_result (statistics_median stats latencies);
   mret {| stats_min := lo; stats_max := hi; stats_mean := mean; stats_median := median;
           stats_samples := samples |})
  ((new_client u, w), O).

(** The arguments one keyword option adds to the command line. *)
Definition option_args (key : string) (value : json) : list string :=
  if String.eqb key "num_agents" then ["--agents"; py_str rt value]
  else if String.eqb key "num_decks" then ["--decks"; py_str rt value]
  else if String.eqb key "seed" then ["--seed"; py_str rt value]
  else [].

Definition start_server (env_type : string) (port : json) (verbose : bool)
    (env_options : list (string * json)) : Popen :=
  let cmd := ["npx"; "tsx"; "bridge/server.ts"; "--env"; env_type; "--port"; py_str rt port] in
  let cmd := if verbose then cmd ++ ["--verbose"] else cmd in
  let cmd := fold_left (fun cmd '(key, value) => cmd ++ option_args key value) env_options cmd in
  {| popen_args := cmd;
     popen_stdout_pipe := negb verbose;
     popen_stderr_pipe := negb verbose |}.
End Utils.
End Utils.

(** ** Export: the action map of a model's metadata *)

(** [{i: action for i, action in enumerate(l)}], from index [i] on. *)
Fixpoint enumerate_into (i : nat) (l : list json) (acc : gmap nat json) : gmap nat json :=
  match l with
  | [] => acc
  | action :: rest => enumerate_into (S i) rest (<[i := action]> acc)
  end.

Definition create_action_map_from_metadata (metadata : json) : result (gmap nat json) :=
  has_actions ← py_in "actions" metadata;
  if negb has_actions then mret ∅
  else
    actions ← py_getitem metadata "actions";
    l ← py_list actions;
    mret (enumerate_into 0 l ∅).

(** ** More vocabulary: utilities *)

(** The keyword options [start_server] passes on to the server. *)
Definition known_option (key : string) : bool :=
  String.eqb key "num_agents" || String.eqb key "num_decks" || String.eqb key "seed".

(** At the [n]-th reading of the clock the deadline has passed: the loop
    test [time.time() - start < timeout] fails. *)
Definition deadline_passed (clock : Clock) (timeout : float64) (n : nat) : bool :=
  negb (SFltb (SFsub 53 1024 (time_time clock n) (time_time clock 0)) timeout).

(** What [wait_for_server] leaves on the wire: nothing, or one connection
    opened and closed again when it returns [True]. *)
Definition probe_of (r : ended bool) : list event :=
  match r with
  | Returned true => [EvConnect; EvClose]
  | _ => []
  end.

(** ** The Gymnasium wrapper of the Blackjack training example

    The wrapper drives one agent through a [HyperTokenClient].  Its [reset]
    and [render] go through Gymnasium's seeding and the console and have no
    model here. *)

Module TrainAndExport.

Record BlackjackGymWrapper : Type := {
  url : string;
  render_mode : option string;
  client : HyperTokenClient;
  agent_id : json;
  observation_space : Space;
  action_space : Space;
  _last_obs : option (ndarray float32)
}.

Definition set_client (c : HyperTokenClient) (g : BlackjackGymWrapper)
  : BlackjackGymWrapper :=
  {| url := url g; render_mode := render_mode g;
     client := c; agent_id := agent_id g;
     observation_space := observation_space g; action_space := action_space g;
     _last_obs := _last_obs g |}.

Definition set_last_obs (o : option (ndarray float32)) (g : BlackjackGymWrapper)
  : BlackjackGymWrapper :=
  {| url := url g; render_mode := render_mode g;
     client := client g; agent_id := agent_id g;
     observation_space := observation_space g; action_space := action_space g;
     _last_obs := o |}.

(** [if not agents: raise RuntimeError(...)] followed by [agents[0]]: the
    first element of a list, the first character of a string; a dict decoded
    from JSON has no key [0] (the [KeyError] names that key), and the other
    values cannot be indexed. *)
Definition first_agent (agents : json) : result json :=
  if negb (py_bool agents) then Raise (RuntimeError "No agents available from server")
  else
    match agents with
    | JArr (a :: _) => Ok a
    | JStr (String ch _) => Ok (JStr (String ch EmptyString))
    | JObj _ => Raise (KeyError "0")
    | _ => Raise TypeError
    end.

(** [spaces.Box(low=0.0, high=1.0, shape=(7,), dtype=np.float32)] *)
Definition unit_box : Space :=
  Box {| nd_shape := [7]; nd_data := replicate 7 (S754_zero false) |}
      {| nd_shape := [7]; nd_data := replicate 7 (binary_normalize 24 128 1 0 false) |}
      [7].

(** What [step] returns: observation, reward, terminated, truncated, info. *)
Definition GymStep : Type := ndarray float32 * float64 * bool * bool * json.

Section Wrapper.
Context (rt : PyRuntime) (P : Peer).

Definition GymSt : Type := BlackjackGymWrapper * World P.

(** Running a method of [self.client]. *)
Definition via_client {A} (m : M (Client.ClientSt P) A) : M GymSt A := fun '(g, w) =>
  match m (client g, w) with
  | (r, (c', w')) => (r, (set_client c' g, w'))
  end.

(** [BlackjackGymWrapper(url, render_mode)] *)
Definition __init__ (u : string) (mode : option string)
  : World P -> result BlackjackGymWrapper * World P := fun w =>
  match (Client.connect P ;; Client.possible_agents rt P) (new_client u, w) with
  | (Raise x, (_, w')) => (Raise x, w')
  | (Ok agents, (c, w')) =>
      match first_agent agents with
      | Raise x => (Raise x, w')
      | Ok a =>
          (Ok {| url := u; render_mode := mode; client := c;
                 agent_id := a; observation_space := unit_box;
                 action_space := Discrete 2; _last_obs := None |}, w')
      end
  end.

Definition step (action : Z) : M GymSt GymStep :=
  via_client (Client.step rt P action) ;;
  g ← gets fst;
  obs ← via_client (Client.observe rt P (agent_id g));
  result ← via_client (Client.last rt P);
  modify (fun '(g, w) => (set_last_obs (Some obs) g, w)) ;;
  reward ← lift_result (py_get result "reward" (JFloat f64_zero) ≫= py_float rt);
  terminated ← lift_result (py_get result "terminated" (JBool false));
  truncated ← lift_result (py_get result "truncated" (JBool false));
  info ← lift_result (py_get result "info" (JObj []));
  mret (obs, reward, py_bool terminated, py_bool truncated, info).

Definition close : M GymSt unit := via_client (Client.close rt P).
End Wrapper.
End TrainAndExport.

(** The observation of a step of the wrapper. *)
Definition step_obs (res : TrainAndExport.GymStep) : ndarray float32 := res.1.1.1.1.

(** ** More servers, and a clock *)

(** A server that acknowledges every command with an empty object. *)
Definition ack_peer : Peer :=
  {| srv := unit;
     accept := fun s => (s, Ok tt);
     exchange := fun s _ => (s, Ok TurnServer.ack);
     hangup := fun s => (s, Ok tt) |}.

(** The reference server, except that it answers the command [name] with
    [reply]. *)
Definition answering (name : string) (reply : json) : Peer :=
  {| srv := TurnServer.game;
     accept := fun g => (g, Ok tt);
     exchange := fun g cmd =>
       if is_cmd name cmd then (g, Ok reply) else TurnServer.handle g cmd;
     hangup := fun g => (g, Ok tt) |}.

(** No server: every connection attempt is refused. *)
Definition no_peer : Peer :=
  {| srv := unit;
     accept := fun s => (s, Raise (TransportError "connection refused"));
     exchange := fun s _ => (s, Raise (TransportError "connection lost"));
     hangup := fun s => (s, Ok tt) |}.

(** A clock that advances by one second from one reading to the next, and
    sleeps for any duration. *)
Definition ticking : Clock :=
  {| time_time := fun n => binary_normalize 53 1024 (Z.of_nat n) 0 false;
     time_sleep := fun _ => Ok tt |}.

(** An adapter constructed without connecting. *)
Definition fresh_env : HyperTokenAECEnv :=
  {| client := new_client "ws://localhost:9999"; render_mode := None; _connected := false;
     _possible_agents := JArr []; _observation_spaces := ∅; _action_spaces := ∅ |}.

(** A wrapper as its constructor leaves it on the reference server. *)
Definition open_wrapper : TrainAndExport.BlackjackGymWrapper :=
  {| TrainAndExport.url := "ws://localhost:9999";
     TrainAndExport.render_mode := None;
     TrainAndExport.client := TurnServer.open_client;
     TrainAndExport.agent_id := JStr "player_0";
     TrainAndExport.observation_space := TrainAndExport.unit_box;
     TrainAndExport.action_space := Discrete 2;
     TrainAndExport._last_obs := None |}.

(** The statistics of the lists of one element, whose mean and median are
    that element. *)
Definition single_statistics : Statistics :=
  {| statistics_mean := fun l => match l with [x] => Ok x | _ => Raise ValueError end;
     statistics_median := fun l => match l with [x] => Ok x | _ => Raise ValueError end |}.

(** A reference server that answers every command with an error. *)
Definition faulty_game : TurnServer.game :=
  {| TurnServer.g_possible := ["player_0"]; TurnServer.g_agents := ["player_0"];
     TurnServer.g_turn := 0; TurnServer.g_done := [];
     TurnServer.g_fault := Some "shutting down"; TurnServer.g_terse := false;
     TurnServer.g_log := [] |}.

(** ** The basic-strategy policy of the PettingZoo example

    The policy reads a one-dimensional float32 observation and an optional
    one-dimensional boolean mask, both given here by their elements.
    Indexing past the end raises [IndexError], which none of the bridge's
    own code raises; hence a result type of its own. *)

Inductive policy_result : Type :=
| Chooses (action : Z)
| RaisesIndexError
| RaisesOther (e : exn).

(** [int(x)] for a float: truncation towards zero. *)
Definition int_of_float (f : spec_float) : result Z :=
  match f with
  | S754_nan => Raise ValueError
  | S754_infinity _ => Raise OverflowError
  | S754_zero _ => Ok 0
  | S754_finite s m e => Ok (cond_Zopp s (Z.shiftl (Zpos m) e))
  end.

(** The indices of the true entries, as [np.where(mask)[0]] lists them. *)
Fixpoint np_where (i : Z) (mask : list bool) : list Z :=
  match mask with
  | [] => []
  | b :: rest => if b then i :: np_where (i + 1) rest else np_where (i + 1) rest
  end.

Section Policy.
(** The product of a float32 scalar and a Python int, which numpy computes in
    float32 or in float64 depending on its version. *)
Context (times : float32 -> Z -> spec_float).

(** [int(observation[i] * k)] *)
Definition scaled (observation : list float32) (i : nat) (k : Z)
    (next : Z -> policy_result) : policy_result :=
  match observation !! i with
  | None => RaisesIndexError
  | Some x =>
      match int_of_float (times x k) with
      | Ok z => next z
      | Raise e => RaisesOther e
      end
  end.

(** [observation[i] > 0.5]: the float32 entry is compared by value, as the
    float64 of that value. *)
Definition above_half (observation : list float32) (i : nat)
    (next : bool -> policy_result) : policy_result :=
  match observation !! i with
  | None => RaisesIndexError
  | Some x => next (SFltb TurnServer.half (to_float64 x))
  end.

(** [action_mask[i]] for an index that is not negative. *)
Definition mask_at (action_mask : list bool) (i : Z) (next : bool -> policy_result)
  : policy_result :=
  match action_mask !! Z.to_nat i with
  | None => RaisesIndexError
  | Some b => next b
  end.

(** The action of the strategy table, before the mask is looked at. *)
Definition strategy (hand_value dealer_upcard : Z) (is_soft can_double : bool) : Z :=
  let action :=
    if is_soft then
      if hand_value <? 18 then 0
      else if (hand_value =? 18) &&
              ((dealer_upcard =? 9) || (dealer_upcard =? 10) || (dealer_upcard =? 11))
           then 0
      else 1
    else
      if hand_value <? 12 then 0
      else if hand_value <? 17 then (if 7 <=? dealer_upcard then 0 else 1)
      else 1 in
  if can_double && ((hand_value =? 10) || (hand_value =? 11)) then
    (if dealer_upcard <? 10 then 2 else action)
  else action.

Definition basic_strategy_policy (observation : list float32)
    (action_mask : option (list bool)) : policy_result :=
  scaled observation 0 30 (fun hand_value =>
  scaled observation 1 11 (fun dealer_upcard =>
  above_half observation 2 (fun is_soft =>
  above_half observation 3 (fun can_double =>
  above_half observation 4 (fun can_split =>
  let action := strategy hand_value dealer_upcard is_soft can_double in
  match action_mask with
  | None => Chooses action
  | Some mask =>
      mask_at mask action (fun allowed =>
      if negb allowed then
        mask_at mask 0 (fun hit =>
        if hit then Chooses 0
        else
          mask_at mask 1 (fun stand =>
          if stand then Chooses 1
          else
            match np_where 0 mask with
            | first :: _ => Chooses first
            | [] => Chooses 1
            end))
      else Chooses action)
  end))))).
End Policy.

(** The mask allows the action. *)
Definition allows (mask : list bool) (action : Z) : bool :=
  (0 <=? action) && match mask !! Z.to_nat action with Some b => b | None => false end.

(** The product computed in float64, on the float64 of the entry's value. *)
Definition times64 (x : float32) (k : Z) : spec_float :=
  SFmul 53 1024 (to_float64 x) (binary_normalize 53 1024 k 0 false).

(** The float32 of a small dyadic number [m * 2^e]. *)
Definition f32 (m e : Z) : float32 := binary_normalize 24 128 m e false.

(** An observation of a hard 15 against a dealer's 5, and one of a hard 11
    against a dealer's 5, both with doubling possible; and the second one
    with the entry for doubling at 0.25. *)
Definition hard_fifteen : list float32 :=
  [f32 1 (-1); f32 1 (-1); f32 0 0; f32 1 0; f32 0 0].

Definition hard_eleven : list float32 :=
  [f32 3 (-3); f32 1 (-1); f32 0 0; f32 1 0; f32 0 0].

Definition hard_eleven_no_double : list float32 :=
  [f32 3 (-3); f32 1 (-1); f32 0 0; f32 1 (-2); f32 0 0].

(** * Properties *)

(** ** Reasoning about monadic code *)

Lemma bind_run {St A B} (m : M St A) (f : A -> M St B) (st : St) :
  (m ≫= f) st =
  match m st with
  | (Ok a, st') => f a st'
  | (Raise e, st') => (Raise e, st')
  end.
Proof. reflexivity. Qed.

Lemma ret_run {St A} (a : A) (st : St) : (mret a : M St A) st = (Ok a, st).
Proof. reflexivity. Qed.

Section Respects.
Context {St : Type} (R : relation St) `{!PreOrder R}.

Lemma respects_ret {A} (a : A) : respects R (mret a : M St A).
Proof. intros st r st' [= <- <-]. reflexivity. Qed.

Lemma respects_raise {A} (e : exn) : respects R (raise e : M St A).
Proof. intros st r st' [= <- <-]. reflexivity. Qed.

Lemma respects_lift_result {A} (x : result A) : respects R (lift_result x : M St A).
Proof. intros st r st' [= <- <-]. reflexivity. Qed.

Lemma respects_gets {A} (f : St -> A) : respects R (gets f).
Proof. intros st r st' [= <- <-]. reflexivity. Qed.

Lemma respects_bind {A B} (m : M St A) (f : A -> M St B) :
  respects R m -> (forall a, respects R (f a)) -> respects R (m ≫= f).
Proof.
  intros Hm Hf st r st'. rewrite bind_run.
  destruct (m st) as [[a|e] st1] eqn:E; intros H.
  - transitivity st1; [eapply Hm | eapply Hf]; eassumption.
  - injection H as <- <-. eapply Hm; eassumption.
Qed.

Lemma respects_try_pass {A} (m : M St A) : respects R m -> respects R (try_pass m).
Proof.
  intros Hm st r st'. unfold try_pass.
  destruct (m st) as [r0 st1] eqn:E. intros [= <- <-]. eapply Hm; eassumption.
Qed.

Lemma respects_for_each {A} (l : list A) (body : A -> M St unit) :
  (forall x, respects R (body x)) -> respects R (for_each l body).
Proof.
  intros Hb. induction l as [|x l IH]; simpl.
  - apply respects_ret.
  - apply respects_bind; [apply Hb | intros _; apply IH].
Qed.

End Respects.

Lemma respects_seq {St A B} (R1 R2 R : relation St) (m : M St A) (f : A -> M St B) :
  respects R1 m -> (forall a, respects R2 (f a)) ->
  (forall x y, R1 x y -> R x y) ->
  (forall x y z, R1 x y -> R2 y z -> R x z) ->
  respects R (m ≫= f).
Proof.
  intros Hm Hf Hraise Hcomp st r st'. rewrite bind_run.
  destruct (m st) as [[a|e] st1] eqn:E; intros H.
  - eapply Hcomp; [eapply Hm | eapply Hf]; eassumption.
  - injection H as <- <-. eapply Hraise, Hm; eassumption.
Qed.

(** ** What a stretch of the trace contains *)

Lemma sent_app (e1 e2 : list event) : sent (e1 ++ e2) = sent e1 ++ sent e2.
Proof. apply omap_app. Qed.

Lemma steps_of_app (e1 e2 : list event) : steps_of (e1 ++ e2) = steps_of e1 ++ steps_of e2.
Proof. unfold steps_of. by rewrite sent_app, omap_app. Qed.

Lemma step_action_is_cmd (cmd : json) (a : Z) : step_action cmd = Some a -> is_cmd "step" cmd = true.
Proof.
  unfold step_action. destruct cmd; try discriminate.
  destruct (is_cmd "step" (JObj kv)); [done | discriminate].
Qed.

Section Worlds.
Context {P : Peer}.

#[export] Instance grows_preorder (ok : json -> bool) : PreOrder (@grows P ok).
Proof.
  split.
  - intros w. exists []. by rewrite app_nil_r.
  - intros w1 w2 w3 (e1 & H1 & F1) (e2 & H2 & F2). exists (e1 ++ e2). split.
    + by rewrite H2, H1, app_assoc.
    + rewrite sent_app. by apply Forall_app.
Qed.

#[export] Instance on_world_preorder {X} (R : relation (World P)) `{!PreOrder R} :
  PreOrder (@on_world P X R).
Proof.
  split.
  - intros st. unfold on_world. reflexivity.
  - intros a b c. unfold on_world. intros. by etransitivity.
Qed.

Lemma grows_no_steps (w w' : World P) :
  grows not_step w w' ->
  exists evs, trace w' = trace w ++ evs /\ steps_of evs = [].
Proof.
  intros (evs & Ht & F). exists evs. split; [done|].
  unfold steps_of. induction F as [|c l Hc F IH]; [done|]. simpl.
  destruct (step_action c) as [a|] eqn:E; [|done].
  apply step_action_is_cmd in E. unfold not_step in Hc. rewrite E in Hc. discriminate.
Qed.
End Worlds.

(** ** The client *)

Section ClientFacts.
Context (rt : PyRuntime) (P : Peer).
Implicit Types (c : HyperTokenClient) (w : World P) (cmd : json).

Lemma _send_eq cmd c w :
  Client._send rt P cmd (c, w) =
  match ws c with
  | None => (Raise not_connected, (c, w))
  | Some _ => (check_reply rt (reply_to w cmd), (c, exchanged w cmd))
  end.
Proof.
  unfold Client._send. rewrite bind_run. simpl.
  destruct (ws c) as [sock|]; [|reflexivity].
  rewrite bind_run. unfold Client.ws_send_recv, exchanged, reply_to.
  destruct (exchange P (server w) cmd) as [s' [response|e]]; simpl; [|reflexivity].
  rewrite bind_run. unfold lift_result.
  destruct (py_in "error" response) as [[|]|e]; simpl; try reflexivity.
  rewrite bind_run.
  destruct (py_getitem response "error") as [err|e]; reflexivity.
Qed.

Lemma _send_disconnected cmd c w :
  ws c = None -> Client._send rt P cmd (c, w) = (Raise not_connected, (c, w)).
Proof. intros H. rewrite _send_eq. by rewrite H. Qed.

Lemma _send_connected cmd c w sock :
  ws c = Some sock ->
  Client._send rt P cmd (c, w) = (check_reply rt (reply_to w cmd), (c, exchanged w cmd)).
Proof. intros H. rewrite _send_eq. by rewrite H. Qed.

Lemma _send_grows (ok : json -> bool) cmd :
  ok cmd = true -> respects (on_world (grows ok)) (Client._send rt P cmd).
Proof.
  intros Hok [c w] r [c' w']. rewrite _send_eq. unfold on_world; simpl.
  destruct (ws c); intros [= <- <- <-].
  - exists [EvSend cmd (reply_to w cmd)]. split; [done|]. simpl. by constructor.
  - reflexivity.
Qed.

Lemma check_reply_error (kv : list (string * json)) (msg : string) :
  dict_get "error" kv = Some (JStr msg) ->
  check_reply rt (Ok (JObj kv)) = Raise (RuntimeError ("Server error: " +:+ msg)).
Proof. intros H. unfold check_reply. simpl. unfold dict_has. by rewrite H. Qed.

(** Both socket calls put no command on the wire. *)
Lemma disconnect_grows (ok : json -> bool) : respects (on_world (grows ok)) (Client.disconnect P).
Proof.
  intros [c w] r [c' w']. unfold Client.disconnect. rewrite bind_run. simpl.
  destruct (ws c); [|intros [= <- <- <-]; reflexivity].
  rewrite bind_run. unfold try_pass, Client.ws_close.
  destruct (hangup P (server w)) as [s' r']. simpl. unfold modify.
  intros [= <- <- <-]. exists [EvClose]. by split.
Qed.

Lemma connect_grows (ok : json -> bool) : respects (on_world (grows ok)) (Client.connect P).
Proof.
  unfold Client.connect.
  apply respects_bind; [apply _ | apply respects_gets; apply _ | intros c0].
  apply respects_bind; [apply _ | | intros _].
  { destruct (ws c0); [apply disconnect_grows | apply respects_ret; apply _]. }
  apply respects_bind; [apply _ | apply respects_gets; apply _ | intros u].
  apply respects_bind; [apply _ | | intros sock].
  - intros [c w] r [c' w']. unfold Client.create_connection.
    destruct (accept P (server w)) as [s' [[]|e]]; intros [= <- <- <-].
    + exists [EvConnect]. by split.
    + exists []. by rewrite app_nil_r.
  - intros [c w] r [c' w']. unfold modify. intros [= <- <- <-].
    unfold on_world; simpl. reflexivity.
Qed.

Ltac unfold_methods :=
  unfold Client.call, Client.reset, Client.step, Client.observe, Client.last,
    Client.agents, Client.possible_agents, Client.agent_selection,
    Client.observation_space, Client.action_space, Client.rewards,
    Client.terminations, Client.truncations, Client.infos, Client.action_mask,
    Client.render, Client.ping, Client.env_info, Client.field, Client.agent_field,
    discard.

(** Every method but [close] starts with [_send] of its command, so it
    fails the way [_send] fails. *)
Lemma call_fails_with_send (m : Client.ClientMethod) (e : exn) (st st' : Client.ClientSt P) :
  Client.is_close m = false ->
  Client._send rt P (Client.command_of m) st = (Raise e, st') ->
  Client.call rt P m st = (Raise e, st').
Proof.
  intros Hm Hs. destruct m; try done; unfold_methods; simpl in Hs;
    repeat rewrite bind_run; by rewrite Hs.
Qed.

Lemma call_disconnected (m : Client.ClientMethod) c w :
  Client.is_close m = false -> ws c = None ->
  Client.call rt P m (c, w) = (Raise not_connected, (c, w)).
Proof. intros Hm Hc. apply call_fails_with_send; [done|]. by apply _send_disconnected. Qed.


Lemma close_disconnected c w :
  ws c = None -> Client.close rt P (c, w) = (Ok tt, (c, w)).
Proof.
  intros Hc. unfold Client.close. rewrite bind_run. unfold try_pass.
  rewrite _send_disconnected by done.
  unfold Client.disconnect. rewrite bind_run. simpl. by rewrite Hc.
Qed.

(** [close] never raises and leaves the socket closed. *)
Lemma close_returns c w :
  exists c' w', Client.close rt P (c, w) = (Ok tt, (c', w')) /\ ws c' = None.
Proof.
  unfold Client.close. rewrite bind_run. unfold try_pass. rewrite _send_eq.
  destruct (ws c) eqn:Hc; unfold Client.disconnect; rewrite bind_run; simpl; rewrite Hc.
  - rewrite bind_run. unfold try_pass, Client.ws_close. simpl.
    destruct (hangup P _) as [s' r']. simpl. unfold modify. eauto.
  - eauto.
Qed.

Lemma call_grows (ok : json -> bool) (m : Client.ClientMethod) :
  ok (Client.command_of m) = true -> respects (on_world (grows ok)) (Client.call rt P m).
Proof.
  intros Hok.
  assert (Hs : respects (on_world (grows ok)) (Client._send rt P (Client.command_of m)))
    by by apply _send_grows.
  destruct m; simpl in Hs; unfold_methods; unfold Client.close;
    repeat first
      [ assumption
      | apply disconnect_grows
      | apply respects_ret; apply _
      | apply respects_lift_result; apply _
      | apply respects_try_pass
      | apply respects_bind; [apply _ | | intros ?]
      | match goal with |- respects _ (if ?b then _ else _) => destruct b end ].
Qed.
End ClientFacts.

(** ** The AEC adapter *)

Lemma set_client_same (e : HyperTokenAECEnv) : set_client (client e) e = e.
Proof. by destruct e. Qed.

Section AECFacts.
Context (rt : PyRuntime) (P : Peer).
Implicit Types (e : HyperTokenAECEnv) (w : World P).

#[export] Instance same_local_preorder : PreOrder (@same_local P).
Proof.
  split.
  - by intros st.
  - intros a b c Hab Hbc. unfold same_local in *. by rewrite Hbc.
Qed.

Lemma via_client_run {A} (m : M (Client.ClientSt P) A) e w :
  AECEnv.via_client P m (e, w) =
  (fst (m (client e, w)),
   (set_client (fst (snd (m (client e, w)))) e, snd (snd (m (client e, w))))).
Proof. unfold AECEnv.via_client. by destruct (m (client e, w)) as [r [c' w']]. Qed.

Lemma via_client_on_world {A} (R : relation (World P)) (m : M (Client.ClientSt P) A) :
  respects (on_world R) m -> respects (on_world R) (AECEnv.via_client P m).
Proof.
  intros Hm [e w] r [e' w']. rewrite via_client_run.
  destruct (m (client e, w)) as [r0 [c1 w1]] eqn:E. simpl.
  intros [= <- <- <-]. exact (Hm _ _ _ E).
Qed.

Lemma via_client_same_local {A} (m : M (Client.ClientSt P) A) :
  respects same_local (AECEnv.via_client P m).
Proof.
  intros [e w] r [e' w']. rewrite via_client_run. intros [= <- <- <-]. reflexivity.
Qed.

Lemma update_on_world (R : relation (World P)) `{!Reflexive R}
    (f : HyperTokenAECEnv -> HyperTokenAECEnv) :
  respects (on_world R) (AECEnv.update P f).
Proof.
  intros [e w] r [e' w']. unfold AECEnv.update, modify. intros [= <- <- <-].
  unfold on_world; simpl. reflexivity.
Qed.

Lemma self_run e w : AECEnv.self P (e, w) = (Ok e, (e, w)).
Proof. reflexivity. Qed.
End AECFacts.

Ltac unfold_client :=
  unfold Client.reset, Client.step, Client.observe, Client.last,
    Client.agents, Client.possible_agents, Client.agent_selection,
    Client.observation_space, Client.action_space, Client.rewards,
    Client.terminations, Client.truncations, Client.infos, Client.action_mask,
    Client.render, Client.ping, Client.env_info, Client.field, Client.agent_field,
    Client.close, discard.

Ltac unfold_aec :=
  unfold AECEnv.perform, AECEnv.possible_agents, AECEnv.agents, AECEnv.num_agents,
    AECEnv.agent_selection, AECEnv.observation_space, AECEnv.action_space,
    AECEnv.reset, AECEnv.step, AECEnv.observe, AECEnv.last, AECEnv.rewards,
    AECEnv.terminations, AECEnv.truncations, AECEnv.infos, AECEnv.action_mask,
    AECEnv.agent_iter_next, AECEnv.render, AECEnv.__exit__, AECEnv.self, discard;
  unfold AECEnv.agents, AECEnv.agent_selection, AECEnv.observe, AECEnv.render, AECEnv.self.

(** Decomposing a goal [respects R m] along the structure of [m]. *)
Ltac respects_tac :=
  repeat first
    [ assumption
    | lazymatch goal with
      | |- respects _ (mret _) => apply respects_ret; apply _
      | |- respects _ (raise _) => apply respects_raise; apply _
      | |- respects _ (lift_result _) => apply respects_lift_result; apply _
      | |- respects _ (gets _) => apply respects_gets; apply _
      | |- respects _ (AECEnv.self _) => apply respects_gets; apply _
      | |- respects _ (try_pass _) => apply respects_try_pass
      | |- respects same_local (AECEnv.via_client _ _) => apply via_client_same_local
      | |- respects (on_world _) (AECEnv.via_client _ _) => apply via_client_on_world
      | |- respects (on_world _) (AECEnv.update _ _) => apply update_on_world; apply _
      | |- respects (on_world (grows _)) (Client._send _ _ _) => apply _send_grows; reflexivity
      | |- respects (on_world (grows _)) (Client.disconnect _) => apply disconnect_grows
      | |- respects (on_world (grows _)) (Client.connect _) => apply connect_grows
      | |- respects _ (for_each _ _) => apply respects_for_each; [apply _ | intros ?]
      | |- respects _ (mbind _ _) => apply respects_bind; [apply _ | | intros ?]
      | |- respects _ (if ?b then _ else _) => destruct b
      | |- respects _ (match ?x with _ => _ end) => destruct x
      end ].

Section AECTraces.
Context (rt : PyRuntime) (P : Peer).
Implicit Types (e : HyperTokenAECEnv) (w : World P).

Lemma reset_when_connected (seed : option Z) e w :
  _connected e = true ->
  AECEnv.reset rt P seed (e, w) = reset_connected rt P seed (e, w).
Proof.
  intros Hc. unfold AECEnv.reset, reset_connected.
  rewrite bind_run, self_run. rewrite Hc. simpl. by rewrite bind_run, ret_run.
Qed.

Lemma enter_when_connected e w :
  _connected e = true -> AECEnv.__enter__ rt P (e, w) = (Ok tt, (e, w)).
Proof. intros Hc. unfold AECEnv.__enter__. rewrite bind_run, self_run. by rewrite Hc. Qed.

Lemma reset_connected_same_local (seed : option Z) : respects same_local (reset_connected rt P seed).
Proof. unfold reset_connected. unfold_aec. respects_tac. Qed.

Lemma reset_connected_grows (seed : option Z) :
  respects (on_world (grows reset_or_render)) (reset_connected rt P seed).
Proof.
  unfold reset_connected. unfold_aec. unfold_client. respects_tac.
  destruct seed; apply _send_grows; reflexivity.
Qed.

(** Every operation but [close], on an adapter that is connected, leaves the
    adapter's own state alone, whether it returns or raises. *)
Lemma perform_same_local (op : AECEnv.Operation) e w r st' :
  op <> AECEnv.OClose -> op <> AECEnv.OExit -> _connected e = true ->
  AECEnv.perform rt P op (e, w) = (r, st') ->
  local_state (fst st') = local_state e.
Proof.
  intros H1 H2 Hc.
  destruct op; try done;
    try (intros E;
         match type of E with
         | ?m (e, w) = _ =>
             assert (Hr : respects same_local m) by (unfold_aec; respects_tac)
         end;
         exact (Hr _ _ _ E)).
  - simpl. rewrite reset_when_connected by done. intros E.
    exact (reset_connected_same_local seed _ _ _ E).
  - simpl. rewrite enter_when_connected by done. by intros [= <- <-].
Qed.
End AECTraces.

(** ** Skipping a finished agent *)

(** C6: [step(None)] on the AEC adapter, when the render mode is not
    ["human"], sends no command: the call returns, and the adapter, the
    server's state and the trace of the wire are all as they were. *)
Theorem step_none_sends_nothing (rt : PyRuntime) (P : Peer)
    (e : HyperTokenAECEnv) (w : World P) :
  is_human (render_mode e) = false ->
  AECEnv.step rt P None (e, w) = (Ok tt, (e, w)).
Proof.
  intros H. unfold AECEnv.step. rewrite bind_run, ret_run, bind_run, self_run.
  by rewrite H.
Qed.

Lemma step_none_sends_nothing_witness :
  is_human (render_mode TurnServer.open_env) = false /\
  AECEnv.step TurnServer.runtime TurnServer.peer None
    (TurnServer.open_env, TurnServer.world_of (TurnServer.two_of_three 0 ["player_0"]))
  = (Ok tt, (TurnServer.open_env, TurnServer.world_of (TurnServer.two_of_three 0 ["player_0"]))).
Proof.
  split; [reflexivity|].
  apply (step_none_sends_nothing TurnServer.runtime TurnServer.peer). reflexivity.
Defined.

(** ** Calls on a disconnected client *)

(** C7, as the code has it: while the socket is closed, every client method
    except [close] raises the not-connected error at once, [close] swallows
    that error and returns, and in both cases the client, the server and the
    trace of the wire are untouched. *)
Theorem disconnected_call_sends_nothing (rt : PyRuntime) (P : Peer)
    (m : Client.ClientMethod) (c : HyperTokenClient) (w : World P) :
  ws c = None ->
  Client.call rt P m (c, w) =
    (match m with Client.CClose => Ok tt | _ => Raise not_connected end, (c, w)).
Proof.
  intros Hc. destruct m; try (by apply call_disconnected).
  simpl. by apply close_disconnected.
Qed.

Lemma disconnected_call_sends_nothing_witness :
  ws (new_client "ws://localhost:9999") = None /\
  Client.call TurnServer.runtime TurnServer.peer (Client.CStep 0)
    (new_client "ws://localhost:9999", TurnServer.world_of (TurnServer.two_of_three 0 []))
  = (Raise not_connected,
     (new_client "ws://localhost:9999", TurnServer.world_of (TurnServer.two_of_three 0 []))).
Proof.
  split; [reflexivity|].
  apply (disconnected_call_sends_nothing TurnServer.runtime TurnServer.peer (Client.CStep 0)).
  reflexivity.
Defined.

(** C7 as stated fails at [close]: called on a client that never connected,
    it does not fail. *)
Lemma close_while_disconnected_returns :
  ~ (forall m : Client.ClientMethod,
       fst (Client.call TurnServer.runtime TurnServer.peer m
              (new_client "ws://localhost:9999",
               TurnServer.world_of (TurnServer.two_of_three 0 [])))
       = Raise not_connected).
Proof. intros H. specialize (H Client.CClose). vm_compute in H. discriminate. Qed.

(** ** Server errors *)

Section ServerErrors.
Context (rt : PyRuntime) (P : Peer).


End ServerErrors.



(** ** Resets *)

Lemma is_cmd_inv (name : string) (c : json) :
  is_cmd name c = true ->
  exists kv, c = JObj kv /\ dict_get "cmd" kv = Some (JStr name).
Proof.
  unfold is_cmd. destruct c as [| | | | | |kv]; try discriminate.
  destruct (dict_get "cmd" kv) as [v|] eqn:E; [|discriminate].
  destruct v; simpl; try discriminate. intros H%String.eqb_eq. subst. eauto.
Qed.

(** A [reset] or [render] command fetches neither the agent list nor a
    space. *)
Lemma reset_or_render_no_fetch (c : json) : reset_or_render c = true -> is_fetch c = false.
Proof.
  unfold reset_or_render. intros [H|H]%orb_true_iff;
    apply is_cmd_inv in H as (kv & -> & Hk); unfold is_fetch, is_cmd; by rewrite Hk.
Qed.

Section Resets.
Context (rt : PyRuntime) (P : Peer).

Lemma reset_each_connected (seeds : list (option Z)) (e : HyperTokenAECEnv) (w : World P) :
  _connected e = true ->
  local_state (fst (AECEnv.reset_each rt P seeds (e, w))) = local_state e /\
  on_world (grows reset_or_render) (e, w) (AECEnv.reset_each rt P seeds (e, w)).
Proof.
  revert e w. induction seeds as [|seed seeds IH]; intros e w Hc; simpl.
  - split; [done | reflexivity].
  - rewrite reset_when_connected by done.
    destruct (reset_connected rt P seed (e, w)) as [r [e1 w1]] eqn:E. simpl.
    pose proof (reset_connected_same_local rt P seed _ _ _ E) as Hl.
    pose proof (reset_connected_grows rt P seed _ _ _ E) as Hg.
    unfold same_local in Hl. simpl in Hl.
    assert (Hc1 : _connected e1 = true).
    { unfold local_state in Hl. injection Hl as _ _ _ ->. done. }
    destruct (IH e1 w1 Hc1) as [IH1 IH2]. split.
    + by rewrite IH1.
    + etransitivity; eassumption.
Qed.

(** C5: on a connected adapter, after any sequence of [reset] calls the
    [possible_agents] property returns what it returned before, the cached
    agent list, the cached spaces and the connected flag are unchanged, and
    the commands sent are [reset] and [render] commands only: none fetches
    the possible agents or a space. *)
Theorem resets_refetch_nothing (seeds : list (option Z)) (e : HyperTokenAECEnv) (w : World P) :
  _connected e = true ->
  let st' := AECEnv.reset_each rt P seeds (e, w) in
  fst (AECEnv.possible_agents P st') = fst (AECEnv.possible_agents P (e, w)) /\
  local_state (fst st') = local_state e /\
  exists evs, trace (snd st') = trace w ++ evs /\
              Forall (fun c => is_fetch c = false) (sent evs).
Proof.
  intros Hc st'. destruct (reset_each_connected seeds e w Hc) as [Hl (evs & Ht & Hf)].
  fold st' in Hl, Ht. split; [|split; [done|]].
  - unfold AECEnv.possible_agents. rewrite !bind_run. unfold AECEnv.self, gets, lift_result.
    simpl. unfold local_state in Hl. injection Hl as -> _ _ _. done.
  - exists evs. split; [done|]. eapply Forall_impl; [exact Hf|].
    intros c. apply reset_or_render_no_fetch.
Qed.
End Resets.

Lemma resets_refetch_nothing_witness :
  let w := TurnServer.world_of (TurnServer.two_of_three 1 ["player_0"]) in
  let st' := AECEnv.reset_each TurnServer.runtime TurnServer.peer [Some 42; None] (TurnServer.open_env, w) in
  _connected TurnServer.open_env = true /\
  fst (AECEnv.possible_agents TurnServer.peer st') =
    fst (AECEnv.possible_agents TurnServer.peer (TurnServer.open_env, w)) /\
  local_state (fst st') = local_state TurnServer.open_env /\
  exists evs, trace (snd st') = trace w ++ evs /\ Forall (fun c => is_fetch c = false) (sent evs).
Proof.
  intros w st'. split; [reflexivity|].
  apply (resets_refetch_nothing TurnServer.runtime TurnServer.peer [Some 42; None]
           TurnServer.open_env w).
  reflexivity.
Defined.

(** ** Closing *)

Section Closing.
Context (rt : PyRuntime) (P : Peer).
Implicit Types (e : HyperTokenAECEnv) (c : HyperTokenClient) (w : World P).

Lemma aec_close_connected e w :
  _connected e = true ->
  exists c' w', AECEnv.close rt P (e, w) = (Ok tt, (set_connected false (set_client c' e), w'))
                /\ ws c' = None.
Proof.
  intros Hc. unfold AECEnv.close. rewrite bind_run, self_run, Hc, bind_run, via_client_run.
  destruct (close_returns rt P (client e) w) as (c' & w' & E & Hws). rewrite E. simpl.
  unfold AECEnv.update, modify. eauto.
Qed.

Lemma aec_close_disconnected e w :
  _connected e = false -> AECEnv.close rt P (e, w) = (Ok tt, (e, w)).
Proof. intros Hc. unfold AECEnv.close. by rewrite bind_run, self_run, Hc. Qed.

(** [close] never raises and leaves a consistent adapter closed. *)
Lemma aec_close_returns e w :
  exists e' w', AECEnv.close rt P (e, w) = (Ok tt, (e', w')) /\
                _connected e' = false /\ (consistent e = true -> ws (client e') = None).
Proof.
  destruct (_connected e) eqn:Hc.
  - destruct (aec_close_connected e w Hc) as (c' & w' & E & Hws). eauto.
  - rewrite aec_close_disconnected by done. exists e, w. split; [done|]. split; [done|].
    unfold consistent. rewrite Hc. simpl. by destruct (ws (client e)).
Qed.

Lemma connect_closed c w :
  ws c = None ->
  Client.connect P (c, w) =
  match accept P (server w) with
  | (s', Ok _) => (Ok tt, (set_ws (Some (websocket_to (url c))) c,
                           {| server := s'; trace := trace w ++ [EvConnect] |}))
  | (s', Raise x) => (Raise x, (c, {| server := s'; trace := trace w |}))
  end.
Proof.
  intros Hc. unfold Client.connect. rewrite bind_run. simpl. rewrite Hc.
  rewrite bind_run, ret_run, bind_run. simpl. rewrite bind_run.
  unfold Client.create_connection.
  by destruct (accept P (server w)) as [s' [[]|x]].
Qed.

(** Initialising a closed adapter either fails to connect, leaving it
    closed and the wire silent, or opens a connection before anything
    else. *)
Lemma connect_and_init_closed e w r e' w' :
  closed e ->
  AECEnv._connect_and_init rt P (e, w) = (r, (e', w')) ->
  (exists x, r = Raise x /\ closed e' /\ trace w' = trace w) \/
  (exists rest, trace w' = trace w ++ EvConnect :: rest).
Proof.
  intros [Hc Hws]. unfold AECEnv._connect_and_init.
  rewrite bind_run, self_run, Hc, bind_run, via_client_run, connect_closed by done.
  destruct (accept P (server w)) as [s' [[]|x]]; simpl.
  - match goal with
    | |- ?m ?st = _ -> _ =>
        assert (Hr : respects (on_world (grows any_cmd)) m)
          by (unfold AECEnv.cache_spaces; unfold_client; respects_tac)
    end.
    intros E. apply Hr in E as (evs & Ht & _). simpl in Ht.
    right. exists evs. by rewrite Ht, <- app_assoc.
  - intros [= <- <- <-]. left. exists x. rewrite set_client_same. by repeat split.
Qed.

(** On a closed adapter an operation that does not initialise it touches
    nothing. *)
Lemma perform_closed_quiet (op : AECEnv.Operation) e w :
  closed e ->
  (forall seed, op <> AECEnv.OReset seed) -> op <> AECEnv.OEnter ->
  snd (AECEnv.perform rt P op (e, w)) = (e, w).
Proof.
  intros [Hc Hws] Hreset Henter.
  destruct op as [| | | | | |seed|[a|]| | | | | | | | | | | |];
    try done; try (by destruct (Hreset seed)); simpl;
    unfold_aec; unfold AECEnv.close; unfold_client;
    repeat first [ rewrite bind_run | rewrite self_run | rewrite Hc | rewrite via_client_run
                 | rewrite _send_disconnected by done | rewrite set_client_same
                 | progress simpl ];
    try reflexivity.
  all: try (destruct (py_list (_possible_agents e)); reflexivity).
  all: try (destruct (_observation_spaces e !! agent); reflexivity).
  all: try (destruct (_action_spaces e !! agent); reflexivity).
  all: try (destruct (is_human (render_mode e)); 
            repeat first [ rewrite bind_run | rewrite via_client_run
                 | rewrite _send_disconnected by done | rewrite set_client_same
                 | progress simpl ]; reflexivity).
Qed.

Lemma reset_when_disconnected (seed : option Z) e w :
  _connected e = false ->
  AECEnv.reset rt P seed (e, w) =
  (AECEnv._connect_and_init rt P ≫= fun _ => reset_connected rt P seed) (e, w).
Proof.
  intros Hc. unfold AECEnv.reset, reset_connected. by rewrite bind_run, self_run, Hc.
Qed.

Lemma enter_when_disconnected e w :
  _connected e = false ->
  AECEnv.__enter__ rt P (e, w) = AECEnv._connect_and_init rt P (e, w).
Proof. intros Hc. unfold AECEnv.__enter__. by rewrite bind_run, self_run, Hc. Qed.

Lemma reset_connected_grows_any (seed : option Z) :
  respects (on_world (grows any_cmd)) (reset_connected rt P seed).
Proof.
  unfold reset_connected. unfold_aec. unfold_client. respects_tac.
Qed.

Lemma perform_grows (op : AECEnv.Operation) :
  respects (on_world (grows any_cmd)) (AECEnv.perform rt P op).
Proof.
  destruct op; unfold_aec;
    unfold AECEnv.close, AECEnv.__enter__, AECEnv._connect_and_init, AECEnv.cache_spaces;
    unfold_client; respects_tac.
Qed.

(** One operation on a closed adapter: it stays closed with the wire silent,
    or the first thing on the wire is a fresh connection. *)
Lemma perform_closed (op : AECEnv.Operation) e w r e' w' :
  closed e ->
  AECEnv.perform rt P op (e, w) = (r, (e', w')) ->
  (closed e' /\ trace w' = trace w) \/
  (exists rest, trace w' = trace w ++ EvConnect :: rest).
Proof.
  intros Hcl E.
  assert (Hinit : forall r1 e1 w1, AECEnv._connect_and_init rt P (e, w) = (r1, (e1, w1)) ->
            forall (k : M (AECEnv.EnvSt P) unit),
            respects (on_world (grows any_cmd)) k ->
            (AECEnv._connect_and_init rt P ≫= fun _ => k) (e, w) = (r, (e', w')) ->
            (closed e' /\ trace w' = trace w) \/
            (exists rest, trace w' = trace w ++ EvConnect :: rest)).
  { intros r1 e1 w1 E1 k Hk. rewrite bind_run, E1.
    destruct (connect_and_init_closed _ _ _ _ _ Hcl E1) as [(x & -> & Hcl1 & Ht)|(rest & Ht)].
    - intros [= <- <- <-]. by left.
    - destruct r1 as [[]|x].
      + intros E2. apply Hk in E2 as (evs & Ht2 & _). simpl in Ht2.
        right. exists (rest ++ evs). rewrite Ht2, Ht. by rewrite <- app_assoc.
      + intros [= <- <- <-]. right. eauto. }
  destruct (AECEnv._connect_and_init rt P (e, w)) as [r1 [e1 w1]] eqn:E1.
  specialize (Hinit _ _ _ eq_refl).
  pose proof (perform_closed_quiet op e w Hcl) as Hq.
  destruct Hcl as [Hc Hws].
  destruct op as [| | | | | |seed| | | | | | | | | | | | |];
    try (specialize (Hq ltac:(intros; discriminate) ltac:(discriminate));
         rewrite E in Hq; simpl in Hq; injection Hq as -> ->; by left);
    clear Hq.
  - change (AECEnv.reset rt P seed (e, w) = (r, (e', w'))) in E.
    rewrite reset_when_disconnected in E by done.
    eapply (Hinit (reset_connected rt P seed)); [|exact E].
    intros st0 r0 st0' E0. exact (reset_connected_grows_any seed _ _ _ E0).
  - change (AECEnv.__enter__ rt P (e, w) = (r, (e', w'))) in E.
    rewrite enter_when_disconnected in E by done.
    eapply (Hinit (mret tt)); [respects_tac|].
    rewrite bind_run, E1. rewrite E1 in E. injection E as <- <- <-.
    by destruct r1 as [[]|].
Qed.

Lemma perform_each_grows (ops : list AECEnv.Operation) (st : AECEnv.EnvSt P) :
  on_world (grows any_cmd) st (AECEnv.perform_each rt P ops st).
Proof.
  revert st. induction ops as [|op ops IH]; intros st; simpl; [reflexivity|].
  destruct (AECEnv.perform rt P op st) as [r st1] eqn:E. simpl.
  etransitivity; [exact (perform_grows op _ _ _ E) | apply IH].
Qed.

Lemma starts_with_connect (rest : list event) : no_send_before_connect (EvConnect :: rest).
Proof.
  intros pre cmd reply post H. destruct pre as [|ev pre]; simplify_eq/=.
  apply list_elem_of_here.
Qed.

(** However many operations follow a close, nothing is sent before one of
    them opens a fresh connection. *)
Lemma perform_each_closed (ops : list AECEnv.Operation) e w :
  closed e ->
  exists evs, trace (snd (AECEnv.perform_each rt P ops (e, w))) = trace w ++ evs /\
              no_send_before_connect evs.
Proof.
  revert e w. induction ops as [|op ops IH]; intros e w Hcl; simpl.
  - exists []. split; [by rewrite app_nil_r|]. intros [|] ? ? ? ?; discriminate.
  - destruct (AECEnv.perform rt P op (e, w)) as [r [e1 w1]] eqn:E. simpl.
    destruct (perform_closed op _ _ _ _ _ Hcl E) as [[Hcl1 Ht]|(rest & Ht)].
    + destruct (IH e1 w1 Hcl1) as (evs & Ht2 & Hn). exists evs. by rewrite Ht2, Ht.
    + destruct (perform_each_grows ops (e1, w1)) as (evs & Ht2 & _). simpl in Ht2.
      exists (EvConnect :: rest ++ evs). split.
      * rewrite Ht2, Ht. by rewrite <- app_assoc.
      * apply starts_with_connect.
Qed.

(** C8: [close], on the client and on the AEC adapter, returns normally; a
    second [close] returns normally as well and changes nothing (it sends no
    command); on the closed client every method leaves the wire silent; and
    after the adapter is closed, whatever operations follow, no command is
    sent before one of them opens a fresh connection. *)
Theorem close_twice_then_silent (e : HyperTokenAECEnv) (w : World P) :
  consistent e = true ->
  let st1 := snd (AECEnv.close rt P (e, w)) in
  let cs1 := snd (Client.close rt P (client e, w)) in
  (fst (AECEnv.close rt P (e, w)) = Ok tt /\ AECEnv.close rt P st1 = (Ok tt, st1)) /\
  (fst (Client.close rt P (client e, w)) = Ok tt /\ Client.close rt P cs1 = (Ok tt, cs1)) /\
  (forall m, snd (Client.call rt P m cs1) = cs1) /\
  (forall ops, exists evs,
      trace (snd (AECEnv.perform_each rt P ops st1)) = trace (snd st1) ++ evs /\
      no_send_before_connect evs).
Proof.
  intros Hcons st1 cs1.
  destruct (aec_close_returns e w) as (e' & w' & E & Hc' & Hws').
  destruct (close_returns rt P (client e) w) as (c' & w2 & E2 & Hws2).
  subst st1 cs1. rewrite E, E2. simpl. repeat split.
  - by apply aec_close_disconnected.
  - by apply close_disconnected.
  - intros m. destruct m; try (by rewrite call_disconnected).
    simpl. by rewrite close_disconnected.
  - intros ops. apply perform_each_closed. split; [done | by apply Hws'].
Qed.
End Closing.

Lemma close_twice_then_silent_witness :
  let e := TurnServer.open_env in
  let w := TurnServer.world_of (TurnServer.two_of_three 0 []) in
  let st1 := snd (AECEnv.close TurnServer.runtime TurnServer.peer (e, w)) in
  let cs1 := snd (Client.close TurnServer.runtime TurnServer.peer (client e, w)) in
  consistent e = true /\
  (fst (AECEnv.close TurnServer.runtime TurnServer.peer (e, w)) = Ok tt /\
   AECEnv.close TurnServer.runtime TurnServer.peer st1 = (Ok tt, st1)) /\
  (fst (Client.close TurnServer.runtime TurnServer.peer (client e, w)) = Ok tt /\
   Client.close TurnServer.runtime TurnServer.peer cs1 = (Ok tt, cs1)) /\
  (forall m, snd (Client.call TurnServer.runtime TurnServer.peer m cs1) = cs1) /\
  (forall ops, exists evs,
      trace (snd (AECEnv.perform_each TurnServer.runtime TurnServer.peer ops st1))
        = trace (snd st1) ++ evs /\
      no_send_before_connect evs).
Proof.
  intros e w st1 cs1. split; [reflexivity|].
  apply (close_twice_then_silent TurnServer.runtime TurnServer.peer e w). reflexivity.
Defined.

(** ** The flag and the socket agree *)

Section Consistency.
Context (rt : PyRuntime) (P : Peer).
Implicit Types (e : HyperTokenAECEnv) (w : World P).

#[export] Instance keeps_connected_preorder : PreOrder (@keeps_connected P).
Proof.
  split.
  - by intros st.
  - intros a b c Hab Hbc. unfold keeps_connected in *. by rewrite Hbc.
Qed.

Lemma via_client_keeps_connected {A} (m : M (Client.ClientSt P) A) :
  respects keeps_connected (AECEnv.via_client P m).
Proof. intros [e w] r [e' w']. rewrite via_client_run. by intros [= <- <- <-]. Qed.

Lemma update_keeps_connected (f : HyperTokenAECEnv -> HyperTokenAECEnv) :
  (forall e, _connected (f e) = _connected e) ->
  respects keeps_connected (AECEnv.update P f).
Proof.
  intros Hf [e w] r [e' w']. unfold AECEnv.update, modify. intros [= <- <- <-]. apply Hf.
Qed.

Lemma cache_spaces_keeps_connected (agent : json) :
  respects keeps_connected (AECEnv.cache_spaces rt P agent).
Proof.
  unfold AECEnv.cache_spaces.
  repeat first
    [ apply via_client_keeps_connected
    | apply update_keeps_connected; reflexivity
    | apply respects_lift_result; apply _
    | apply respects_bind; [apply _ | | intros ?] ].
Qed.

Lemma consistent_connected e : _connected e = true -> consistent e = true.
Proof. intros H. unfold consistent. by rewrite H. Qed.

Lemma consistent_closed e : closed e -> consistent e = true.
Proof. intros [H1 H2]. unfold consistent. by rewrite H1, H2. Qed.

Lemma consistent_cases e : consistent e = true -> _connected e = true \/ closed e.
Proof.
  unfold consistent, closed. destruct (_connected e); [by left|]. simpl.
  destruct (ws (client e)); [discriminate | by right].
Qed.

(** Initialising a closed adapter ends with the flag up, unless the
    connection could not be opened, and then the adapter is still closed. *)
Lemma connect_and_init_outcome e w r e' w' :
  closed e ->
  AECEnv._connect_and_init rt P (e, w) = (r, (e', w')) ->
  (exists x, r = Raise x /\ closed e') \/ _connected e' = true.
Proof.
  intros [Hc Hws]. unfold AECEnv._connect_and_init.
  rewrite bind_run, self_run, Hc, bind_run, via_client_run, connect_closed by done.
  destruct (accept P (server w)) as [s' [[]|x]]; cbn [fst snd].
  - rewrite bind_run. unfold AECEnv.update at 1, modify. cbv beta iota.
    match goal with
    | |- ?m ?st = _ -> _ =>
        assert (Hr : respects keeps_connected m)
    end.
    { repeat first
        [ apply via_client_keeps_connected
        | apply update_keeps_connected; reflexivity
        | apply respects_lift_result; apply _
        | apply respects_gets; apply _
        | apply respects_for_each; [apply _ | intros ?; apply cache_spaces_keeps_connected]
        | apply respects_bind; [apply _ | | intros ?] ]. }
    intros E. right. exact (Hr _ _ _ E).
  - intros [= <- <- <-]. left. exists x. rewrite set_client_same. by repeat split.
Qed.

(** Every operation keeps the flag and the socket in agreement. *)
Lemma perform_consistent (op : AECEnv.Operation) e w r e' w' :
  consistent e = true ->
  AECEnv.perform rt P op (e, w) = (r, (e', w')) ->
  consistent e' = true.
Proof.
  intros [Hc|Hcl]%consistent_cases E.
  - assert (Hop : (op = AECEnv.OClose \/ op = AECEnv.OExit) \/
                  (op <> AECEnv.OClose /\ op <> AECEnv.OExit))
      by (destruct op; first [ left; by auto | right; split; discriminate ]).
    destruct Hop as [Hop|Hop].
    + assert (Ecl : AECEnv.close rt P (e, w) = (r, (e', w'))) by (by destruct Hop as [->| ->]).
      destruct (aec_close_connected rt P e w Hc) as (c' & w1 & E1 & Hws).
      rewrite E1 in Ecl. injection Ecl as <- <- <-.
      apply consistent_closed. by split.
    + apply consistent_connected.
      assert (Hl : local_state (fst (e', w')) = local_state e).
      { apply (perform_same_local rt P op e w r); [tauto | tauto | done | done]. }
      unfold local_state in Hl. simpl in Hl. by injection Hl as _ _ _ ->.
  - assert (Hinit : forall (k : M (AECEnv.EnvSt P) unit),
              respects same_local k ->
              (AECEnv._connect_and_init rt P ≫= fun _ => k) (e, w) = (r, (e', w')) ->
              consistent e' = true).
    { intros k Hk. rewrite bind_run.
      destruct (AECEnv._connect_and_init rt P (e, w)) as [r1 [e1 w1]] eqn:E1.
      destruct (connect_and_init_outcome _ _ _ _ _ Hcl E1) as [(x & -> & Hcl1)|Hc1].
      - intros [= <- <- <-]. by apply consistent_closed.
      - destruct r1 as [[]|x].
        + intros E2. apply Hk in E2. unfold same_local, local_state in E2. simpl in E2.
          injection E2 as _ _ _ E2. apply consistent_connected. by rewrite E2.
        + intros [= <- <- <-]. by apply consistent_connected. }
    pose proof (perform_closed_quiet rt P op e w Hcl) as Hq.
    destruct Hcl as [Hc Hws].
    destruct op as [| | | | | |seed| | | | | | | | | | | | |];
      try (specialize (Hq ltac:(intros; discriminate) ltac:(discriminate));
           rewrite E in Hq; simpl in Hq; injection Hq as -> ->;
           by apply consistent_closed);
      clear Hq.
    + change (AECEnv.reset rt P seed (e, w) = (r, (e', w'))) in E.
      rewrite reset_when_disconnected in E by done.
      exact (Hinit _ (reset_connected_same_local rt P seed) E).
    + change (AECEnv.__enter__ rt P (e, w) = (r, (e', w'))) in E.
      rewrite enter_when_disconnected in E by done.
      apply (Hinit (mret tt)); [apply respects_ret; apply _|].
      rewrite bind_run, E. by destruct r as [[]|x].
Qed.

(** [__init__] sets them up in agreement. *)
Lemma init_consistent (u : string) (mode : option string) (auto_connect : bool) w e' w' :
  AECEnv.__init__ rt P u mode auto_connect w = (Ok e', w') -> consistent e' = true.
Proof.
  unfold AECEnv.__init__. destruct auto_connect.
  - match goal with |- context [AECEnv._connect_and_init rt P (?e0, w)] => set (e := e0) end.
    destruct (AECEnv._connect_and_init rt P (e, w)) as [[[]|x] [e1 w1]] eqn:E; [|discriminate].
    intros [= <- <-].
    destruct (connect_and_init_outcome e w _ _ _ ltac:(by split) E) as [(x & Hx & _)|Hc];
      [discriminate | by apply consistent_connected].
  - by intros [= <- <-].
Qed.
End Consistency.

(** ** Action masks *)

Section Masks.
Context (rt : PyRuntime) (P : Peer).

(** What [action_mask] returns on a connected client, from the reply: [None]
    exactly when the reply has no mask or one that Python takes for false
    (null, an empty list). *)
Lemma action_mask_connected (agent : json) (c : HyperTokenClient) (w : World P)
    (sock : WebSocket) (kv : list (string * json)) :
  ws c = Some sock ->
  reply_to w (Client.cmd_agent "action_mask" agent) = Ok (JObj kv) ->
  dict_get "error" kv = None ->
  fst (Client.action_mask rt P agent (c, w)) =
  match dict_get "mask" kv with
  | None => Ok None
  | Some mask =>
      if py_bool mask then
        match np_array (np_bool rt) mask with
        | Ok arr => Ok (Some arr)
        | Raise x => Raise x
        end
      else Ok None
  end.
Proof.
  intros Hc Hr He. unfold Client.action_mask.
  rewrite bind_run, (_send_connected rt P _ _ _ sock) by done. rewrite Hr.
  unfold check_reply. simpl. unfold dict_has. rewrite He. simpl.
  rewrite bind_run. unfold lift_result. simpl.
  destruct (dict_get "mask" kv) as [mask|]; simpl; [|done].
  destruct (py_bool mask); [|done].
  rewrite bind_run. by destruct (np_array (np_bool rt) mask).
Qed.
End Masks.

(** C9 at a reply that carries an empty mask: the reply has a mask field and
    the client returns [None]. *)
Theorem empty_mask_returns_none :
  let w := TurnServer.world_of (TurnServer.two_of_three 0 ["player_0"]) in
  reply_to w (Client.cmd_agent "action_mask" (JStr "player_0")) = Ok (JObj [("mask", JArr [])]) /\
  fst (Client.action_mask TurnServer.runtime TurnServer.peer (JStr "player_0")
         (TurnServer.open_client, w)) = Ok None.
Proof. split; reflexivity. Qed.

(** ** Defaults of [last] *)

Section LastDefaults.
Context (rt : PyRuntime) (P : Peer).

(** [last], once its three queries have returned: the conversions of the
    fields, in the order the code applies them. *)
Lemma last_run (with_obs : bool) (st st1 st2 st3 : AECEnv.EnvSt P)
    (kv : list (string * json)) (agent : json) (obs : option (ndarray float32)) :
  AECEnv.via_client P (Client.last rt P) st = (Ok (JObj kv), st1) ->
  AECEnv.agent_selection rt P st1 = (Ok agent, st2) ->
  (if with_obs then o ← AECEnv.observe rt P agent; mret (Some o) else mret None) st2
    = (Ok obs, st3) ->
  AECEnv.last rt P with_obs st =
  (match py_float rt (default (JFloat f64_zero) (dict_get "reward" kv)) with
   | Raise x => Raise x
   | Ok reward =>
       match py_dict (default (JObj []) (dict_get "info" kv)) with
       | Raise x => Raise x
       | Ok info =>
           Ok (obs, reward,
               py_bool (default (JBool false) (dict_get "terminated" kv)),
               py_bool (default (JBool false) (dict_get "truncated" kv)), info)
       end
   end, st3).
Proof.
  intros H1 H2 H3. unfold AECEnv.last.
  rewrite bind_run, H1, bind_run, H2, bind_run, H3, bind_run.
  unfold lift_result. simpl.
  replace (match dict_get "reward" kv with Some v => v | None => JFloat f64_zero end)
    with (default (JFloat f64_zero) (dict_get "reward" kv)) by by destruct (dict_get "reward" kv).
  destruct (py_float rt _) as [reward|x]; [|done]. simpl.
  rewrite !bind_run. simpl.
  replace (match dict_get "info" kv with Some v => v | None => JObj [] end)
    with (default (JObj []) (dict_get "info" kv)) by by destruct (dict_get "info" kv).
  destruct (py_dict _) as [info|x]; [|done].
  by destruct (dict_get "terminated" kv), (dict_get "truncated" kv).
Qed.

(** C10, as the code has it: when the reply to the [last] command is an
    object without an error and the queries for the selected agent and its
    observation succeed, [last] returns exactly when the [reward] field, if
    present, holds a value [float()] accepts and the [info] field, if
    present, one [dict()] accepts.  It then returns each present field
    converted ([float], [bool], [bool], [dict]) and for each missing field
    its default: 0.0 for [reward], [False] for [terminated] and
    [truncated], the empty dict for [info]. *)
Theorem last_fills_in_defaults (with_obs : bool) (st st1 st2 st3 : AECEnv.EnvSt P)
    (kv : list (string * json)) (agent : json) (obs : option (ndarray float32)) :
  AECEnv.via_client P (Client.last rt P) st = (Ok (JObj kv), st1) ->
  AECEnv.agent_selection rt P st1 = (Ok agent, st2) ->
  (if with_obs then o ← AECEnv.observe rt P agent; mret (Some o) else mret None) st2
    = (Ok obs, st3) ->
  snd (AECEnv.last rt P with_obs st) = st3 /\
  (coercible rt kv <-> exists out, fst (AECEnv.last rt P with_obs st) = Ok out) /\
  forall o reward terminated truncated info,
    fst (AECEnv.last rt P with_obs st) = Ok (o, reward, terminated, truncated, info) ->
    o = obs /\
    match dict_get "reward" kv with
    | Some v => py_float rt v = Ok reward
    | None => reward = f64_zero
    end /\
    terminated = match dict_get "terminated" kv with Some v => py_bool v | None => false end /\
    truncated = match dict_get "truncated" kv with Some v => py_bool v | None => false end /\
    match dict_get "info" kv with
    | Some v => py_dict v = Ok info
    | None => info = []
    end.
Proof.
  intros H1 H2 H3. rewrite (last_run _ _ _ _ _ _ _ _ H1 H2 H3). unfold coercible. simpl.
  split; [done|]. split; [split|].
  - intros [Hrew Hinfo].
    destruct (dict_get "reward" kv) as [v|]; simpl.
    + destruct (Hrew v eq_refl) as [f ->].
      destruct (dict_get "info" kv) as [i|]; simpl; [|eauto].
      destruct (Hinfo i eq_refl) as [d ->]. eauto.
    + destruct (dict_get "info" kv) as [i|]; simpl; [|eauto].
      destruct (Hinfo i eq_refl) as [d ->]. eauto.
  - intros [out Hout]. split.
    + intros v Hv. rewrite Hv in Hout. simpl in Hout.
      destruct (py_float rt v); [eauto | discriminate].
    + intros v Hv. rewrite Hv in Hout. simpl in Hout.
      destruct (py_float rt _); [|discriminate].
      destruct (py_dict v); [eauto | discriminate].
  - intros o reward terminated truncated info.
    destruct (py_float rt _) as [f|x] eqn:Ef; [|discriminate].
    destruct (py_dict _) as [d|x] eqn:Ed; [|discriminate].
    intros [= <- <- <- <- <-]. split; [done|].
    destruct (dict_get "reward" kv), (dict_get "terminated" kv), (dict_get "truncated" kv),
      (dict_get "info" kv); simpl in *; unfold dict_copy in *; simpl in *;
      repeat split; congruence.
Qed.
End LastDefaults.

Lemma last_fills_in_defaults_witness :
  let g := {| TurnServer.g_possible := ["player_0"]; TurnServer.g_agents := ["player_0"];
              TurnServer.g_turn := 0; TurnServer.g_done := [];
              TurnServer.g_fault := None; TurnServer.g_terse := true;
              TurnServer.g_log := [] |} in
  let st := (TurnServer.open_env, TurnServer.world_of g) in
  exists obs st3,
    AECEnv.last TurnServer.runtime TurnServer.peer true st
      = (Ok (obs, f64_zero, false, false, []), st3).
Proof.
  intros g st.
  pose (st1 := snd (AECEnv.via_client TurnServer.peer
                      (Client.last TurnServer.runtime TurnServer.peer) st)).
  pose (st2 := snd (AECEnv.agent_selection TurnServer.runtime TurnServer.peer st1)).
  pose (st3 := snd (AECEnv.observe TurnServer.runtime TurnServer.peer (JStr "player_0") st2)).
  pose (obs := Some {| nd_shape := [2];
                       nd_data := [to_float32 TurnServer.half; to_float32 f64_one] |}).
  destruct (last_fills_in_defaults TurnServer.runtime TurnServer.peer true st st1 st2 st3
              [] (JStr "player_0") obs) as (Hst & [Hret _] & Hval).
  - reflexivity.
  - reflexivity.
  - vm_compute. reflexivity.
  - destruct Hret as [[[[[o reward] terminated] truncated] info] Hout].
    + split; intros v; discriminate.
    + destruct (Hval o reward terminated truncated info Hout) as (-> & -> & -> & -> & ->).
      exists obs, st3. rewrite <- Hst.
      by destruct (AECEnv.last TurnServer.runtime TurnServer.peer true st) as [r s];
        simpl in *; subst.
Defined.

(** C10 as stated fails at a reply that gives the reward as null and leaves
    the other three fields out: [float(None)] raises [TypeError], and so
    does [last]. *)
Lemma last_raises_on_null_reward :
  let P := answering "last" (JObj [("reward", JNull)]) in
  let w := Build_World P (TurnServer.two_of_three 0 []) [] in
  reply_to w (Client.cmd0 "last") = Ok (JObj [("reward", JNull)]) /\
  fst (AECEnv.agent_selection TurnServer.runtime P (TurnServer.open_env, w))
    = Ok (JStr "player_0") /\
  fst (AECEnv.last TurnServer.runtime P true (TurnServer.open_env, w)) = Raise TypeError.
Proof. repeat split; vm_compute; reflexivity. Qed.

(** Nor does [last] return when a later query fails, whatever the reply to
    the [last] command was: here that reply has none of the four fields and
    the server answers the query for the selected agent with an error. *)
Example last_raises_when_selection_fails :
  let P := answering "agent_selection" (JObj [("error", JStr "no game")]) in
  let g := {| TurnServer.g_possible := ["player_0"]; TurnServer.g_agents := ["player_0"];
              TurnServer.g_turn := 0; TurnServer.g_done := [];
              TurnServer.g_fault := None; TurnServer.g_terse := true;
              TurnServer.g_log := [] |} in
  let w := Build_World P g [] in
  reply_to w (Client.cmd0 "last") = Ok (JObj []) /\
  fst (AECEnv.last TurnServer.runtime P true (TurnServer.open_env, w))
    = Raise (RuntimeError "Server error: no game").
Proof. split; vm_compute; reflexivity. Qed.

(** ** Space descriptors there and back *)

Lemma prod_dims_nonneg (dims : list Z) : Forall (fun d => 0 <= d < 2 ^ 63) dims -> 0 <= prod_dims dims.
Proof. induction 1 as [|d dims Hd _ IH]; simpl; lia. Qed.

Lemma wrap64_small (z : Z) : 0 <= z < 2 ^ 63 -> wrap64 z = z.
Proof. intros H. unfold wrap64. rewrite Z.mod_small; lia. Qed.

Lemma collect_shape_dims (dims : list Z) :
  Forall (fun d => 0 <= d < 2 ^ 63) dims ->
  collect (map shape_dim (map JInt dims)) = Ok dims.
Proof.
  induction 1 as [|d dims Hd _ IH]; simpl; [done|].
  destruct (Z.leb_spec 0 d); [|lia]. destruct (Z.ltb_spec d (2 ^ 63)); [|lia].
  simpl. by rewrite IH.
Qed.

Section RoundTrip.
Context (rt : PyRuntime).

Lemma np_array_number (x : json) (f : float64) :
  json_number x f -> np_array (np_float32 rt) x = Ok (scalar32 f).
Proof. intros [z f' Hz|f']; simpl; [by rewrite Hz|done]. Qed.

Lemma collect_numbers (xs : list json) (fs : list float64) :
  Forall2 json_number xs fs ->
  collect (map (np_array (np_float32 rt)) xs) = Ok (map scalar32 fs).
Proof.
  induction 1 as [|x f xs fs Hx _ IH]; [done|].
  cbn [map collect]. rewrite (np_array_number x f Hx). simpl. by rewrite IH.
Qed.

Lemma np_stack_scalars (fs : list float64) :
  np_stack (map scalar32 fs) =
  Ok {| nd_shape := [Z.of_nat (length fs)]; nd_data := map to_float32 fs |}.
Proof.
  destruct fs as [|f fs]; [done|]. unfold np_stack. cbn [map].
  assert (Hall : forallb (fun b : ndarray float32 => shape_eqb (nd_shape b) (nd_shape (scalar32 f)))
                   (map scalar32 fs) = true).
  { apply forallb_forall. intros b Hb. apply in_map_iff in Hb as (f' & <- & _). done. }
  rewrite Hall. f_equal. f_equal.
  - by rewrite length_cons, !length_map.
  - clear Hall. change (to_float32 f :: concat (map nd_data (map scalar32 fs))
                        = to_float32 f :: map to_float32 fs).
    f_equal. induction fs as [|f' fs IH]; [done|]. simpl. by rewrite IH.
Qed.

Lemma np_array_flat (xs : list json) (fs : list float64) :
  Forall2 json_number xs fs ->
  np_array (np_float32 rt) (JArr xs) =
  Ok {| nd_shape := [Z.of_nat (length fs)]; nd_data := map to_float32 fs |}.
Proof.
  intros H. cbn [np_array].
  change (collect (map (np_array (np_float32 rt)) xs) ≫= np_stack = 
          Ok {| nd_shape := [Z.of_nat (length fs)]; nd_data := map to_float32 fs |}).
  rewrite (collect_numbers xs fs H). apply np_stack_scalars.
Qed.

(** The bound as [convert_space] takes it after filling in the default. *)
Lemma bounds_become_array (count : Z) (default : float32) (s : bool)
    (field : option json) (out : list float32) :
  default = S754_infinity s -> 0 <= count ->
  bounds_become count default field out ->
  default_fits rt count field = true ->
  exists filled arr,
    (if match field with Some v => v | None => JNull end is JNull
     then py_repeat rt (JFloat default) count
     else Ok (match field with Some v => v | None => JNull end)) = Ok filled /\
    np_array (np_float32 rt) filled = Ok arr /\
    Z.of_nat (length (nd_data arr)) = count /\
    nd_data arr = out.
Proof.
  intros -> Hcount [| |xs fs Hxs Hlen] Hfit; cbv beta iota zeta.
  1,2: exists (JArr (replicate (Z.to_nat count) (JFloat (S754_infinity s)))); eexists;
       (split; [|split; [apply (np_array_flat _ (replicate (Z.to_nat count) (S754_infinity s)));
                         apply Forall2_replicate; constructor|]]);
       [ unfold py_repeat; unfold default_fits in Hfit; simpl in Hfit;
         destruct (Z.leb_spec count 0);
         [by replace count with 0 by lia | simpl in Hfit; by rewrite Hfit]
       | cbn [nd_data]; rewrite length_map, length_replicate;
         split; [lia|]; rewrite fmap_replicate; reflexivity ].
  exists (JArr xs). eexists. split; [reflexivity|].
  split; [exact (np_array_flat xs fs Hxs)|]. cbn [nd_data].
  rewrite length_map. apply Forall2_length in Hxs. split; [lia | done].
Qed.

Lemma prod_dims_le_nonzero (dims : list Z) :
  Forall (fun d => 0 <= d < 2 ^ 63) dims -> 0 <= prod_dims dims <= prod_nonzero dims.
Proof.
  induction 1 as [|d dims Hd _ IH]; simpl; [lia|].
  destruct (Z.eqb_spec d 0) as [->|Hne]; [lia | nia].
Qed.

(** C4, as the code has it: a discrete descriptor [{n}] with [1 <= n < 2^63]
    comes back unchanged; a bounded-vector descriptor whose shape numpy can
    hold (no more dimensions than it allows, fewer than 2^61 elements even
    when the dimensions that are 0 are left out), whose missing bounds the
    machine has room to fill in, and whose bounds the spaces library accepts,
    comes back with its [shape] unchanged and with both [low] and [high]
    present, each a flat list with one entry per element: the default (-inf
    for [low], +inf for [high]) where the field was missing, and otherwise
    each given number cast to float32, in both cases as the spaces library
    keeps the entry, read back as a Python float (exact for float32 values,
    infinite beyond the float32 range). *)
Theorem round_trip_descriptor :
  (forall n : Z, 1 <= n < 2 ^ 63 ->
     round_trip rt (JObj [("n", JInt n)]) = Ok (JObj [("n", JInt n)])) /\
  (forall (kv : list (string * json)) (dims : list Z) (lows highs : list float32),
     dict_get "n" kv = None ->
     dict_get "shape" kv = Some (JArr (map JInt dims)) ->
     Forall (fun d => 0 <= d < 2 ^ 63) dims ->
     (length dims <= np_maxdims rt)%nat ->
     4 * prod_nonzero dims < 2 ^ 63 ->
     bounds_become (prod_dims dims) neg_inf (dict_get "low" kv) lows ->
     bounds_become (prod_dims dims) pos_inf (dict_get "high" kv) highs ->
     default_fits rt (prod_dims dims) (dict_get "low" kv) = true ->
     default_fits rt (prod_dims dims) (dict_get "high" kv) = true ->
     box_accepts rt (map (box_low rt) lows) (map (box_high rt) highs) = true ->
     round_trip rt (JObj kv) =
       Ok (JObj [("shape", JArr (map JInt dims));
                 ("low", floats_of (map (box_low rt) lows));
                 ("high", floats_of (map (box_high rt) highs))])).
Proof.
  split.
  - intros n Hn. unfold round_trip, convert_space. simpl.
    destruct (Z.ltb_spec 0 n); [|lia]. destruct (Z.ltb_spec n (2 ^ 63)); [done|lia].
  - intros kv dims lows highs Hn Hshape Hdims Hmax Hbytes Hlow Hhigh Hfl Hfh Hacc.
    pose proof (prod_dims_le_nonzero dims Hdims) as Hnn.
    unfold round_trip, convert_space. simpl. unfold dict_has. rewrite Hn, Hshape. simpl.
    rewrite (collect_shape_dims dims Hdims). simpl.
    assert (Hsize : (if match map JInt dims with [] => false | _ => true end
                     then wrap64 (prod_dims dims) else 1) = prod_dims dims).
    { destruct dims; [done|]. apply wrap64_small. lia. }
    rewrite Hsize.
    destruct (bounds_become_array _ _ true _ _ eq_refl (proj1 Hnn) Hlow Hfl)
      as (lf & la & Hlf & Hla & Hll & Hlo).
    destruct (bounds_become_array _ _ false _ _ eq_refl (proj1 Hnn) Hhigh Hfh)
      as (hf & ha & Hhf & Hha & Hhl & Hho).
    unfold neg_inf, pos_inf in *.
    rewrite Hlf. cbn [mbind result_bind]. rewrite Hhf. cbn [mbind result_bind].
    rewrite Hla. cbn [mbind result_bind]. unfold np_reshape.
    destruct (Nat.leb_spec (length dims) (np_maxdims rt)); [|lia].
    destruct (Z.ltb_spec (4 * prod_nonzero dims) (2 ^ 63)); [|lia].
    rewrite Hll, Z.eqb_refl. cbn [andb mbind result_bind].
    rewrite Hha. cbn [mbind result_bind]. rewrite Hhl, Z.eqb_refl. cbn [andb mbind result_bind].
    unfold spaces_Box, shape_eqb. cbn [nd_shape nd_data].
    rewrite bool_decide_eq_true_2 by done. cbn [andb].
    rewrite Hlo, Hho, Hacc. reflexivity.
Qed.
End RoundTrip.

Lemma round_trip_descriptor_witness :
  let kv := [("shape", JArr (map JInt [2])); ("low", JArr [JFloat tenth; JInt 3])] in
  round_trip TurnServer.runtime (JObj [("n", JInt 5)]) = Ok (JObj [("n", JInt 5)]) /\
  round_trip TurnServer.runtime (JObj kv) =
    Ok (JObj [("shape", JArr (map JInt [2]));
              ("low", floats_of (map to_float32 [tenth; three]));
              ("high", floats_of (replicate (Z.to_nat (prod_dims [2])) pos_inf))]).
Proof.
  intros kv. split.
  - apply (proj1 (round_trip_descriptor TurnServer.runtime) 5). lia.
  - rewrite (proj2 (round_trip_descriptor TurnServer.runtime) kv [2]
               (map to_float32 [tenth; three]) (replicate (Z.to_nat (prod_dims [2])) pos_inf)).
    + vm_compute. reflexivity.
    + reflexivity.
    + reflexivity.
    + repeat constructor; lia.
    + simpl. lia.
    + vm_compute. reflexivity.
    + apply (bounds_listed _ _ [JFloat tenth; JInt 3] [tenth; three]).
      * repeat constructor.
      * reflexivity.
    + apply bounds_absent.
    + reflexivity.
    + reflexivity.
    + reflexivity.
Defined.

(** C4 as stated fails on a descriptor without [low] whose [high] is beyond
    the float32 range: the descriptor that comes back has a [low] field the
    original lacks, and its [high] is infinite where the original is
    10^39. *)
Lemma round_trip_changes_descriptor :
  let d := JObj [("shape", JArr [JInt 1]); ("high", JArr [JFloat ten_to_39])] in
  round_trip TurnServer.runtime d =
    Ok (JObj [("shape", JArr [JInt 1]); ("low", JArr [JFloat neg_inf]);
              ("high", JArr [JFloat pos_inf])]) /\
  round_trip TurnServer.runtime d <> Ok d.
Proof.
  split.
  - vm_compute. reflexivity.
  - vm_compute. discriminate.
Qed.

Example tenth_is_rounded : f32_round tenth <> tenth /\ f32_round three = three.
Proof. split; [vm_compute; discriminate | vm_compute; reflexivity]. Qed.

(** ** Iterating over agents *)

Section Iteration.
Context (rt : PyRuntime) (P : Peer).
Implicit Types (st : AECEnv.EnvSt P) (body : json -> M (AECEnv.EnvSt P) unit).

(** A query of the adapter for one field of a reply, on the wire. *)
Lemma aec_field_run (name key : string) (e : HyperTokenAECEnv) (w : World P) :
  AECEnv.via_client P (Client.field rt P name key) (e, w) =
  match ws (client e) with
  | None => (Raise not_connected, (e, w))
  | Some _ => (reported rt w (Client.cmd0 name) key, (e, exchanged w (Client.cmd0 name)))
  end.
Proof.
  rewrite via_client_run. unfold Client.field. rewrite bind_run, _send_eq.
  destruct (ws (client e)); simpl; [|by rewrite set_client_same].
  unfold reported, lift_result.
  destruct (check_reply rt (reply_to w (Client.cmd0 name))); simpl; by rewrite set_client_same.
Qed.

Lemma agent_iter_next_run (count max_iter : Z) st :
  AECEnv.agent_iter_next rt P count max_iter st =
  match AECEnv.agents rt P st with
  | (Raise x, st1) => (Raise x, st1)
  | (Ok ags, st1) =>
      if py_bool ags && (count <? max_iter) then
        match AECEnv.agent_selection rt P st1 with
        | (Ok agent, st2) => (Ok (Some agent), st2)
        | (Raise x, st2) => (Raise x, st2)
        end
      else (Ok None, st1)
  end.
Proof.
  unfold AECEnv.agent_iter_next. rewrite bind_run.
  destruct (AECEnv.agents rt P st) as [[ags|x] st1]; [|done].
  destruct (py_bool ags && (count <? max_iter)); [|done].
  rewrite bind_run. by destruct (AECEnv.agent_selection rt P st1) as [[agent|x] st2].
Qed.

Lemma aec_agents_run (e : HyperTokenAECEnv) (w : World P) :
  AECEnv.agents rt P (e, w) =
  if _connected e then
    match ws (client e) with
    | None => (Raise not_connected, (e, w))
    | Some _ => (reported rt w (Client.cmd0 "agents") "agents",
                 (e, exchanged w (Client.cmd0 "agents")))
    end
  else (Ok (JArr []), (e, w)).
Proof.
  unfold AECEnv.agents. rewrite bind_run, self_run.
  destruct (_connected e); cbn [negb]; [apply aec_field_run | reflexivity].
Qed.

Lemma aec_agent_selection_run (e : HyperTokenAECEnv) (w : World P) :
  AECEnv.agent_selection rt P (e, w) =
  if _connected e then
    match ws (client e) with
    | None => (Raise not_connected, (e, w))
    | Some _ => (reported rt w (Client.cmd0 "agent_selection") "agent",
                 (e, exchanged w (Client.cmd0 "agent_selection")))
    end
  else (Ok (JStr ""), (e, w)).
Proof.
  unfold AECEnv.agent_selection. rewrite bind_run, self_run.
  destruct (_connected e); cbn [negb]; [apply aec_field_run | reflexivity].
Qed.

(** One resumption of the generator, on the wire. *)
Lemma agent_iter_next_cases (count max_iter : Z) st (r : result (option json)) st' :
  AECEnv.agent_iter_next rt P count max_iter st = (r, st') ->
  match r with
  | Ok (Some agent) => yields_at rt count max_iter st agent /\ st' = asked_selection st
  | Ok None => stops_at rt count max_iter st st'
  | Raise e => query_raises rt count max_iter st e st'
  end.
Proof.
  destruct st as [e w]. rewrite agent_iter_next_run, aec_agents_run.
  unfold yields_at, stops_at, query_raises, linked, asked_selection, asked_agents.
  cbn [fst snd].
  destruct (_connected e) eqn:Ec.
  2: { intros [= <- <-]. by left. }
  destruct (ws (client e)) as [sock|] eqn:Ews.
  2: { intros [= <- <-]. split; [done|]. by left. }
  destruct (reported rt w (Client.cmd0 "agents") "agents") as [ags|x] eqn:Ea.
  2: { intros [= <- <-]. split; [done|]. right; left. eauto. }
  destruct (py_bool ags) eqn:Eb; cbn [andb].
  2: { intros [= <- <-]. right. repeat split; eauto. }
  destruct (Z.ltb_spec count max_iter) as [Hlt|Hge].
  2: { intros [= <- <-]. right. repeat split; eauto. }
  rewrite aec_agent_selection_run, Ec, Ews.
  destruct (reported rt _ (Client.cmd0 "agent_selection") "agent") as [agent|x] eqn:Es.
  - intros [= <- <-]. repeat split; eauto.
  - intros [= <- <-]. split; [done|]. right; right. repeat split; eauto.
Qed.

(** C2, as the code has it: each resumption of [agent_iter] on a linked
    adapter asks the server for the active agents and, when that list is
    non-empty and fewer than [max_iter] agents were yielded, asks for the
    selected agent and yields the one the server reports, whatever that
    agent's terminated or truncated status and whether or not it was the
    agent yielded just before.  The loop over it always ends: at most
    [max_iter] agents are yielded; the generator stops when the adapter's
    flag is down, the server's list of active agents is empty or [max_iter]
    agents were yielded; otherwise the loop ends by a query or the loop body
    raising. *)
Theorem agent_iter_yields_selection (fuel : nat) (count max_iter : Z) body st
    (ys : list json) (fin : AECEnv.loop_end) st' :
  (Z.to_nat (max_iter - count) < fuel)%nat ->
  AECEnv.for_agent_iter rt P fuel count max_iter body st = (ys, fin, st') ->
  fin <> AECEnv.OutOfFuel /\
  Z.of_nat (length ys) <= Z.max 0 (max_iter - count) /\
  iterates rt max_iter body count st ys fin st'.
Proof.
  revert count st ys fin st'. induction fuel as [|fuel IH]; intros count st ys fin st' Hfuel; [lia|].
  cbn [AECEnv.for_agent_iter].
  destruct (AECEnv.agent_iter_next rt P count max_iter st) as [[[agent|]|x] st1] eqn:En;
    apply agent_iter_next_cases in En.
  - destruct En as [Hy ->].
    assert (Hlt : count < max_iter) by apply Hy.
    destruct (body agent (asked_selection st)) as [[[]|x] st2] eqn:Ebody.
    + destruct (AECEnv.for_agent_iter rt P fuel (count + 1) max_iter body st2)
        as [[ys' fin'] st3] eqn:Erest.
      intros [= <- <- <-].
      destruct (IH (count + 1) st2 ys' fin' st3 ltac:(lia) Erest) as (H1 & H2 & H3).
      split; [done|]. split; [rewrite length_cons; lia|].
      by eapply iterates_yield.
    + intros [= <- <- <-]. split; [done|]. split; [simpl; lia|].
      by eapply iterates_body_raises.
  - intros [= <- <- <-]. split; [done|]. split; [simpl; lia|]. by constructor.
  - intros [= <- <- <-]. split; [done|]. split; [simpl; lia|]. by constructor.
Qed.
End Iteration.

Lemma agent_iter_yields_selection_witness :
  let st := (TurnServer.open_env, TurnServer.world_of (TurnServer.two_of_three 0 [])) in
  let body := AECEnv.docstring_body TurnServer.runtime TurnServer.peer 0 in
  let out := AECEnv.for_agent_iter TurnServer.runtime TurnServer.peer 4 0 3 body st in
  (Z.to_nat (3 - 0) < 4)%nat /\
  fst (fst out) = [JStr "player_0"; JStr "player_1"; JStr "player_0"] /\
  snd (fst out) = AECEnv.StopIteration /\
  Z.of_nat (length (fst (fst out))) <= Z.max 0 (3 - 0) /\
  iterates TurnServer.runtime 3 body 0 st (fst (fst out)) (snd (fst out)) (snd out).
Proof.
  intros st body out.
  destruct (agent_iter_yields_selection TurnServer.runtime TurnServer.peer 4 0 3 body st
              (fst (fst out)) (snd (fst out)) (snd out)) as (H1 & H2 & H3).
  - simpl. lia.
  - unfold out. by destruct (AECEnv.for_agent_iter _ _ _ _ _ _ _) as [[? ?] ?].
  - split; [simpl; lia|]. split; [vm_compute; reflexivity|].
    split; [vm_compute; reflexivity|]. by split.
Defined.

(** C2 as stated fails when a finished agent is selected: run with the loop
    of the class docstring for two turns, [agent_iter] yields ["player_0"]
    twice in a row, although [last] reports it terminated at both moments and
    two agents are active. *)
Lemma agent_iter_yields_finished_agent_twice :
  let st := (TurnServer.open_env, TurnServer.world_of (TurnServer.two_of_three 0 ["player_0"])) in
  let body := AECEnv.docstring_body TurnServer.runtime TurnServer.peer 0 in
  let out := AECEnv.for_agent_iter TurnServer.runtime TurnServer.peer 3 0 2 body st in
  fst (fst out) = [JStr "player_0"; JStr "player_0"] /\
  fst (AECEnv.agents TurnServer.runtime TurnServer.peer st)
    = Ok (JArr [JStr "player_0"; JStr "player_1"]) /\
  (exists obs reward truncated info,
      fst (AECEnv.last TurnServer.runtime TurnServer.peer true st)
        = Ok (obs, reward, true, truncated, info)) /\
  (exists obs reward truncated info,
      fst (AECEnv.last TurnServer.runtime TurnServer.peer true (snd out))
        = Ok (obs, reward, true, truncated, info)).
Proof.
  intros st body out. split; [vm_compute; reflexivity|]. split; [vm_compute; reflexivity|].
  split; vm_compute; eauto.
Qed.

(** ** One round of the Parallel adapter *)

Lemma bind_ok_inv {St A B} (m : M St A) (f : A -> M St B) (st st' : St) (b : B) :
  (m ≫= f) st = (Ok b, st') ->
  exists a st1, m st = (Ok a, st1) /\ f a st1 = (Ok b, st').
Proof.
  rewrite bind_run. destruct (m st) as [[a|x] st1]; [eauto | discriminate].
Qed.

Lemma check_reply_ok (rt : PyRuntime) (reply : result json) (resp : json) :
  check_reply rt reply = Ok resp -> reply = Ok resp.
Proof.
  unfold check_reply. destruct reply as [response|x]; simpl; [|discriminate].
  destruct (py_in "error" response) as [[|]|x]; simpl; try discriminate.
  - destruct (py_getitem response "error"); discriminate.
  - congruence.
Qed.

Lemma omap_cons_case {A B} (f : A -> option B) (x : A) (l : list A) :
  omap f (x :: l) = match f x with Some y => y :: omap f l | None => omap f l end.
Proof. reflexivity. Qed.

Section ParallelFacts.
Context (rt : PyRuntime) (P : Peer).
Implicit Types (st : ParallelEnv.ParSt P).

Lemma via_aec_run {A} (m : M (AECEnv.EnvSt P) A) (p : ParallelEnv.HyperTokenParallelEnv)
    (w : World P) :
  ParallelEnv.via_aec P m (p, w) =
  (fst (m (ParallelEnv._aec_env p, w)),
   (ParallelEnv.set_aec_env (fst (snd (m (ParallelEnv._aec_env p, w)))) p,
    snd (snd (m (ParallelEnv._aec_env p, w))))).
Proof.
  unfold ParallelEnv.via_aec. by destruct (m (ParallelEnv._aec_env p, w)) as [r [e' w']].
Qed.

Lemma via_aec_on_world {A} (R : relation (World P)) (m : M (AECEnv.EnvSt P) A) :
  respects (on_world R) m -> respects (on_world R) (ParallelEnv.via_aec P m).
Proof.
  intros Hm [p w] r [p' w']. rewrite via_aec_run.
  destruct (m (ParallelEnv._aec_env p, w)) as [r0 [e1 w1]] eqn:E. simpl.
  intros [= <- <- <-]. exact (Hm _ _ _ E).
Qed.

(** A query that returns went over the wire as one exchange, and returned
    the named field of the reply. *)
Lemma field_returns (name key : string) (v : json) st st' :
  ParallelEnv.via_aec P (AECEnv.via_client P (Client.field rt P name key)) st = (Ok v, st') ->
  exists resp, trace (snd st') = trace (snd st) ++ [EvSend (Client.cmd0 name) (Ok resp)] /\
               py_getitem resp key = Ok v.
Proof.
  destruct st as [p w]. rewrite via_aec_run, via_client_run. unfold Client.field.
  rewrite bind_run, _send_eq. destruct (ws (client (ParallelEnv._aec_env p))); [|discriminate].
  destruct (check_reply rt (reply_to w (Client.cmd0 name))) as [resp|x] eqn:Ec; [|discriminate].
  apply check_reply_ok in Ec. unfold lift_result. simpl.
  intros [= Hv <-]. exists resp. simpl. by rewrite Ec.
Qed.

Lemma client_step_at_most (a : Z) :
  respects (on_world (emits (at_most_step a))) (Client.step rt P a).
Proof.
  intros [c w] r [c' w']. unfold Client.step. rewrite bind_run, _send_eq.
  unfold on_world, emits. simpl.
  destruct (ws c).
  - destruct (check_reply rt (reply_to w (Client.step_cmd a))); intros [= <- <- <-];
      exists [EvSend (Client.step_cmd a) (reply_to w (Client.step_cmd a))];
      (split; [done | by right]).
  - intros [= <- <- <-]. exists []. split; [by rewrite app_nil_r | by left].
Qed.

Lemma aec_step_at_most (a : Z) :
  respects (on_world (emits (at_most_step a))) (AECEnv.step rt P (Some a)).
Proof.
  unfold AECEnv.step.
  apply (respects_seq (on_world (emits (at_most_step a))) (on_world (grows not_step))).
  - apply via_client_on_world, client_step_at_most.
  - intros _. unfold_aec. unfold_client. respects_tac.
  - done.
  - intros [e1 w1] [e2 w2] [e3 w3]. unfold on_world. simpl.
    intros (ev1 & Ht1 & Hs1) (ev2 & Ht2 & Hs2)%grows_no_steps.
    exists (ev1 ++ ev2). split; [by rewrite Ht2, Ht1, app_assoc|].
    unfold at_most_step in *. rewrite steps_of_app, Hs2, app_nil_r. done.
Qed.

(** The loop body of [step] sends at most one [step] command, and then with
    the action supplied for the agent. *)
Lemma step_agent_steps (actions : gmap string Z) (agent : json) r st st' :
  ParallelEnv.step_agent rt P actions agent st = (r, st') ->
  exists evs, trace (snd st') = trace (snd st) ++ evs /\
    (steps_of evs = [] \/ exists a, supplied actions agent = Some a /\ steps_of evs = [a]).
Proof.
  unfold ParallelEnv.step_agent, supplied. rewrite bind_run. unfold lift_result.
  destruct (ParallelEnv.lookup_action agent actions) as [[a|]|x]; simpl.
  - intros E.
    assert (Hr : respects (on_world (emits (at_most_step a)))
              (current ← ParallelEnv.via_aec P (AECEnv.agent_selection rt P);
               if ParallelEnv.py_eq_name current agent
               then ParallelEnv.via_aec P (AECEnv.step rt P (Some a)) else mret tt)).
    { apply (respects_seq (on_world (grows not_step)) (on_world (emits (at_most_step a)))).
      - unfold_aec. unfold_client. apply via_aec_on_world. respects_tac.
      - intros current. destruct (ParallelEnv.py_eq_name current agent).
        + apply via_aec_on_world, aec_step_at_most.
        + intros st0 r0 st0' [= <- <-]. exists []. split; [by rewrite app_nil_r | by left].
      - intros x y (evs & Ht & Hs)%grows_no_steps. exists evs. split; [done | by left].
      - intros [e1 w1] [e2 w2] [e3 w3]. unfold on_world. simpl.
        intros (ev1 & Ht1 & Hs1)%grows_no_steps (ev2 & Ht2 & Hs2).
        exists (ev1 ++ ev2). split; [by rewrite Ht2, Ht1, app_assoc|].
        unfold at_most_step in *. by rewrite steps_of_app, Hs1. }
    destruct (Hr _ _ _ E) as (evs & Ht & [Hs|Hs]); exists evs; split; eauto.
  - intros [= <- <-]. exists []. split; [by rewrite app_nil_r | by left].
  - intros [= <- <-]. exists []. split; [by rewrite app_nil_r | by left].
Qed.

(** Over the agents of the round, the [step] commands sent carry, in order,
    the actions supplied for some of them. *)
Lemma round_steps (actions : gmap string Z) (l : list json) r st st' :
  for_each l (ParallelEnv.step_agent rt P actions) st = (r, st') ->
  exists evs, trace (snd st') = trace (snd st) ++ evs /\
              steps_of evs `sublist_of` omap (supplied actions) l.
Proof.
  revert st. induction l as [|agent l IH]; intros st; cbn [for_each].
  - intros [= <- <-]. exists []. split; [by rewrite app_nil_r | apply sublist_nil_l].
  - rewrite bind_run.
    destruct (ParallelEnv.step_agent rt P actions agent st) as [r1 st1] eqn:E1.
    destruct (step_agent_steps _ _ _ _ _ E1) as (ev1 & Ht1 & Hs1).
    assert (Hhead : steps_of ev1 `sublist_of` omap (supplied actions) (agent :: l) /\
              forall s2, s2 `sublist_of` omap (supplied actions) l ->
                         steps_of ev1 ++ s2 `sublist_of` omap (supplied actions) (agent :: l)).
    { rewrite omap_cons_case. destruct Hs1 as [->|(a & -> & ->)].
      - split; [apply sublist_nil_l|]. intros s2 H2. rewrite app_nil_l.
        destruct (supplied actions agent); [by apply sublist_cons | done].
      - split; [apply sublist_skip, sublist_nil_l|]. intros s2 H2. by apply sublist_skip. }
    destruct Hhead as [Hh1 Hh2].
    destruct r1 as [[]|x].
    + intros E2. destruct (IH _ E2) as (ev2 & Ht2 & Hs2).
      exists (ev1 ++ ev2). split; [by rewrite Ht2, Ht1, app_assoc|].
      rewrite steps_of_app. by apply Hh2.
    + intros [= <- <-]. exists ev1. by split.
Qed.

Lemma step_run (actions : gmap string Z) st :
  ParallelEnv.step rt P actions st =
  (round ← ParallelEnv.agents rt P;
   l ← lift_result (py_list round);
   for_each l (ParallelEnv.step_agent rt P actions) ;;
   step_results rt P) st.
Proof. reflexivity. Qed.

Lemma par_agents_grows : respects (on_world (grows not_step)) (ParallelEnv.agents rt P).
Proof.
  unfold ParallelEnv.agents. apply via_aec_on_world. unfold_aec. unfold_client. respects_tac.
Qed.

Lemma observe_each_grows (l : list json) (acc : gmap string (ndarray float32)) :
  respects (on_world (grows not_step)) (ParallelEnv.observe_each rt P l acc).
Proof.
  revert acc. induction l as [|agent l IH]; intros acc; cbn [ParallelEnv.observe_each].
  - respects_tac.
  - apply respects_bind; [apply _ | | intros obs].
    + apply via_aec_on_world. unfold_aec. unfold_client. respects_tac.
    + apply respects_bind; [apply _ | respects_tac | intros k; apply IH].
Qed.

Lemma observe_all_grows (current_agents : json) :
  respects (on_world (grows not_step)) (ParallelEnv.observe_all rt P current_agents).
Proof.
  unfold ParallelEnv.observe_all.
  apply respects_bind; [apply _ | respects_tac | intros l; apply observe_each_grows].
Qed.

Lemma par_field_grows (name key : string) :
  not_step (Client.cmd0 name) = true ->
  respects (on_world (grows not_step))
    (ParallelEnv.via_aec P (AECEnv.via_client P (Client.field rt P name key))).
Proof.
  intros H. apply via_aec_on_world, via_client_on_world. unfold Client.field.
  apply respects_bind; [apply _ | by apply _send_grows | intros; respects_tac].
Qed.

Lemma step_results_grows : respects (on_world (grows not_step)) (step_results rt P).
Proof.
  unfold step_results.
  apply respects_bind; [apply _ | apply par_agents_grows | intros ca].
  apply respects_bind; [apply _ | apply observe_all_grows | intros obs].
  apply respects_bind; [apply _ | by apply (par_field_grows "rewards" "rewards") | intros rw].
  apply respects_bind;
    [apply _ | by apply (par_field_grows "terminations" "terminations") | intros tm].
  apply respects_bind;
    [apply _ | by apply (par_field_grows "truncations" "truncations") | intros tr].
  apply respects_bind; [apply _ | by apply (par_field_grows "infos" "infos") | intros inf].
  respects_tac.
Qed.

(** When the queries all return, the reward and termination maps handed
    back are the fields of the server's replies to the [rewards] and
    [terminations] commands, as they came. *)
Lemma step_results_returns st st' obs rw tm tr inf :
  step_results rt P st = (Ok (obs, rw, tm, tr, inf), st') ->
  exists pre post resp_r resp_t,
    trace (snd st') = trace (snd st) ++
      pre ++ [EvSend (Client.cmd0 "rewards") (Ok resp_r);
              EvSend (Client.cmd0 "terminations") (Ok resp_t)] ++ post /\
    py_getitem resp_r "rewards" = Ok rw /\
    py_getitem resp_t "terminations" = Ok tm.
Proof.
  unfold step_results. intros E.
  apply bind_ok_inv in E as (ca & st1 & E1 & E).
  apply bind_ok_inv in E as (obs' & st2 & E2 & E).
  apply bind_ok_inv in E as (rw' & st3 & E3 & E).
  apply bind_ok_inv in E as (tm' & st4 & E4 & E).
  apply bind_ok_inv in E as (tr' & st5 & E5 & E).
  apply bind_ok_inv in E as (inf' & st6 & E6 & E).
  injection E as <- <- <- <- <- <-.
  apply par_agents_grows in E1 as (ev1 & Ht1 & _).
  apply observe_all_grows in E2 as (ev2 & Ht2 & _).
  apply (field_returns "rewards" "rewards") in E3 as (resp_r & Ht3 & Hr).
  apply (field_returns "terminations" "terminations") in E4 as (resp_t & Ht4 & Htm).
  apply (field_returns "truncations" "truncations") in E5 as (resp_u & Ht5 & _).
  apply (field_returns "infos" "infos") in E6 as (resp_i & Ht6 & _).
  exists (ev1 ++ ev2),
    [EvSend (Client.cmd0 "truncations") (Ok resp_u); EvSend (Client.cmd0 "infos") (Ok resp_i)],
    resp_r, resp_t.
  split; [|done].
  rewrite Ht6, Ht5, Ht4, Ht3, Ht2, Ht1. by rewrite <- !app_assoc.
Qed.

End ParallelFacts.

Section ParallelTurn.
Context (rt : PyRuntime) (P : Peer).

Lemma check_reply_plain (kv : list (string * json)) :
  dict_get "error" kv = None -> check_reply rt (Ok (JObj kv)) = Ok (JObj kv).
Proof. intros H. unfold check_reply. simpl. unfold dict_has. by rewrite H. Qed.

(** When the loop of [step] reaches an agent that has a supplied action and
    that the server reports as selected, it issues that agent's step. *)
Lemma step_agent_when_selected (actions : gmap string Z) (s : string) (a : Z)
    (p : ParallelEnv.HyperTokenParallelEnv) (w : World P) (sock : WebSocket)
    (kv : list (string * json)) :
  actions !! s = Some a ->
  _connected (ParallelEnv._aec_env p) = true ->
  ws (client (ParallelEnv._aec_env p)) = Some sock ->
  reply_to w (Client.cmd0 "agent_selection") = Ok (JObj kv) ->
  dict_get "error" kv = None ->
  dict_get "agent" kv = Some (JStr s) ->
  exists evs,
    trace (snd (snd (ParallelEnv.step_agent rt P actions (JStr s) (p, w)))) = trace w ++ evs /\
    steps_of evs = [a].
Proof.
  intros Ha Hc Hws Hr He Hag.
  unfold ParallelEnv.step_agent. rewrite bind_run. unfold lift_result. simpl. rewrite Ha.
  rewrite bind_run, via_aec_run. unfold AECEnv.agent_selection.
  rewrite bind_run, self_run, Hc. cbn [negb]. cbv iota.
  rewrite via_client_run. unfold Client.agent_selection, Client.field.
  rewrite bind_run, (_send_connected rt P _ _ _ sock) by done.
  rewrite Hr, (check_reply_plain kv He). unfold lift_result. simpl. rewrite Hag. simpl.
  rewrite String.eqb_refl. rewrite set_client_same.
  destruct (ParallelEnv.via_aec P (AECEnv.step rt P (Some a))
              (ParallelEnv.set_aec_env (ParallelEnv._aec_env p) p,
               exchanged w (Client.cmd0 "agent_selection"))) as [r st'] eqn:E.
  simpl.
  unfold AECEnv.step in E. rewrite via_aec_run in E.
  cbn [ParallelEnv._aec_env ParallelEnv.set_aec_env] in E.
  rewrite bind_run, via_client_run in E.
  unfold Client.step in E. rewrite bind_run, (_send_connected rt P _ _ _ sock) in E by done.
  set (w1 := exchanged w (Client.cmd0 "agent_selection")) in *.
  destruct (check_reply rt (reply_to w1 (Client.step_cmd a))) as [resp|x].
  - simpl in E. rewrite set_client_same in E.
    match type of E with
    | (fst (?m ?st0), _) = _ =>
        assert (Hr2 : respects (on_world (grows not_step)) m)
          by (unfold_aec; unfold_client; respects_tac);
        destruct (m st0) as [r2 [e2 w2]] eqn:E2
    end.
    destruct (grows_no_steps _ _ (Hr2 _ _ _ E2)) as (ev2 & Ht2 & Hs2).
    simpl in E. injection E as <- <-. simpl in *.
    exists ([EvSend (Client.cmd0 "agent_selection") (reply_to w (Client.cmd0 "agent_selection"))]
            ++ [EvSend (Client.step_cmd a) (reply_to w1 (Client.step_cmd a))] ++ ev2).
    split.
    + rewrite Ht2. unfold w1. simpl. by rewrite <- !app_assoc.
    + rewrite !steps_of_app, Hs2. reflexivity.
  - simpl in E. injection E as <- <-. simpl.
    exists [EvSend (Client.cmd0 "agent_selection") (reply_to w (Client.cmd0 "agent_selection"));
            EvSend (Client.step_cmd a) (reply_to w1 (Client.step_cmd a))].
    split; [by rewrite <- app_assoc | reflexivity].
Qed.
End ParallelTurn.

Lemma set_aec_env_same (p : ParallelEnv.HyperTokenParallelEnv) :
  ParallelEnv.set_aec_env (ParallelEnv._aec_env p) p = p.
Proof. by destruct p. Qed.

Section ParallelRound.
Context (rt : PyRuntime) (P : Peer).
Implicit Types (p : ParallelEnv.HyperTokenParallelEnv) (w : World P).

(** A step of the AEC adapter with an open socket: the adapter is left as
    it was, the [step] command goes out first, and no other follows. *)
Lemma aec_step_linked (a : Z) (e : HyperTokenAECEnv) w (r : result unit) st' :
  is_Some (ws (client e)) ->
  AECEnv.step rt P (Some a) (e, w) = (r, st') ->
  fst st' = e /\
  exists rest,
    trace (snd st') =
      trace w ++ EvSend (Client.step_cmd a) (reply_to w (Client.step_cmd a)) :: rest /\
    steps_of rest = [].
Proof.
  intros [sock Hws]. unfold AECEnv.step, AECEnv.render. rewrite bind_run, via_client_run.
  unfold Client.step, Client.render.
  rewrite bind_run, _send_eq, Hws.
  destruct (check_reply rt (reply_to w (Client.step_cmd a))) as [resp|x]; cbn [fst snd].
  2: { intros [= <- <-]. rewrite set_client_same. split; [done|]. by exists []. }
  rewrite ret_run. cbn [fst snd]. rewrite set_client_same, bind_run, self_run.
  destruct (is_human (render_mode e)).
  - rewrite via_client_run, bind_run, _send_eq, Hws.
    destruct (check_reply rt _) as [resp'|x]; rewrite ?ret_run; cbn [fst snd];
      intros [= <- <-]; cbn [fst snd trace exchanged]; rewrite set_client_same;
      (split; [done|]); eexists [_]; (split; [by rewrite <- app_assoc | reflexivity]).
  - intros [= <- <-]. split; [done|]. exists []. by split.
Qed.

(** The Parallel adapter's query for the selected agent, on the wire. *)
Lemma par_agent_selection_linked p w :
  linked (ParallelEnv._aec_env p) ->
  ParallelEnv.via_aec P (AECEnv.agent_selection rt P) (p, w) =
  (reported rt w (Client.cmd0 "agent_selection") "agent",
   (p, exchanged w (Client.cmd0 "agent_selection"))).
Proof.
  intros [Hc [sock Hws]]. rewrite via_aec_run, aec_agent_selection_run, Hc, Hws.
  cbn [fst snd]. by rewrite set_aec_env_same.
Qed.

(** The loop body of [step] for one agent, when it returns. *)
Lemma step_agent_turn (actions : gmap string Z) (agent : json) p w st' :
  linked (ParallelEnv._aec_env p) ->
  ParallelEnv.step_agent rt P actions agent (p, w) = (Ok tt, st') ->
  fst st' = p /\
  exists evs, trace (snd st') = trace w ++ evs /\ turn_of rt actions agent evs.
Proof.
  intros Hl. unfold ParallelEnv.step_agent, turn_of, supplied. rewrite bind_run.
  unfold lift_result.
  destruct (ParallelEnv.lookup_action agent actions) as [[a|]|x]; [| |discriminate].
  2: { intros [= <-]. split; [done|]. exists []. split; [by rewrite app_nil_r | done]. }
  rewrite bind_run, par_agent_selection_linked by done.
  set (sel := Client.cmd0 "agent_selection").
  destruct (reported rt w sel "agent") as [current|x] eqn:Er; [|discriminate].
  destruct (ParallelEnv.py_eq_name current agent) eqn:En.
  - rewrite via_aec_run.
    destruct (AECEnv.step rt P (Some a) (ParallelEnv._aec_env p, exchanged w sel))
      as [r [e2 w2]] eqn:Es.
    apply aec_step_linked in Es as [He (rest & Ht & Hs)]; [|apply Hl].
    cbn [fst snd] in *. subst e2. rewrite set_aec_env_same.
    intros [= _ <-]. split; [done|].
    exists (EvSend sel (reply_to w sel)
              :: EvSend (Client.step_cmd a) (reply_to (exchanged w sel) (Client.step_cmd a))
              :: rest).
    split; [cbn [snd]; rewrite Ht; cbn [trace exchanged]; by rewrite <- app_assoc|].
    eexists _, _. split; [reflexivity|].
    assert (Hone : steps_of (EvSend (Client.step_cmd a)
                     (reply_to (exchanged w sel) (Client.step_cmd a)) :: rest) = [a]).
    { change (EvSend ?c ?r :: rest) with ([EvSend c r] ++ rest).
      rewrite steps_of_app, Hs. reflexivity. }
    split; [by right | done].
  - intros [= <-]. split; [done|].
    exists [EvSend sel (reply_to w sel)]. split; [done|].
    eexists _, []. split; [reflexivity|]. split; [by left|].
    intros current'. unfold reported in Er. rewrite Er. intros [= <-]. congruence.
Qed.

(** The loop of [step] over the agents of the round, when it returns. *)
Lemma round_turns (actions : gmap string Z) (l : list json) p w st' :
  linked (ParallelEnv._aec_env p) ->
  for_each l (ParallelEnv.step_agent rt P actions) (p, w) = (Ok tt, st') ->
  exists turns, Forall2 (turn_of rt actions) l turns /\
                trace (snd st') = trace w ++ concat turns.
Proof.
  intros Hl. revert w. induction l as [|agent l IH]; intros w; cbn [for_each].
  - intros [= <-]. exists []. split; [constructor | by rewrite app_nil_r].
  - rewrite bind_run.
    destruct (ParallelEnv.step_agent rt P actions agent (p, w)) as [[[]|x] [p1 w1]] eqn:E1;
      [|discriminate].
    apply step_agent_turn in E1 as [Hp (ev1 & Ht1 & Hturn)]; [|done].
    cbn [fst snd] in *. subst p1. intros E2.
    destruct (IH _ E2) as (turns & Hturns & Ht2).
    exists (ev1 :: turns). split; [by constructor|].
    rewrite Ht2, Ht1. cbn [concat]. by rewrite <- app_assoc.
Qed.

(** The query for the active agents that opens the round: it leaves the
    adapter as it was, and when it reports agents, the adapter is linked. *)
Lemma par_agents_opens (round : json) (l : list json) p w st1 :
  ParallelEnv.agents rt P (p, w) = (Ok round, st1) ->
  py_list round = Ok l ->
  fst st1 = p /\ (l = [] \/ linked (ParallelEnv._aec_env p)).
Proof.
  unfold ParallelEnv.agents. rewrite via_aec_run, aec_agents_run. unfold linked.
  destruct (_connected (ParallelEnv._aec_env p)).
  - destruct (ws (client (ParallelEnv._aec_env p))) as [sock|]; [|discriminate].
    cbn [fst snd]. rewrite set_aec_env_same. intros [= _ <-] _. eauto.
  - cbn [fst snd]. rewrite set_aec_env_same. intros [= <- <-] [= <-]. eauto.
Qed.

(** C1, as the code has it: a call of the Parallel adapter's [step] goes
    through the agents that were active at the start of the call, in the
    order of that list.  The [step] commands it sends carry, in that order,
    the actions supplied for some of these agents, each at most once.  When
    the call returns, nothing went out for an agent without a supplied
    action, and for each agent with one, the query for the selected agent
    went out, followed by exactly one [step] with the agent's action when
    the server named this agent; after the round, the reward and
    termination maps the call returns are the [rewards] and [terminations]
    fields of the server's replies, taken as they are. *)
Theorem parallel_step_round (actions : gmap string Z) (round : json) (l : list json)
    (r : result ParallelEnv.StepResult) (st st1 st' : ParallelEnv.ParSt P) :
  ParallelEnv.agents rt P st = (Ok round, st1) ->
  py_list round = Ok l ->
  ParallelEnv.step rt P actions st = (r, st') ->
  exists evs,
    trace (snd st') = trace (snd st) ++ evs /\
    steps_of evs `sublist_of` omap (supplied actions) l /\
    (forall obs rw tm tr inf, r = Ok (obs, rw, tm, tr, inf) ->
       exists before turns after,
         evs = before ++ concat turns ++ after /\
         steps_of before = [] /\ steps_of after = [] /\
         Forall2 (turn_of rt actions) l turns /\
         (exists resp, EvSend (Client.cmd0 "rewards") (Ok resp) ∈ after /\
                       py_getitem resp "rewards" = Ok rw) /\
         (exists resp, EvSend (Client.cmd0 "terminations") (Ok resp) ∈ after /\
                       py_getitem resp "terminations" = Ok tm)).
Proof.
  intros Ha Hl. rewrite step_run, bind_run, Ha, bind_run. unfold lift_result at 1.
  rewrite Hl. cbv beta iota. rewrite bind_run.
  destruct (grows_no_steps _ _ (par_agents_grows _ _ _ _ _ Ha)) as (ev0 & Ht0 & Hs0).
  destruct (for_each l (ParallelEnv.step_agent rt P actions) st1) as [r1 st2] eqn:E1.
  destruct (round_steps _ _ _ _ _ _ _ E1) as (ev1 & Ht1 & Hsub).
  destruct r1 as [[]|x].
  - intros E2.
    destruct (grows_no_steps _ _ (step_results_grows _ _ _ _ _ E2)) as (ev2 & Ht2 & Hs2).
    exists (ev0 ++ ev1 ++ ev2). split; [|split].
    + rewrite Ht2, Ht1, Ht0. by rewrite <- !app_assoc.
    + by rewrite !steps_of_app, Hs0, Hs2, app_nil_r.
    + intros obs rw tm tr inf ->.
      apply step_results_returns in E2 as (pre & post & resp_r & resp_t & Ht & Hr & Htm).
      rewrite Ht2 in Ht. apply app_inv_head in Ht.
      assert (Hturns : exists turns, Forall2 (turn_of rt actions) l turns /\ ev1 = concat turns).
      { destruct st as [p w], st1 as [p1 w1].
        destruct (par_agents_opens _ _ _ _ _ Ha Hl) as [Hp [->|Hlinked]]; cbn [fst] in Hp.
        - cbn [for_each] in E1. injection E1 as <-.
          exists []. split; [constructor|].
          rewrite <- (app_nil_r (trace (snd (p1, w1)))) in Ht1 at 1.
          by apply app_inv_head in Ht1.
        - subst p1. destruct (round_turns _ _ _ _ _ Hlinked E1) as (turns & Hturns & Ht1').
          exists turns. split; [done|]. cbn [snd] in *. rewrite Ht1 in Ht1'.
          by apply app_inv_head in Ht1'. }
      destruct Hturns as (turns & Hturns & ->).
      exists ev0, turns, ev2. repeat split; try done.
      * exists resp_r. split; [|done]. rewrite Ht. set_solver.
      * exists resp_t. split; [|done]. rewrite Ht. set_solver.
  - intros [= <- <-]. exists (ev0 ++ ev1). split; [|split].
    + rewrite Ht1, Ht0. by rewrite <- !app_assoc.
    + by rewrite steps_of_app, Hs0.
    + intros; discriminate.
Qed.
End ParallelRound.

Lemma parallel_step_round_witness :
  let st := (TurnServer.open_parallel, TurnServer.world_of (TurnServer.two_of_three 0 [])) in
  let l := [JStr "player_0"; JStr "player_1"] in
  let out := ParallelEnv.step TurnServer.runtime TurnServer.peer TurnServer.both_act st in
  fst (ParallelEnv.agents TurnServer.runtime TurnServer.peer st) = Ok (JArr l) /\
  py_list (JArr l) = Ok l /\
  exists evs,
    trace (snd (snd out)) = trace (snd st) ++ evs /\
    steps_of evs `sublist_of` omap (supplied TurnServer.both_act) l /\
    exists before turns after,
      evs = before ++ concat turns ++ after /\
      Forall2 (turn_of TurnServer.runtime TurnServer.both_act) l turns.
Proof.
  intros st l out. split; [reflexivity|]. split; [reflexivity|].
  destruct (parallel_step_round TurnServer.runtime TurnServer.peer TurnServer.both_act
              (JArr l) l (fst out) st
              (snd (ParallelEnv.agents TurnServer.runtime TurnServer.peer st)) (snd out))
    as (evs & Ht & Hs & Hok).
  - reflexivity.
  - reflexivity.
  - unfold out. by destruct (ParallelEnv.step _ _ _ _) as [? ?].
  - exists evs. split; [done|]. split; [done|].
    destruct (fst out) as [[[[[obs rw] tm] tr] inf]|x] eqn:E.
    + destruct (Hok obs rw tm tr inf eq_refl) as (before & turns & after & He & _ & _ & Hf & _).
      by exists before, turns, after.
    + vm_compute in E. discriminate.
Defined.

(** C1 as stated fails when the server's turn is not at the head of the
    active list: both active agents have an action, one [step] is issued (for
    ["player_1"]), ["player_0"] gets none, and the reward map that comes back
    has an entry for ["player_2"], which was not active. *)
Lemma parallel_step_skips_agent :
  let st := (TurnServer.open_parallel, TurnServer.world_of (TurnServer.two_of_three 1 [])) in
  let out := ParallelEnv.step TurnServer.runtime TurnServer.peer TurnServer.both_act st in
  fst (ParallelEnv.agents TurnServer.runtime TurnServer.peer st)
    = Ok (JArr [JStr "player_0"; JStr "player_1"]) /\
  omap (supplied TurnServer.both_act) [JStr "player_0"; JStr "player_1"] = [0; 1] /\
  steps_of (trace (snd (snd out))) = [1] /\
  TurnServer.g_log (server (snd (snd out))) = [("player_1", 1)] /\
  exists obs tm tr inf,
    fst out = Ok (obs,
                  JObj [("player_0", JFloat f64_zero); ("player_1", JFloat f64_zero);
                        ("player_2", JFloat f64_zero)],
                  tm, tr, inf).
Proof.
  intros st out. split; [vm_compute; reflexivity|]. split; [vm_compute; reflexivity|].
  split; [vm_compute; reflexivity|]. split; [vm_compute; reflexivity|].
  vm_compute. eauto.
Qed.

Example parallel_step_in_turn_order :
  let st := (TurnServer.open_parallel, TurnServer.world_of (TurnServer.two_of_three 0 [])) in
  let out := ParallelEnv.step TurnServer.runtime TurnServer.peer TurnServer.both_act st in
  steps_of (trace (snd (snd out))) = [0; 1] /\
  TurnServer.g_log (server (snd (snd out))) = [("player_0", 0); ("player_1", 1)].
Proof. split; vm_compute; reflexivity. Qed.

(** * Further properties *)

(** ** The client on the wire *)

Lemma respects_eq_run {St A} (m : M St A) (st : St) : respects eq m -> snd (m st) = st.
Proof. intros H. destruct (m st) as [r st'] eqn:E. symmetry. exact (H _ _ _ E). Qed.

Lemma bind_assoc_run {St A B C} (m : M St A) (f : A -> M St B) (g : B -> M St C) (st : St) :
  ((m ≫= f) ≫= g) st = (m ≫= (fun a => f a ≫= g)) st.
Proof. rewrite !bind_run. by destruct (m st) as [[a|e] st']. Qed.

Lemma bind_ret_run {St A} (m : M St A) (st : St) : (m ≫= mret) st = m st.
Proof. rewrite bind_run. by destruct (m st) as [[a|e] st']. Qed.

Ltac pure_tac :=
  repeat first
    [ apply respects_ret; apply _
    | apply respects_raise; apply _
    | apply respects_lift_result; apply _
    | apply respects_gets; apply _
    | apply respects_bind; [apply _ | | intros ?]
    | match goal with |- respects _ (if ?b then _ else _) => destruct b end ].

Section ClientWire.
Context (rt : PyRuntime) (P : Peer).
Implicit Types (c : HyperTokenClient) (w : World P).

(** X1: a connected client puts exactly one command on the wire per method
    call (for every method but [close]): its own command.  Whatever the reply
    is and whether or not decoding it raises, the client object is unchanged
    and the network is the one after that single exchange. *)
Theorem call_sends_one_command (m : Client.ClientMethod) c w (sock : WebSocket) :
  ws c = Some sock ->
  Client.is_close m = false ->
  snd (Client.call rt P m (c, w)) = (c, exchanged w (Client.command_of m)).
Proof.
  intros Hc Hm.
  assert (Hs : forall A (k : json -> M (Client.ClientSt P) A),
    (forall a, respects eq (k a)) ->
    snd ((Client._send rt P (Client.command_of m) ≫= k) (c, w))
    = (c, exchanged w (Client.command_of m))).
  { intros A k Hk. rewrite bind_run, (_send_connected rt P _ _ _ sock) by done.
    destruct (check_reply rt _); [|done]. by apply respects_eq_run. }
  destruct m; try discriminate; cbn [Client.command_of] in Hs;
    unfold Client.call, discard, Client.reset, Client.step, Client.observe, Client.last,
      Client.agents, Client.possible_agents, Client.agent_selection,
      Client.observation_space, Client.action_space, Client.rewards,
      Client.terminations, Client.truncations, Client.infos, Client.action_mask,
      Client.render, Client.ping, Client.env_info, Client.field, Client.agent_field.
  all: rewrite ?bind_assoc_run; apply Hs; intros; pure_tac.
Qed.

(** X2: [close] on a connected client sends the [close] command, then closes
    the socket, and returns normally with the client disconnected, whatever
    the server replied and whether or not closing the socket failed. *)
Theorem close_sends_then_hangs_up c w (sock : WebSocket) :
  ws c = Some sock ->
  Client.close rt P (c, w) =
    (Ok tt, (set_ws None c, hung_up (exchanged w (Client.cmd0 "close")))).
Proof.
  intros Hc. unfold Client.close. rewrite bind_run. unfold try_pass.
  rewrite (_send_connected rt P _ _ _ sock) by done.
  unfold Client.disconnect. rewrite bind_run. simpl. rewrite Hc.
  rewrite bind_run. unfold try_pass, Client.ws_close, hung_up. simpl.
  by destruct (hangup P _) as [s' r'].
Qed.

(** X3: when the reply to a method that returns one field of it is a dict
    without that field (and without [error]), the method raises [KeyError]
    for that field, after the one exchange. *)
Theorem missing_field_raises_key_error (m : Client.ClientMethod) (key : string) c w
    (sock : WebSocket) (kv : list (string * json)) :
  reply_field m = Some key ->
  ws c = Some sock ->
  reply_to w (Client.command_of m) = Ok (JObj kv) ->
  dict_get "error" kv = None ->
  dict_get key kv = None ->
  Client.call rt P m (c, w) = (Raise (KeyError key), (c, exchanged w (Client.command_of m))).
Proof.
  intros Hm Hc Hr He Hk.
  assert (Hs : Client._send rt P (Client.command_of m) (c, w)
               = (Ok (JObj kv), (c, exchanged w (Client.command_of m)))).
  { rewrite (_send_connected rt P _ _ _ sock), Hr by done.
    unfold check_reply. simpl. unfold dict_has. by rewrite He. }
  destruct m; try discriminate; injection Hm as <-; cbn [Client.command_of] in Hs;
    unfold Client.call, discard, Client.observe, Client.agents, Client.possible_agents,
      Client.agent_selection, Client.observation_space, Client.action_space,
      Client.rewards, Client.terminations, Client.truncations, Client.infos,
      Client.field, Client.agent_field;
    rewrite ?bind_assoc_run, bind_run, Hs; unfold lift_result; simpl; by rewrite Hk.
Qed.

(** X4: [connect] puts no command on the wire; if the client already held a
    socket, that socket is closed before the new connection is attempted;
    and the client ends with a socket exactly when [connect] returns: a
    refused connection leaves it disconnected, also when it was connected
    before. *)
Theorem connect_outcome c w (r : result unit) c' w' :
  Client.connect P (c, w) = (r, (c', w')) ->
  exists evs, trace w' = trace w ++ evs /\ sent evs = [] /\
    (forall sock, ws c = Some sock -> exists rest, evs = EvClose :: rest) /\
    ((r = Ok tt /\ ws c' = Some (websocket_to (url c))) \/
     (exists x, r = Raise x /\ ws c' = None)).
Proof.
  unfold Client.connect. rewrite bind_run. simpl.
  destruct (ws c) as [old|] eqn:Hc.
  - rewrite bind_run. unfold Client.disconnect. rewrite bind_run. simpl. rewrite Hc.
    rewrite bind_run. unfold try_pass, Client.ws_close.
    destruct (hangup P (server w)) as [s1 r1]. simpl.
    repeat (rewrite bind_run; simpl). unfold Client.create_connection. simpl.
    destruct (accept P s1) as [s2 [[]|x]]; simpl; intros [= <- <- <-]; simpl.
    + exists [EvClose; EvConnect]. rewrite <- app_assoc. repeat split; eauto.
    + exists [EvClose]. repeat split; eauto.
  - repeat (rewrite bind_run; simpl). unfold Client.create_connection. simpl.
    destruct (accept P (server w)) as [s2 [[]|x]]; simpl; intros [= <- <- <-]; simpl.
    + exists [EvConnect]. repeat split; eauto. intros ? [=].
    + exists []. rewrite app_nil_r. repeat split; eauto. intros ? [=].
Qed.

(** X5: [disconnect] never raises, not even when closing the socket fails;
    it sends no command, leaves the client without a socket, and a second
    [disconnect] does nothing at all. *)
Theorem disconnect_returns c w :
  exists c' w' evs,
    Client.disconnect P (c, w) = (Ok tt, (c', w')) /\ ws c' = None /\
    trace w' = trace w ++ evs /\ sent evs = [] /\
    Client.disconnect P (c', w') = (Ok tt, (c', w')).
Proof.
  unfold Client.disconnect at 1. rewrite bind_run. simpl.
  destruct (ws c) as [old|] eqn:Hc.
  - rewrite bind_run. unfold try_pass, Client.ws_close.
    destruct (hangup P (server w)) as [s1 r1]. simpl.
    eexists _, _, [EvClose]. repeat split; reflexivity.
  - exists c, w, []. rewrite app_nil_r. repeat split; try done.
    unfold Client.disconnect. rewrite bind_run. simpl. by rewrite Hc.
Qed.

Lemma np_array_leaves {A} (leaf : json -> result A) (xs : list json) (vs : list A) :
  Forall2 (fun x v => (forall l, x <> JArr l) /\ leaf x = Ok v) xs vs ->
  np_array leaf (JArr xs) = Ok {| nd_shape := [Z.of_nat (length vs)]; nd_data := vs |}.
Proof.
  intros H. cbn [np_array].
  assert (Hc : collect (map (np_array leaf) xs)
               = Ok (map (fun v => {| nd_shape := []; nd_data := [v] |}) vs)).
  { induction H as [|x v xs vs [Hx Hv] _ IH]; [done|].
    cbn [map collect]. rewrite IH.
    destruct x; try (simpl; rewrite Hv; reflexivity). by destruct (Hx l). }
  change (collect (map (np_array leaf) xs) ≫= np_stack = 
          Ok {| nd_shape := [Z.of_nat (length vs)]; nd_data := vs |}).
  rewrite Hc. clear. destruct vs as [|v vs]; [done|].
  change (np_stack (map (fun v => {| nd_shape := []; nd_data := [v] |}) (v :: vs))
          = Ok {| nd_shape := [Z.of_nat (length (v :: vs))]; nd_data := v :: vs |}).
  unfold np_stack. cbn [map].
  assert (Hall : forallb (fun b : ndarray A => shape_eqb (nd_shape b) [])
                   (map (fun v => {| nd_shape := []; nd_data := [v] |}) vs) = true).
  { apply forallb_forall. intros b Hb. apply in_map_iff in Hb as (f' & <- & _). done. }
  cbn [nd_shape]. rewrite Hall. f_equal. f_equal.
  - by rewrite length_cons, !length_map.
  - cbn [map concat nd_data app]. f_equal.
    induction vs as [|v' vs IH]; [done|]. simpl. by rewrite IH.
Qed.

(** X6: when the server reports a non-empty list of booleans as the mask,
    [action_mask] returns a one-dimensional boolean array with those entries,
    in order. *)
Theorem action_mask_of_booleans (agent : json) c w (sock : WebSocket)
    (kv : list (string * json)) (bs : list bool) :
  ws c = Some sock ->
  reply_to w (Client.cmd_agent "action_mask" agent) = Ok (JObj kv) ->
  dict_get "error" kv = None ->
  dict_get "mask" kv = Some (JArr (map JBool bs)) ->
  negb (Nat.eqb (length bs) 0) = true ->
  fst (Client.action_mask rt P agent (c, w)) =
    Ok (Some {| nd_shape := [Z.of_nat (length bs)]; nd_data := bs |}).
Proof.
  intros Hc Hr He Hm Hn.
  rewrite (action_mask_connected rt P agent c w sock kv) by done. rewrite Hm.
  assert (Ht : py_bool (JArr (map JBool bs)) = true) by (by destruct bs).
  rewrite Ht. rewrite (np_array_leaves (np_bool rt) (map JBool bs) bs); [done|].
  clear. induction bs; constructor; [|done]. split; [discriminate|done].
Qed.

(** X7: when the server reports a flat list of numbers as the observation,
    [observe] returns a one-dimensional array of as many elements, each the
    number rounded to float32. *)
Theorem observe_casts_to_float32 (agent : json) c w (sock : WebSocket)
    (kv : list (string * json)) (xs : list json) (fs : list float64) :
  ws c = Some sock ->
  reply_to w (Client.cmd_agent "observe" agent) = Ok (JObj kv) ->
  dict_get "error" kv = None ->
  dict_get "observation" kv = Some (JArr xs) ->
  Forall2 json_number xs fs ->
  fst (Client.observe rt P agent (c, w)) =
    Ok {| nd_shape := [Z.of_nat (length fs)]; nd_data := map to_float32 fs |}.
Proof.
  intros Hc Hr He Ho Hx. unfold Client.observe, Client.agent_field.
  rewrite bind_assoc_run, bind_run, (_send_connected rt P _ _ _ sock), Hr by done.
  unfold check_reply. simpl. unfold dict_has. rewrite He. simpl.
  rewrite bind_run. unfold lift_result. simpl. rewrite Ho.
  change (fst (np_array (np_float32 rt) (JArr xs), (c, exchanged w (Client.cmd_agent "observe" agent)))
          = Ok {| nd_shape := [Z.of_nat (length fs)]; nd_data := map to_float32 fs |}).
  simpl fst. by apply np_array_flat.
Qed.
End ClientWire.

Lemma call_sends_one_command_witness :
  let w := TurnServer.world_of (TurnServer.two_of_three 0 []) in
  let m := Client.CObserve (JStr "player_0") in
  ws TurnServer.open_client = Some (websocket_to "ws://localhost:9999") /\
  Client.is_close m = false /\
  snd (Client.call TurnServer.runtime TurnServer.peer m (TurnServer.open_client, w)) =
    (TurnServer.open_client, exchanged w (Client.command_of m)).
Proof.
  intros w m. split; [reflexivity|]. split; [reflexivity|].
  apply (call_sends_one_command TurnServer.runtime TurnServer.peer m TurnServer.open_client w
           (websocket_to "ws://localhost:9999")); reflexivity.
Defined.

Lemma close_sends_then_hangs_up_witness :
  let w := TurnServer.world_of (TurnServer.two_of_three 0 []) in
  ws TurnServer.open_client = Some (websocket_to "ws://localhost:9999") /\
  Client.close TurnServer.runtime TurnServer.peer (TurnServer.open_client, w) =
    (Ok tt, (set_ws None TurnServer.open_client, hung_up (exchanged w (Client.cmd0 "close")))).
Proof.
  intros w. split; [reflexivity|].
  apply (close_sends_then_hangs_up TurnServer.runtime TurnServer.peer TurnServer.open_client w
           (websocket_to "ws://localhost:9999")). reflexivity.
Defined.

Lemma missing_field_raises_key_error_witness :
  let w := Build_World ack_peer tt [] in
  let m := Client.CAgents in
  reply_field m = Some "agents" /\
  reply_to w (Client.command_of m) = Ok (JObj []) /\
  Client.call TurnServer.runtime ack_peer m (TurnServer.open_client, w) =
    (Raise (KeyError "agents"), (TurnServer.open_client, exchanged w (Client.command_of m))).
Proof.
  intros w m. split; [reflexivity|]. split; [reflexivity|].
  apply (missing_field_raises_key_error TurnServer.runtime ack_peer m "agents"
           TurnServer.open_client w (websocket_to "ws://localhost:9999") []); reflexivity.
Defined.

Lemma connect_outcome_witness :
  let w := TurnServer.world_of (TurnServer.two_of_three 0 []) in
  let out := Client.connect TurnServer.peer (TurnServer.open_client, w) in
  exists evs, trace (snd (snd out)) = trace w ++ evs /\ sent evs = [] /\
    (forall sock, ws TurnServer.open_client = Some sock -> exists rest, evs = EvClose :: rest) /\
    ((fst out = Ok tt /\ ws (fst (snd out)) = Some (websocket_to (url TurnServer.open_client))) \/
     (exists x, fst out = Raise x /\ ws (fst (snd out)) = None)).
Proof.
  intros w out.
  apply (connect_outcome TurnServer.peer TurnServer.open_client w (fst out)
           (fst (snd out)) (snd (snd out))). reflexivity.
Defined.

Lemma action_mask_of_booleans_witness :
  let w := TurnServer.world_of (TurnServer.two_of_three 0 []) in
  let kv := [("mask", JArr (map JBool [true; true]))] in
  reply_to w (Client.cmd_agent "action_mask" (JStr "player_0")) = Ok (JObj kv) /\
  fst (Client.action_mask TurnServer.runtime TurnServer.peer (JStr "player_0")
         (TurnServer.open_client, w)) =
    Ok (Some {| nd_shape := [Z.of_nat (length [true; true])]; nd_data := [true; true] |}).
Proof.
  intros w kv. split; [reflexivity|].
  apply (action_mask_of_booleans TurnServer.runtime TurnServer.peer (JStr "player_0")
           TurnServer.open_client w (websocket_to "ws://localhost:9999") kv [true; true]);
    reflexivity.
Defined.

Lemma observe_casts_to_float32_witness :
  let w := TurnServer.world_of (TurnServer.two_of_three 0 []) in
  let kv := [("observation", JArr [JFloat TurnServer.half; JInt 1])] in
  let fs := [TurnServer.half; f64_one] in
  reply_to w (Client.cmd_agent "observe" (JStr "player_0")) = Ok (JObj kv) /\
  fst (Client.observe TurnServer.runtime TurnServer.peer (JStr "player_0")
         (TurnServer.open_client, w)) =
    Ok {| nd_shape := [Z.of_nat (length fs)]; nd_data := map to_float32 fs |}.
Proof.
  intros w kv fs. split; [reflexivity|].
  apply (observe_casts_to_float32 TurnServer.runtime TurnServer.peer (JStr "player_0")
           TurnServer.open_client w (websocket_to "ws://localhost:9999") kv
           [JFloat TurnServer.half; JInt 1] fs);
    [reflexivity | reflexivity | reflexivity | reflexivity | repeat constructor].
Defined.

(** ** The AEC adapter *)

Section Sends.
Context {P : Peer}.
Implicit Types (w : World P).

Lemma sends_nil w : sends [] w w.
Proof. exists []. by rewrite app_nil_r. Qed.

Lemma sends_app (l1 l2 : list json) w1 w2 w3 :
  sends l1 w1 w2 -> sends l2 w2 w3 -> sends (l1 ++ l2) w1 w3.
Proof.
  intros (e1 & H1 & S1) (e2 & H2 & S2). exists (e1 ++ e2).
  by rewrite H2, H1, app_assoc, sent_app, S1, S2.
Qed.

Lemma sends_exchanged w (cmd : json) : sends [cmd] w (exchanged w cmd).
Proof. by exists [EvSend cmd (reply_to w cmd)]. Qed.

Lemma grows_sends_nil w w' : grows (fun _ => false) w w' -> sends [] w w'.
Proof.
  intros (evs & Ht & F). exists evs. split; [done|].
  destruct (sent evs) as [|x l]; [done|]. by inversion F.
Qed.

End Sends.

Section AECWire.
Context (rt : PyRuntime) (P : Peer).
Implicit Types (e : HyperTokenAECEnv) (c : HyperTokenClient) (w : World P).

Lemma via_client_send_ok (cmd : json) (v : json) e w (st1 : AECEnv.EnvSt P) :
  AECEnv.via_client P (Client._send rt P cmd) (e, w) = (Ok v, st1) ->
  st1 = (e, exchanged w cmd) /\ reply_to w cmd = Ok v /\ exists sock, ws (client e) = Some sock.
Proof.
  rewrite via_client_run, _send_eq. destruct (ws (client e)) as [sock|]; [|discriminate].
  simpl. intros [= Hr <-]. rewrite set_client_same. apply check_reply_ok in Hr. eauto.
Qed.

Lemma via_client_agent_field_ok (name : string) (agent : json) (key : string) (v : json) e w
    (st1 : AECEnv.EnvSt P) :
  AECEnv.via_client P (Client.agent_field rt P name agent key) (e, w) = (Ok v, st1) ->
  st1 = (e, exchanged w (Client.cmd_agent name agent)) /\
  exists resp, reply_to w (Client.cmd_agent name agent) = Ok resp /\ py_getitem resp key = Ok v.
Proof.
  rewrite via_client_run. unfold Client.agent_field. rewrite bind_run, _send_eq.
  destruct (ws (client e)) as [sock|]; [|discriminate].
  destruct (check_reply rt _) as [resp|x] eqn:Hr; [|discriminate].
  unfold lift_result. simpl. intros [= Hv <-]. rewrite set_client_same.
  apply check_reply_ok in Hr. eauto.
Qed.

Lemma via_client_field_ok (name key : string) (v : json) e w (st1 : AECEnv.EnvSt P) :
  AECEnv.via_client P (Client.field rt P name key) (e, w) = (Ok v, st1) ->
  st1 = (e, exchanged w (Client.cmd0 name)) /\
  exists resp, reply_to w (Client.cmd0 name) = Ok resp /\ py_getitem resp key = Ok v.
Proof.
  rewrite via_client_run. unfold Client.field. rewrite bind_run, _send_eq.
  destruct (ws (client e)) as [sock|]; [|discriminate].
  destruct (check_reply rt _) as [resp|x] eqn:Hr; [|discriminate].
  unfold lift_result. simpl. intros [= Hv <-]. rewrite set_client_same.
  apply check_reply_ok in Hr. eauto.
Qed.

Lemma cached_set_observation_space (k : string) (sp : Space) e (a : json) :
  cached e a -> cached (set_observation_space k sp e) a.
Proof.
  intros (s & -> & H1 & H2). exists s. split; [done|]. split; [|done]. simpl.
  destruct (decide (k = s)) as [->|Hne]; [by rewrite lookup_insert_eq|by rewrite lookup_insert_ne].
Qed.

Lemma cached_set_action_space (k : string) (sp : Space) e (a : json) :
  cached e a -> cached (set_action_space k sp e) a.
Proof.
  intros (s & -> & H1 & H2). exists s. split; [done|]. split; [done|]. simpl.
  destruct (decide (k = s)) as [->|Hne]; [by rewrite lookup_insert_eq|by rewrite lookup_insert_ne].
Qed.

Lemma cache_spaces_ok (agent : json) e w e' w' :
  AECEnv.cache_spaces rt P agent (e, w) = (Ok tt, (e', w')) ->
  render_mode e' = render_mode e /\
  _possible_agents e' = _possible_agents e /\ _connected e' = _connected e /\
  sends (space_fetches [agent]) w w' /\ cached e' agent /\
  (forall b, cached e b -> cached e' b).
Proof.
  unfold AECEnv.cache_spaces. intros E.
  apply bind_ok_inv in E as (od & st1 & E1 & E).
  apply via_client_agent_field_ok in E1 as (-> & _).
  apply bind_ok_inv in E as (ad & st2 & E2 & E).
  apply via_client_agent_field_ok in E2 as (-> & _).
  apply bind_ok_inv in E as (osp & st3 & E3 & E). injection E3 as E3 <-.
  apply bind_ok_inv in E as (k & st4 & E4 & E). injection E4 as E4 <-.
  apply bind_ok_inv in E as ([] & st5 & E5 & E). injection E5 as <-.
  apply bind_ok_inv in E as (asp & st6 & E6 & E). injection E6 as E6 <-.
  apply bind_ok_inv in E as (k' & st7 & E7 & E). injection E7 as E7 <-.
  injection E as <- <-.
  destruct agent; try discriminate. injection E4 as <-. injection E7 as <-.
  split; [done|]. split; [done|]. split; [done|]. split; [|split].
  - apply (sends_app [_] [_] _ (exchanged w (Client.cmd_agent "observation_space" (JStr s))));
      apply sends_exchanged.
  - exists s. split; [done|]. simpl. by rewrite !lookup_insert_eq.
  - intros b Hb. by apply cached_set_action_space, cached_set_observation_space.
Qed.

Lemma cache_each_ok (l : list json) e w e' w' :
  for_each l (AECEnv.cache_spaces rt P) (e, w) = (Ok tt, (e', w')) ->
  render_mode e' = render_mode e /\
  _possible_agents e' = _possible_agents e /\ _connected e' = _connected e /\
  sends (space_fetches l) w w' /\ Forall (cached e') l /\
  (forall b, cached e b -> cached e' b).
Proof.
  revert e w. induction l as [|a l IH]; intros e w.
  - simpl. intros [= <- <-]. repeat split; try done. apply sends_nil.
  - cbn [for_each]. intros E. apply bind_ok_inv in E as ([] & [e1 w1] & E1 & E).
    apply cache_spaces_ok in E1 as (Hm1 & Hp1 & Hc1 & Hs1 & Ha1 & Hk1).
    apply IH in E as (Hm & Hp & Hc & Hs & Ha & Hk).
    split; [congruence|]. split; [congruence|]. split; [congruence|]. split; [|split].
    + exact (sends_app _ _ _ _ _ Hs1 Hs).
    + constructor; [by apply Hk | done].
    + intros b Hb. by apply Hk, Hk1.
Qed.

Lemma connect_and_init_ok e w e' w' :
  _connected e = false ->
  AECEnv._connect_and_init rt P (e, w) = (Ok tt, (e', w')) ->
  _connected e' = true /\ render_mode e' = render_mode e /\
  exists l, py_list (_possible_agents e') = Ok l /\
            sends (Client.cmd0 "possible_agents" :: space_fetches l) w w' /\
            Forall (cached e') l.
Proof.
  intros Hc. unfold AECEnv._connect_and_init. rewrite bind_run, self_run, Hc.
  intros E. apply bind_ok_inv in E as ([] & [e1 w1] & E1 & E).
  assert (Hs1 : sends [] w w1).
  { apply grows_sends_nil.
    exact (via_client_on_world P _ _ (connect_grows P (fun _ => false)) _ _ _ E1). }
  assert (Hm1 : render_mode e1 = render_mode e).
  { revert E1. rewrite via_client_run. by intros [= _ <- _]. }
  apply bind_ok_inv in E as ([] & st2 & E2 & E). injection E2 as <-.
  apply bind_ok_inv in E as (ags & st3 & E3 & E).
  apply via_client_field_ok in E3 as (-> & _).
  apply bind_ok_inv in E as ([] & st4 & E4 & E). injection E4 as <-.
  rewrite bind_run, self_run in E.
  apply bind_ok_inv in E as (l & st5 & E5 & E). injection E5 as E5 <-.
  apply cache_each_ok in E as (Hm & Hp & Hcn & Hs & Ha & _).
  split; [by rewrite Hcn|]. split; [by rewrite Hm|].
  exists l. split; [by rewrite Hp|]. split; [|done].
  apply (sends_app [] (_ :: _) _ _ _ Hs1).
  exact (sends_app [_] _ _ _ _ (sends_exchanged _ _) Hs).
Qed.

Lemma cached_spaces_returned e w (agent : json) :
  cached e agent -> has_spaces (e, w) agent.
Proof.
  intros (s & -> & [osp Ho] & [asp Ha]). exists s, osp, asp. split; [done|].
  unfold AECEnv.observation_space, AECEnv.action_space.
  by rewrite !bind_run, !self_run, Ho, Ha.
Qed.

(** X8: when initialising a disconnected adapter succeeds, the adapter is
    connected, the commands that went out are [possible_agents] followed by
    [observation_space] and [action_space] for each listed agent, in the
    order of the list, and from then on [observation_space] and
    [action_space] return a space for every possible agent. *)
Theorem connect_and_init_fetches e w e' w' :
  _connected e = false ->
  AECEnv._connect_and_init rt P (e, w) = (Ok tt, (e', w')) ->
  _connected e' = true /\
  exists l, AECEnv.possible_agents P (e', w') = (Ok l, (e', w')) /\
            sends (Client.cmd0 "possible_agents" :: space_fetches l) w w' /\
            Forall (has_spaces (e', w')) l.
Proof.
  intros Hc E. destruct (connect_and_init_ok e w e' w' Hc E) as (H1 & _ & l & Hl & Hs & Ha).
  split; [done|]. exists l. split; [|split; [done|]].
  - unfold AECEnv.possible_agents. rewrite bind_run, self_run. unfold lift_result. by rewrite Hl.
  - eapply Forall_impl; [exact Ha|]. intros a. apply cached_spaces_returned.
Qed.

(** X25: [reset] on an adapter whose flag is down (never connected, or
    closed) connects again: when it returns, the adapter is connected and
    the commands that went out are the fetches of the possible agents and
    of their spaces, then [reset] (with the seed, if one was given), then
    [render] in ["human"] mode. *)
Theorem reset_connects_again (seed : option Z) e w e' w' :
  _connected e = false ->
  AECEnv.reset rt P seed (e, w) = (Ok tt, (e', w')) ->
  _connected e' = true /\
  exists l, AECEnv.possible_agents P (e', w') = (Ok l, (e', w')) /\
    sends (Client.cmd0 "possible_agents" :: space_fetches l ++
           Client.reset_cmd seed ::
           (if is_human (render_mode e) then [Client.cmd0 "render"] else [])) w w'.
Proof.
  intros Hc. unfold AECEnv.reset. rewrite bind_run, self_run, Hc. cbn [negb].
  intros E. apply bind_ok_inv in E as ([] & [e1 w1] & E1 & E).
  apply connect_and_init_ok in E1 as (Hc1 & Hm1 & l & Hl & Hs1 & _); [|done].
  apply bind_ok_inv in E as ([] & [e2 w2] & E2 & E).
  assert (H2 : e2 = e1 /\ w2 = exchanged w1 (Client.reset_cmd seed)).
  { revert E2. rewrite via_client_run. unfold Client.reset. rewrite bind_run, _send_eq.
    destruct (ws (client e1)); [|discriminate].
    destruct (check_reply rt _); [|discriminate]. simpl.
    intros [= <- <-]. by rewrite set_client_same. }
  destruct H2 as [-> ->]. clear E2. rewrite bind_run, self_run, Hm1 in E.
  assert (H3 : e' = e1 /\
    sends (if is_human (render_mode e) then [Client.cmd0 "render"] else [])
          (exchanged w1 (Client.reset_cmd seed)) w').
  { destruct (is_human (render_mode e)).
    - revert E. unfold AECEnv.render. rewrite via_client_run. unfold Client.render.
      rewrite bind_run, _send_eq. destruct (ws (client e1)); [|discriminate].
      destruct (check_reply rt _); [|discriminate]. simpl.
      intros [= <- <-]. rewrite set_client_same. split; [done|]. apply sends_exchanged.
    - injection E as <- <-. split; [done|]. apply sends_nil. }
  destruct H3 as [-> H3]. split; [done|]. exists l. split.
  - unfold AECEnv.possible_agents. rewrite bind_run, self_run. unfold lift_result. by rewrite Hl.
  - apply (sends_app (_ :: _) (_ :: _) _ _ _ Hs1).
    exact (sends_app [_] _ _ _ _ (sends_exchanged _ _) H3).
Qed.

(** X9: an adapter whose flag is down reports no active agents and an empty
    selected agent, and its [agent_iter] ends before the first iteration;
    none of these touches the adapter or the network. *)
Theorem disconnected_adapter_is_idle e w :
  _connected e = false ->
  AECEnv.agents rt P (e, w) = (Ok (JArr []), (e, w)) /\
  AECEnv.num_agents rt P (e, w) = (Ok 0, (e, w)) /\
  AECEnv.agent_selection rt P (e, w) = (Ok (JStr ""), (e, w)) /\
  forall (fuel : nat) (count max_iter : Z) (body : json -> M (AECEnv.EnvSt P) unit),
    AECEnv.for_agent_iter rt P (S fuel) count max_iter body (e, w) = ([], AECEnv.StopIteration, (e, w)).
Proof.
  intros Hc.
  assert (Ha : AECEnv.agents rt P (e, w) = (Ok (JArr []), (e, w))).
  { unfold AECEnv.agents. by rewrite bind_run, self_run, Hc. }
  split; [done|]. split; [|split].
  - unfold AECEnv.num_agents. by rewrite bind_run, Ha.
  - unfold AECEnv.agent_selection. by rewrite bind_run, self_run, Hc.
  - intros fuel count max_iter body. cbn [AECEnv.for_agent_iter].
    unfold AECEnv.agent_iter_next. by rewrite bind_run, Ha.
Qed.

Lemma via_client_unit_send (cmd : json) e w (sock : WebSocket) :
  ws (client e) = Some sock ->
  AECEnv.via_client P (Client._send rt P cmd ;; mret tt) (e, w) =
    (match check_reply rt (reply_to w cmd) with Ok _ => Ok tt | Raise x => Raise x end,
     (e, exchanged w cmd)).
Proof.
  intros Hc. rewrite via_client_run, bind_run, (_send_connected rt P _ _ _ sock) by done.
  destruct (check_reply rt _); rewrite ?ret_run; cbn [fst snd]; by rewrite set_client_same.
Qed.

(** X10: [step] with an action, on an adapter whose client holds a socket,
    sends exactly that [step] command; in ["human"] mode a [render] command
    follows it when the step was accepted, and none when it was refused.
    The adapter itself is unchanged. *)
Theorem step_sends_step_then_render (a : Z) e w (sock : WebSocket) :
  ws (client e) = Some sock ->
  snd (AECEnv.step rt P (Some a) (e, w)) =
    (e, let w1 := exchanged w (Client.step_cmd a) in
        match check_reply rt (reply_to w (Client.step_cmd a)) with
        | Ok _ => if is_human (render_mode e) then exchanged w1 (Client.cmd0 "render") else w1
        | Raise _ => w1
        end).
Proof.
  intros Hc. unfold AECEnv.step, AECEnv.render, Client.step, Client.render.
  rewrite bind_run, (via_client_unit_send _ _ _ sock) by done.
  destruct (check_reply rt _) as [resp|x]; [|done].
  rewrite bind_run, self_run.
  destruct (is_human (render_mode e)); [|done].
  by rewrite (via_client_unit_send _ _ _ sock).
Qed.
(** X11: a [last] that returns on a connected adapter has sent [last], then
    [agent_selection], then (when an observation is asked for) [observe]
    for the agent the server named as selected, and nothing else; without
    an observation asked for, the observation returned is [None]. *)
Theorem last_queries_in_order (with_obs : bool) e w (res : LastResult) e' w' :
  _connected e = true ->
  AECEnv.last rt P with_obs (e, w) = (Ok res, (e', w')) ->
  e' = e /\
  exists kv agent,
    reply_to (exchanged w (Client.cmd0 "last")) (Client.cmd0 "agent_selection") = Ok (JObj kv) /\
    dict_get "agent" kv = Some agent /\
    sends (Client.cmd0 "last" :: Client.cmd0 "agent_selection" ::
           if with_obs then [Client.cmd_agent "observe" agent] else []) w w' /\
    (with_obs = false -> last_obs res = None).
Proof.
  intros Hc. unfold AECEnv.last. intros E.
  apply bind_ok_inv in E as (result & st1 & E1 & E).
  apply via_client_send_ok in E1 as (-> & _ & _).
  apply bind_ok_inv in E as (agent & st2 & E2 & E).
  unfold AECEnv.agent_selection in E2. rewrite bind_run, self_run, Hc in E2. simpl in E2.
  apply via_client_field_ok in E2 as (-> & resp & Hr & Hg).
  destruct resp; try discriminate. simpl in Hg.
  destruct (dict_get "agent" kv) as [ag|] eqn:Hag; [|discriminate]. injection Hg as ->.
  apply bind_ok_inv in E as (obs & [e3 w3] & E3 & E).
  assert (Hpure : (e', w') = (e3, w3) /\ last_obs res = obs).
  { repeat (apply bind_ok_inv in E as (? & ? & [= ? <-] & E)). by injection E as <- <- <-. }
  destruct Hpure as [[= -> ->] Hobs]. clear E.
  destruct with_obs.
  - apply bind_ok_inv in E3 as (o & st3 & E3 & [= <- ->]).
    unfold AECEnv.observe, Client.observe in E3.
    rewrite via_client_run, bind_run in E3.
    destruct (Client.agent_field rt P "observe" agent "observation" _) as [[v|x] [c4 w4]] eqn:E4;
      [|discriminate].
    assert (E5 : AECEnv.via_client P (Client.agent_field rt P "observe" agent "observation")
                   (e, exchanged (exchanged w (Client.cmd0 "last")) (Client.cmd0 "agent_selection"))
                 = (Ok v, (set_client c4 e, w4))) by (by rewrite via_client_run, E4).
    apply via_client_agent_field_ok in E5 as ([= He ->] & _).
    unfold lift_result in E3. simpl in E3. injection E3 as _ <- <-.
    split; [done|]. exists kv, agent. split; [done|]. split; [done|]. split; [|done].
    apply (sends_app [_] [_; _] _ _ _ (sends_exchanged _ _)).
    apply (sends_app [_] [_] _ _ _ (sends_exchanged _ _)). apply sends_exchanged.
  - injection E3 as <- <- <-.
    split; [done|]. exists kv, agent. split; [done|]. split; [done|]. split; [|done].
    apply (sends_app [_] [_] _ _ _ (sends_exchanged _ _)). apply sends_exchanged.
Qed.
End AECWire.

Lemma connect_and_init_fetches_witness :
  let w := TurnServer.world_of (TurnServer.two_of_three 0 []) in
  let out := AECEnv._connect_and_init TurnServer.runtime TurnServer.peer (fresh_env, w) in
  _connected fresh_env = false /\
  fst out = Ok tt /\
  _connected (fst (snd out)) = true /\
  exists l, AECEnv.possible_agents TurnServer.peer (snd out) = (Ok l, snd out) /\
            sends (Client.cmd0 "possible_agents" :: space_fetches l) w (snd (snd out)) /\
            Forall (has_spaces (snd out)) l.
Proof.
  intros w out. split; [reflexivity|]. split; [vm_compute; reflexivity|].
  destruct (connect_and_init_fetches TurnServer.runtime TurnServer.peer fresh_env w
              (fst (snd out)) (snd (snd out))) as (H1 & l & H2 & H3 & H4).
  - reflexivity.
  - vm_compute. reflexivity.
  - split; [exact H1|]. exists l. destruct (snd out). by repeat split.
Defined.

Lemma disconnected_adapter_is_idle_witness :
  let w := TurnServer.world_of (TurnServer.two_of_three 0 []) in
  _connected fresh_env = false /\
  AECEnv.agents TurnServer.runtime TurnServer.peer (fresh_env, w) = (Ok (JArr []), (fresh_env, w)) /\
  AECEnv.num_agents TurnServer.runtime TurnServer.peer (fresh_env, w) = (Ok 0, (fresh_env, w)).
Proof.
  intros w. split; [reflexivity|].
  destruct (disconnected_adapter_is_idle TurnServer.runtime TurnServer.peer fresh_env w)
    as (H1 & H2 & _).
  - reflexivity.
  - by split.
Defined.

Lemma step_sends_step_then_render_witness :
  let w := TurnServer.world_of (TurnServer.two_of_three 0 []) in
  ws (client TurnServer.open_env) = Some (websocket_to "ws://localhost:9999") /\
  snd (AECEnv.step TurnServer.runtime TurnServer.peer (Some 1) (TurnServer.open_env, w)) =
    (TurnServer.open_env, exchanged w (Client.step_cmd 1)).
Proof.
  intros w. split; [reflexivity|].
  rewrite (step_sends_step_then_render TurnServer.runtime TurnServer.peer 1 TurnServer.open_env w
             (websocket_to "ws://localhost:9999")); reflexivity.
Defined.

Lemma last_queries_in_order_witness :
  let w := TurnServer.world_of (TurnServer.two_of_three 0 []) in
  let out := AECEnv.last TurnServer.runtime TurnServer.peer true (TurnServer.open_env, w) in
  _connected TurnServer.open_env = true /\
  exists res, fst out = Ok res /\
    sends [Client.cmd0 "last"; Client.cmd0 "agent_selection";
           Client.cmd_agent "observe" (JStr "player_0")] w (snd (snd out)).
Proof.
  intros w out. split; [reflexivity|].
  destruct (fst out) as [res|x] eqn:E; [|vm_compute in E; discriminate].
  exists res. split; [reflexivity|].
  destruct (last_queries_in_order TurnServer.runtime TurnServer.peer true TurnServer.open_env w
              res (fst (snd out)) (snd (snd out))) as (_ & kv & agent & Hr & Ha & Hs & _).
  - reflexivity.
  - rewrite <- E. unfold out. by destruct (AECEnv.last _ _ _ _) as [? [? ?]].
  - vm_compute in Hr. injection Hr as <-. vm_compute in Ha. injection Ha as <-. exact Hs.
Defined.

Lemma reset_connects_again_witness :
  let w := TurnServer.world_of (TurnServer.two_of_three 0 []) in
  let out := AECEnv.reset TurnServer.runtime TurnServer.peer (Some 7) (fresh_env, w) in
  _connected fresh_env = false /\
  fst out = Ok tt /\
  _connected (fst (snd out)) = true /\
  exists l, AECEnv.possible_agents TurnServer.peer (snd out) = (Ok l, snd out) /\
    sends (Client.cmd0 "possible_agents" :: space_fetches l ++ [Client.reset_cmd (Some 7)])
          w (snd (snd out)).
Proof.
  intros w out. split; [reflexivity|]. split; [vm_compute; reflexivity|].
  destruct (reset_connects_again TurnServer.runtime TurnServer.peer (Some 7) fresh_env w
              (fst (snd out)) (snd (snd out))) as (H1 & l & H2 & H3).
  - reflexivity.
  - vm_compute. reflexivity.
  - split; [exact H1|]. exists l. destruct (snd out). by split.
Defined.

(** ** The adapter's flag and the client's socket *)

Section Lifetime.
Context (rt : PyRuntime) (P : Peer).

Lemma perform_each_consistent (ops : list AECEnv.Operation) (st : AECEnv.EnvSt P) :
  consistent (fst st) = true ->
  consistent (fst (AECEnv.perform_each rt P ops st)) = true.
Proof.
  revert st. induction ops as [|op ops IH]; intros [e w] H; [done|].
  cbn [AECEnv.perform_each]. apply IH.
  destruct (AECEnv.perform rt P op (e, w)) as [r [e1 w1]] eqn:E.
  exact (perform_consistent rt P op e w r e1 w1 H E).
Qed.

(** X12: from construction on, through any sequence of operations of the
    adapter (returning or raising), an adapter whose flag is down holds no
    open socket. *)
Theorem flag_down_means_no_socket (u : string) (mode : option string) (auto_connect : bool)
    (w : World P) (e : HyperTokenAECEnv) (w1 : World P) (ops : list AECEnv.Operation) :
  AECEnv.__init__ rt P u mode auto_connect w = (Ok e, w1) ->
  let e' := fst (AECEnv.perform_each rt P ops (e, w1)) in
  _connected e' = false -> ws (client e') = None.
Proof.
  intros Hi e' Hc.
  assert (H : consistent e' = true).
  { apply perform_each_consistent. exact (init_consistent rt P u mode auto_connect w e w1 Hi). }
  unfold consistent in H. rewrite Hc in H. simpl in H. by destruct (ws (client e')).
Qed.
End Lifetime.

Lemma flag_down_means_no_socket_witness :
  let w := TurnServer.world_of (TurnServer.two_of_three 0 []) in
  let made := AECEnv.__init__ TurnServer.runtime TurnServer.peer "ws://localhost:9999" None true w in
  let ops := [AECEnv.OReset None; AECEnv.OStep (Some 1); AECEnv.OClose] in
  exists e w1, made = (Ok e, w1) /\
    let e' := fst (AECEnv.perform_each TurnServer.runtime TurnServer.peer ops (e, w1)) in
    (_connected e' = false -> ws (client e') = None).
Proof.
  intros w made ops.
  destruct made as [[e|x] w1] eqn:E; [|vm_compute in E; discriminate].
  exists e, w1. split; [reflexivity|].
  exact (flag_down_means_no_socket TurnServer.runtime TurnServer.peer "ws://localhost:9999"
           None true w e w1 ops E).
Defined.

(** ** The Parallel adapter *)

Section ParallelWire.
Context (rt : PyRuntime) (P : Peer).
Implicit Types (p : ParallelEnv.HyperTokenParallelEnv) (w : World P).

Lemma via_aec_ok {A} (m : M (AECEnv.EnvSt P) A) (a : A) p w p' w' :
  ParallelEnv.via_aec P m (p, w) = (Ok a, (p', w')) ->
  exists e', m (ParallelEnv._aec_env p, w) = (Ok a, (e', w')) /\ p' = ParallelEnv.set_aec_env e' p.
Proof.
  rewrite via_aec_run. destruct (m (ParallelEnv._aec_env p, w)) as [r [e1 w1]].
  simpl. intros [= -> <- <-]. eauto.
Qed.

Lemma par_observe_ok (agent : json) (o : ndarray float32) p w p' w' :
  ParallelEnv.via_aec P (AECEnv.observe rt P agent) (p, w) = (Ok o, (p', w')) ->
  p' = p /\ w' = exchanged w (Client.cmd_agent "observe" agent).
Proof.
  intros E. apply via_aec_ok in E as (e' & E & ->). unfold AECEnv.observe, Client.observe in E.
  rewrite via_client_run, bind_run in E.
  destruct (Client.agent_field rt P "observe" agent "observation" _) as [[v|x] [c4 w4]] eqn:E4;
    [|discriminate].
  assert (E5 : AECEnv.via_client P (Client.agent_field rt P "observe" agent "observation")
                 (ParallelEnv._aec_env p, w)
               = (Ok v, (set_client c4 (ParallelEnv._aec_env p), w4)))
    by (by rewrite via_client_run, E4).
  apply (via_client_agent_field_ok rt P) in E5 as ([= He ->] & _).
  unfold lift_result in E. simpl in E. injection E as _ <- <-.
  by rewrite He, set_aec_env_same.
Qed.

Lemma observe_each_ok (l : list json) (acc obs : gmap string (ndarray float32)) p w p' w' :
  ParallelEnv.observe_each rt P l acc (p, w) = (Ok obs, (p', w')) ->
  p' = p /\ sends (observes l) w w' /\
  forall s, is_Some (obs !! s) <-> is_Some (acc !! s) \/ JStr s ∈ l.
Proof.
  revert acc w. induction l as [|a l IH]; intros acc w; cbn [ParallelEnv.observe_each].
  - intros [= <- <- <-]. split; [done|]. split; [apply sends_nil|].
    intros s. split; [by left|]. intros [H|H]; [done|]. by apply elem_of_nil in H.
  - intros E. apply bind_ok_inv in E as (o & [p1 w1] & E1 & E).
    apply par_observe_ok in E1 as [-> ->].
    apply bind_ok_inv in E as (k & st2 & E2 & E). injection E2 as E2 <-.
    destruct a; try discriminate. injection E2 as ->.
    apply IH in E as (-> & Hs & Hk). split; [done|]. split.
    + exact (sends_app [_] _ _ _ _ (sends_exchanged _ _) Hs).
    + intros s. rewrite Hk. destruct (decide (k = s)) as [->|Hne].
      * rewrite lookup_insert_eq. split; [intros _; right; apply elem_of_cons; by left|].
        intros _; left; eauto.
      * rewrite lookup_insert_ne by done. rewrite elem_of_cons.
        split; [intros [H|H]; auto|]. intros [H|[H|H]]; auto. congruence.
Qed.

Lemma observe_all_ok (ags : json) (obs : gmap string (ndarray float32)) p w p' w' :
  ParallelEnv.observe_all rt P ags (p, w) = (Ok obs, (p', w')) ->
  exists l, py_list ags = Ok l /\ p' = p /\ sends (observes l) w w' /\ keyed_by obs l.
Proof.
  unfold ParallelEnv.observe_all. intros E.
  apply bind_ok_inv in E as (l & st1 & E1 & E). injection E1 as E1 <-.
  apply observe_each_ok in E as (-> & Hs & Hk). exists l. repeat split; try done.
  - intros H. apply Hk in H as [H|H]; [|done]. rewrite lookup_empty in H. by destruct H.
  - intros H. apply Hk. by right.
Qed.

Lemma par_agents_ok (ags : json) p w p' w' :
  _connected (ParallelEnv._aec_env p) = true ->
  ParallelEnv.agents rt P (p, w) = (Ok ags, (p', w')) ->
  p' = p /\ w' = exchanged w (Client.cmd0 "agents") /\
  exists resp, reply_to w (Client.cmd0 "agents") = Ok resp /\ py_getitem resp "agents" = Ok ags.
Proof.
  intros Hc E. apply via_aec_ok in E as (e' & E & ->). unfold AECEnv.agents in E.
  rewrite bind_run, self_run, Hc in E. simpl in E.
  apply via_client_field_ok in E as ([= -> ->] & H). by rewrite set_aec_env_same.
Qed.

Lemma par_field_ok (name key : string) (v : json) p w p' w' :
  ParallelEnv.via_aec P (AECEnv.via_client P (Client.field rt P name key)) (p, w)
    = (Ok v, (p', w')) ->
  p' = p /\ w' = exchanged w (Client.cmd0 name) /\
  exists resp, reply_to w (Client.cmd0 name) = Ok resp /\ py_getitem resp key = Ok v.
Proof.
  intros E. apply via_aec_ok in E as (e' & E & ->).
  apply via_client_field_ok in E as ([= -> ->] & H). by rewrite set_aec_env_same.
Qed.

(** X13: when [state] returns on a connected adapter, it has sent [agents]
    and then one [observe] per agent of the list the server gave, in the
    order of that list, and the dict it returns has exactly those agents as
    keys. *)
Theorem state_observes_listed_agents (obs : gmap string (ndarray float32)) p w p' w' :
  _connected (ParallelEnv._aec_env p) = true ->
  ParallelEnv.state rt P (p, w) = (Ok obs, (p', w')) ->
  exists l, listed_agents w l /\
            sends (Client.cmd0 "agents" :: observes l) w w' /\
            keyed_by obs l.
Proof.
  intros Hc E. unfold ParallelEnv.state in E.
  apply bind_ok_inv in E as (ags & [p1 w1] & E1 & E).
  apply par_agents_ok in E1 as (-> & -> & resp & Hr & Hg); [|done].
  apply observe_all_ok in E as (l & Hl & -> & Hs & Hk).
  exists l. split; [by exists resp, ags|]. split; [|done].
  exact (sends_app [_] _ _ _ _ (sends_exchanged _ _) Hs).
Qed.

(** X14: when [reset] returns on a connected adapter that does not render,
    the commands it has sent are [reset] (with the seed, if one was given),
    [agents], one [observe] per agent the server listed after the reset, in
    order, and [infos]; the observations it returns are keyed by exactly
    those agents, and the infos are the [infos] field of the last reply. *)
Theorem parallel_reset_protocol (seed : option Z) (obs : gmap string (ndarray float32))
    (infos : json) p w p' w' :
  _connected (ParallelEnv._aec_env p) = true ->
  is_human (render_mode (ParallelEnv._aec_env p)) = false ->
  ParallelEnv.reset rt P seed (p, w) = (Ok (obs, infos), (p', w')) ->
  exists l,
    listed_agents (exchanged w (Client.reset_cmd seed)) l /\
    sends (Client.reset_cmd seed :: Client.cmd0 "agents" :: observes l ++ [Client.cmd0 "infos"])
          w w' /\
    keyed_by obs l /\
    exists w2 resp, w' = exchanged w2 (Client.cmd0 "infos") /\
                    reply_to w2 (Client.cmd0 "infos") = Ok resp /\
                    py_getitem resp "infos" = Ok infos.
Proof.
  intros Hc Hh E. unfold ParallelEnv.reset in E.
  apply bind_ok_inv in E as ([] & [p1 w1] & E1 & E).
  apply via_aec_ok in E1 as (e1 & E1 & ->).
  rewrite reset_when_connected in E1 by done. unfold reset_connected in E1.
  apply bind_ok_inv in E1 as ([] & [e2 w2] & E2 & E1).
  rewrite bind_run, self_run in E1.
  assert (He2 : e2 = ParallelEnv._aec_env p /\ w2 = exchanged w (Client.reset_cmd seed)).
  { revert E2. rewrite via_client_run. unfold Client.reset. rewrite bind_run, _send_eq.
    destruct (ws (client (ParallelEnv._aec_env p))); [|discriminate].
    destruct (check_reply rt _); [|discriminate]. simpl.
    intros [= <- <-]. by rewrite set_client_same. }
  destruct He2 as [-> ->]. rewrite Hh in E1. injection E1 as <- <-. clear E2.
  rewrite set_aec_env_same in E.
  apply bind_ok_inv in E as (ags & [p1 w1] & E1 & E).
  apply par_agents_ok in E1 as (-> & -> & resp & Hr & Hg); [|done].
  apply bind_ok_inv in E as (obs' & [p2 w2] & E2 & E).
  apply observe_all_ok in E2 as (l & Hl & -> & Hs & Hk).
  apply bind_ok_inv in E as (inf' & [p3 w3] & E3 & E).
  unfold AECEnv.infos in E3. apply par_field_ok in E3 as (-> & -> & resp_i & Hri & Hgi).
  injection E as <- <- <- <-.
  exists l. split; [by exists resp, ags|]. split; [|split; [done|by exists w2, resp_i]].
  apply (sends_app [_] (_ :: _) _ _ _ (sends_exchanged _ _)).
  apply (sends_app [_] _ _ _ _ (sends_exchanged _ _)).
  exact (sends_app _ [_] _ _ _ Hs (sends_exchanged _ _)).
Qed.

(** X15: on an adapter that was closed, [state] returns an empty dict and
    [step] raises the not-connected error, whatever the actions; neither
    puts anything on the wire nor changes the adapter. *)
Theorem closed_parallel_adapter (actions : gmap string Z) p w :
  _connected (ParallelEnv._aec_env p) = false ->
  ws (client (ParallelEnv._aec_env p)) = None ->
  ParallelEnv.state rt P (p, w) = (Ok ∅, (p, w)) /\
  ParallelEnv.step rt P actions (p, w) = (Raise not_connected, (p, w)).
Proof.
  intros Hc Hws.
  assert (Ha : ParallelEnv.agents rt P (p, w) = (Ok (JArr []), (p, w))).
  { unfold ParallelEnv.agents. rewrite via_aec_run. unfold AECEnv.agents.
    rewrite bind_run, self_run, Hc. simpl. by rewrite set_aec_env_same. }
  split.
  - unfold ParallelEnv.state. by rewrite bind_run, Ha.
  - unfold ParallelEnv.step. rewrite bind_run, Ha. simpl.
    rewrite bind_run. simpl. rewrite bind_run, ret_run, bind_run, Ha. simpl.
    rewrite bind_run. unfold ParallelEnv.observe_all. rewrite bind_run. simpl.
    rewrite bind_run, via_aec_run. unfold AECEnv.rewards.
    rewrite via_client_run. unfold Client.rewards, Client.field.
    rewrite bind_run, _send_disconnected by done. simpl.
    by rewrite set_client_same, set_aec_env_same.
Qed.
End ParallelWire.

Lemma state_observes_listed_agents_witness :
  let w := TurnServer.world_of (TurnServer.two_of_three 0 []) in
  let out := ParallelEnv.state TurnServer.runtime TurnServer.peer (TurnServer.open_parallel, w) in
  _connected (ParallelEnv._aec_env TurnServer.open_parallel) = true /\
  exists obs l, fst out = Ok obs /\ listed_agents w l /\
    sends (Client.cmd0 "agents" :: observes l) w (snd (snd out)) /\ keyed_by obs l.
Proof.
  intros w out. split; [reflexivity|].
  destruct (fst out) as [obs|x] eqn:E; [|vm_compute in E; discriminate].
  destruct (state_observes_listed_agents TurnServer.runtime TurnServer.peer obs
              TurnServer.open_parallel w (fst (snd out)) (snd (snd out))) as (l & H1 & H2 & H3).
  - reflexivity.
  - rewrite <- E. unfold out. by destruct (ParallelEnv.state _ _ _) as [? [? ?]].
  - exists obs, l. split; [reflexivity|]. split; [exact H1|]. split; [exact H2 | exact H3].
Defined.

Lemma parallel_reset_protocol_witness :
  let w := TurnServer.world_of (TurnServer.two_of_three 0 []) in
  let out := ParallelEnv.reset TurnServer.runtime TurnServer.peer (Some 7)
               (TurnServer.open_parallel, w) in
  _connected (ParallelEnv._aec_env TurnServer.open_parallel) = true /\
  is_human (render_mode (ParallelEnv._aec_env TurnServer.open_parallel)) = false /\
  exists obs infos l, fst out = Ok (obs, infos) /\
    sends (Client.reset_cmd (Some 7) :: Client.cmd0 "agents" :: observes l ++ [Client.cmd0 "infos"])
          w (snd (snd out)) /\
    keyed_by obs l.
Proof.
  intros w out. split; [reflexivity|]. split; [reflexivity|].
  destruct (fst out) as [[obs infos]|x] eqn:E; [|vm_compute in E; discriminate].
  destruct (parallel_reset_protocol TurnServer.runtime TurnServer.peer (Some 7) obs infos
              TurnServer.open_parallel w (fst (snd out)) (snd (snd out)))
    as (l & _ & H2 & H3 & _).
  - reflexivity.
  - reflexivity.
  - rewrite <- E. unfold out. by destruct (ParallelEnv.reset _ _ _ _) as [? [? ?]].
  - exists obs, infos, l. split; [reflexivity|]. split; [exact H2 | exact H3].
Defined.

Lemma closed_parallel_adapter_witness :
  let p := {| ParallelEnv._aec_env := fresh_env; ParallelEnv.render_mode := None |} in
  let w := TurnServer.world_of (TurnServer.two_of_three 0 []) in
  _connected (ParallelEnv._aec_env p) = false /\
  ws (client (ParallelEnv._aec_env p)) = None /\
  ParallelEnv.state TurnServer.runtime TurnServer.peer (p, w) = (Ok ∅, (p, w)) /\
  ParallelEnv.step TurnServer.runtime TurnServer.peer TurnServer.both_act (p, w)
    = (Raise not_connected, (p, w)).
Proof.
  intros p w. split; [reflexivity|]. split; [reflexivity|].
  apply (closed_parallel_adapter TurnServer.runtime TurnServer.peer TurnServer.both_act p w);
    reflexivity.
Defined.

(** ** Spaces *)

Section SpaceFacts.
Context (rt : PyRuntime).

Lemma result_bind_ok_inv {A B} (r : result A) (f : A -> result B) (b : B) :
  r ≫= f = Ok b -> exists a, r = Ok a /\ f a = Ok b.
Proof. destruct r as [a|x]; [eauto | discriminate]. Qed.




(** X17: a [Discrete] space that [convert_space] returned survives the way
    back: [space_to_dict] gives a descriptor that [convert_space] turns into
    the same space. *)
Theorem discrete_space_there_and_back (space_def : json) (n : Z) :
  convert_space rt space_def = Ok (Discrete n) ->
  convert_space rt (space_to_dict (Discrete n)) = Ok (Discrete n).
Proof.
  intros H. assert (Hn : 0 < n < 2 ^ 63).
  { unfold convert_space in H.
    apply result_bind_ok_inv in H as ([|] & _ & H).
    - apply result_bind_ok_inv in H as (x & _ & H). unfold spaces_Discrete in H.
      destruct x; try discriminate.
      destruct (Z.ltb_spec 0 z); [|discriminate].
      destruct (Z.ltb_spec z (2 ^ 63)); [|discriminate]. injection H as <-. lia.
    - apply result_bind_ok_inv in H as ([|] & _ & H); [|discriminate].
      repeat (apply result_bind_ok_inv in H as (? & _ & H)).
      unfold spaces_Box in H.
      destruct (shape_eqb _ _ && shape_eqb _ _); [|discriminate].
      cbv zeta in H. destruct (box_accepts rt _ _); discriminate. }
  unfold convert_space. simpl.
  destruct (Z.ltb_spec 0 n); [|lia]. destruct (Z.ltb_spec n (2 ^ 63)); [done|lia].
Qed.

(** X18: a [Box] descriptor whose [low] is a flat list of numbers with the
    wrong number of entries for its [shape] is refused with [ValueError],
    when its [high] is given or the machine has room for the default list
    that stands in for it (which is built before [low] is looked at). *)
Theorem wrong_bound_count_is_refused (kv : list (string * json)) (dims : list Z)
    (xs : list json) (fs : list float64) :
  dict_get "n" kv = None ->
  dict_get "shape" kv = Some (JArr (map JInt dims)) ->
  forallb (fun d => (0 <=? d) && (d <? 2 ^ 63)) dims = true ->
  dict_get "low" kv = Some (JArr xs) ->
  Forall2 json_number xs fs ->
  (Z.of_nat (length xs) =? prod_dims dims) = false ->
  default_fits rt (default_size dims) (dict_get "high" kv) = true ->
  convert_space rt (JObj kv) = Raise ValueError.
Proof.
  intros Hn Hshape Hdims Hlow Hxs Hcount Hfit.
  assert (Hd : Forall (fun d => 0 <= d < 2 ^ 63) dims).
  { apply Forall_forall. intros d Hin. rewrite forallb_forall in Hdims.
    apply list_elem_of_In, Hdims in Hin. lia. }
  unfold convert_space. simpl. unfold dict_has. rewrite Hn, Hshape. simpl.
  rewrite (collect_shape_dims dims Hd). simpl. rewrite Hlow. simpl.
  assert (Hsize : (if match map JInt dims with [] => false | _ => true end
                   then wrap64 (prod_dims dims) else 1) = default_size dims)
    by (by destruct dims).
  rewrite Hsize.
  assert (Hhigh : exists high,
    (if match dict_get "high" kv with Some v => v | None => JNull end is JNull
     then py_repeat rt (JFloat pos_inf) (default_size dims)
     else Ok match dict_get "high" kv with Some v => v | None => JNull end) = Ok high).
  { unfold default_fits, py_repeat in *.
    destruct (dict_get "high" kv) as [[]|]; simpl in *; eauto;
      destruct (default_size dims <=? 0); simpl in *; eauto; rewrite Hfit; eauto. }
  destruct Hhigh as [high ->]. simpl.
  pose proof (np_array_flat rt xs fs Hxs) as Ha. cbn [np_array] in Ha.
  rewrite Ha. simpl. unfold np_reshape. cbn [nd_data].
  rewrite length_map. apply Forall2_length in Hxs. rewrite <- Hxs.
  rewrite Z.eqb_sym, Hcount, andb_false_r. reflexivity.
Qed.
End SpaceFacts.


Lemma discrete_space_there_and_back_witness :
  convert_space TurnServer.runtime (JObj [("n", JInt 2); ("start", JInt 0)]) = Ok (Discrete 2) /\
  convert_space TurnServer.runtime (space_to_dict (Discrete 2)) = Ok (Discrete 2).
Proof.
  split; [reflexivity|].
  apply (discrete_space_there_and_back TurnServer.runtime
           (JObj [("n", JInt 2); ("start", JInt 0)]) 2).
  reflexivity.
Defined.

Lemma wrong_bound_count_is_refused_witness :
  let kv := [("shape", JArr (map JInt [2])); ("low", JArr [JInt 0])] in
  (Z.of_nat (length [JInt 0]) =? prod_dims [2]) = false /\
  convert_space TurnServer.runtime (JObj kv) = Raise ValueError.
Proof.
  intros kv. split; [reflexivity|].
  apply (wrong_bound_count_is_refused TurnServer.runtime kv [2] [JInt 0] [f64_zero]);
    [reflexivity | reflexivity | reflexivity | reflexivity | repeat constructor
    | reflexivity | reflexivity].
Defined.

(** ** Utilities *)

Section UtilsFacts.
Context (rt : PyRuntime) (P : Peer) (clock : Clock) (stats : Statistics).
Implicit Types (c : HyperTokenClient) (w : World P).

Lemma probe_run c w :
  ws c = None ->
  (Client.connect P ;; Client.disconnect P) (c, w) =
  match accept P (server w) with
  | (s', Ok _) =>
      (Ok tt, (set_ws None (set_ws (Some (websocket_to (url c))) c),
               hung_up {| server := s'; trace := trace w ++ [EvConnect] |}))
  | (s', Raise x) => (Raise x, (c, {| server := s'; trace := trace w |}))
  end.
Proof.
  intros Hc. rewrite bind_run, connect_closed by done.
  destruct (accept P (server w)) as [s' [[]|x]]; [|done].
  unfold Client.disconnect. rewrite bind_run. simpl. rewrite bind_run.
  unfold try_pass, Client.ws_close, hung_up. simpl.
  by destruct (hangup P s') as [s2 r2].
Qed.

(** X19: [wait_for_server] sends no command and leaves no connection open:
    however it ends, all that went over the wire is, when it returns [True],
    one connection opened and closed again; and its client holds no socket
    afterwards. *)
Theorem wait_for_server_probes_only (fuel : nat) (u : string) (timeout poll_interval : float64)
    w (r : ended bool) c' w' (reads' : nat) :
  Utils.wait_for_server P clock fuel u timeout poll_interval w = (r, ((c', w'), reads')) ->
  ws c' = None /\ trace w' = trace w ++ probe_of r.
Proof.
  unfold Utils.wait_for_server.
  assert (Hc : ws (new_client u) = None) by done. revert Hc.
  generalize (new_client u) (time_time clock 0) 1%nat. revert w.
  induction fuel as [|fuel IH]; intros w c start reads Hc; cbn [Utils.wait_loop].
  - intros [= <- <- <- <-]. by rewrite app_nil_r.
  - destruct (SFltb _ timeout).
    + rewrite probe_run by done.
      destruct (accept P (server w)) as [s' [[]|x]].
      * intros [= <- <- <- <-]. split; [done|]. simpl. by rewrite <- app_assoc.
      * destruct (time_sleep clock poll_interval) as [[]|e].
        -- intros E. apply IH in E; [|done]. exact E.
        -- intros [= <- <- <- <-]. by rewrite app_nil_r.
    + intros [= <- <- <- <-]. by rewrite app_nil_r.
Qed.

Lemma wait_loop_ends (n : nat) :
  forall (fuel : nat) (start timeout poll_interval : float64) (st : Utils.ClockSt P),
    (n < fuel)%nat ->
    SFltb (SFsub 53 1024 (time_time clock (snd st + n)) start) timeout = false ->
    fst (Utils.wait_loop P clock fuel start timeout poll_interval st) <> Unfinished /\
    (snd (snd (Utils.wait_loop P clock fuel start timeout poll_interval st)) <= S (snd st + n))%nat.
Proof.
  induction n as [|n IH]; intros fuel start timeout poll_interval [cst reads] Hf Hd;
    (destruct fuel as [|fuel]; [lia|]); cbn [Utils.wait_loop]; cbn [snd] in Hd.
  - rewrite Nat.add_0_r in Hd. rewrite Hd. simpl. split; [done|lia].
  - destruct (SFltb (SFsub 53 1024 (time_time clock reads) start) timeout);
      [|simpl; split; [done|lia]].
    destruct ((Client.connect P ;; Client.disconnect P) cst) as [[[]|x] cst'].
    + simpl. split; [done|lia].
    + destruct (time_sleep clock poll_interval) as [[]|e]; [|simpl; split; [done|lia]].
      specialize (IH fuel start timeout poll_interval (cst', S reads)).
      cbn [snd] in IH. rewrite Nat.add_succ_r in Hd.
      destruct (IH ltac:(lia) Hd) as [H1 H2]. split; [done|]. simpl in *. lia.
Qed.

(** X20: [wait_for_server] gives up at the deadline: if the [n]-th reading of
    the clock (the first one taken by the loop being number 1) is past the
    deadline, the call ends after at most [n] readings in the loop, hence
    after at most [n - 1] connection attempts. *)
Theorem wait_for_server_ends (n fuel : nat) (u : string) (timeout poll_interval : float64) w :
  (1 <= n)%nat -> (n <= fuel)%nat ->
  deadline_passed clock timeout n = true ->
  let out := Utils.wait_for_server P clock fuel u timeout poll_interval w in
  fst out <> Unfinished /\ (snd (snd out) <= S n)%nat.
Proof.
  intros Hn Hf Hd out. unfold deadline_passed in Hd. apply negb_true_iff in Hd.
  unfold out, Utils.wait_for_server.
  destruct (wait_loop_ends (n - 1) fuel (time_time clock 0) timeout poll_interval
              ((new_client u, w), 1%nat)) as [H1 H2].
  - lia.
  - cbn [snd]. by replace (1 + (n - 1))%nat with n by lia.
  - split; [done|]. cbn [snd] in H2. lia.
Qed.

Lemma ping_ok (latency : float64) c w (reads : nat) c' w' (reads' : nat) :
  Utils.ping rt P clock ((c, w), reads) = (Ok latency, ((c', w'), reads')) ->
  c' = c /\ w' = exchanged w (Client.cmd0 "ping") /\ reads' = S (S reads) /\
  exists sock, ws c = Some sock.
Proof.
  unfold Utils.ping. rewrite _send_eq. destruct (ws c) as [sock|]; [|discriminate].
  destruct (check_reply rt _); [|discriminate]. intros [= _ <- <- <-]. eauto.
Qed.

Lemma ping_each_ok (n : nat) (acc l : list float64) c w (reads : nat) c' w' (reads' : nat) :
  Utils.ping_each rt P clock n acc ((c, w), reads) = (Ok l, ((c', w'), reads')) ->
  c' = c /\ sends (replicate n (Client.cmd0 "ping")) w w' /\
  length l = (length acc + n)%nat /\ reads' = (reads + 2 * n)%nat.
Proof.
  revert acc w reads. induction n as [|n IH]; intros acc w reads; cbn [Utils.ping_each].
  - intros [= <- <- <- <-]. split; [done|]. split; [apply sends_nil|]. lia.
  - intros E. apply bind_ok_inv in E as (latency & [[c1 w1] reads1] & E1 & E).
    apply ping_ok in E1 as (-> & -> & -> & _).
    apply IH in E as (-> & Hs & Hl & ->). split; [done|]. split.
    + exact (sends_app [_] _ _ _ _ (sends_exchanged _ _) Hs).
    + rewrite Hl, length_app. simpl. lia.
Qed.

Lemma with_client_run {A} (m : M (Client.ClientSt P) A) (cst : Client.ClientSt P) (reads : nat) :
  Utils.with_client P m (cst, reads) = (fst (m cst), (snd (m cst), reads)).
Proof. unfold Utils.with_client. by destruct (m cst). Qed.

(** X28: when [measure_latency] returns, the number of samples asked for was
    positive, the commands that went out are that many [ping] commands and
    nothing else, the connection it opened is closed again, two clock
    readings were taken per sample, and the dict reports the number of
    samples asked for. *)
Theorem measure_latency_protocol (u : string) (samples : Z) w (s : LatencyStats)
    c' w' (reads' : nat) :
  Utils.measure_latency rt P clock stats u samples w = (Ok s, ((c', w'), reads')) ->
  0 < samples /\
  sends (replicate (Z.to_nat samples) (Client.cmd0 "ping")) w w' /\
  (exists evs, trace w' = trace w ++ EvConnect :: evs ++ [EvClose]) /\
  ws c' = None /\ reads' = (2 * Z.to_nat samples)%nat /\ stats_samples s = samples.
Proof.
  unfold Utils.measure_latency. intros E.
  apply bind_ok_inv in E as ([] & [[c1 w1] r1] & E1 & E).
  rewrite with_client_run, connect_closed in E1 by done.
  destruct (accept P (server w)) as [s1 [[]|x]] eqn:Ha; [|discriminate].
  injection E1 as <- <- <-.
  apply bind_ok_inv in E as (l & [[c2 w2] r2] & E2 & E).
  apply ping_each_ok in E2 as (-> & (evs & Ht & Hs) & Hl & ->).
  apply bind_ok_inv in E as ([] & [[c3 w3] r3] & E3 & E).
  rewrite with_client_run in E3. unfold Client.disconnect in E3.
  rewrite bind_run in E3. cbn in E3. rewrite bind_run in E3.
  unfold try_pass, Client.ws_close in E3. cbn in E3.
  destruct (hangup P (server w2)) as [s3 r3'] eqn:Hh. cbn in E3.
  injection E3 as <- <- <-.
  apply bind_ok_inv in E as (lo & st4 & [= Hlo <-] & E).
  apply bind_ok_inv in E as (hi & st5 & [= _ <-] & E).
  apply bind_ok_inv in E as (mean & st6 & [= _ <-] & E).
  apply bind_ok_inv in E as (median & st7 & [= _ <-] & E).
  injection E as <- <- <- <-.
  assert (Hn : 0 < samples).
  { destruct l as [|x l]; [discriminate|]. simpl in Hl. lia. }
  split; [done|]. split; [|split; [|split; [done|split; [lia|done]]]].
  - exists (EvConnect :: evs ++ [EvClose]). split.
    + cbn [trace] in *. rewrite Ht. cbn [trace]. by rewrite <- !app_assoc.
    + change (EvConnect :: evs ++ [EvClose]) with ([EvConnect] ++ evs ++ [EvClose]).
      by rewrite !sent_app, Hs, app_nil_r.
  - exists evs. cbn [trace] in *. rewrite Ht. cbn [trace]. by rewrite <- !app_assoc.
Qed.

(** X29: asked for no samples (zero or a negative number), [measure_latency]
    raises [ValueError]: it opens a connection if the server accepts one,
    sends nothing, closes the connection again, and fails on the minimum of
    an empty list. *)
Theorem measure_latency_needs_a_sample (u : string) (samples : Z) w (s' : srv P) :
  samples <= 0 ->
  accept P (server w) = (s', Ok tt) ->
  Utils.measure_latency rt P clock stats u samples w =
    (Raise ValueError,
     ((set_ws None (set_ws (Some (websocket_to u)) (new_client u)),
       hung_up {| server := s'; trace := trace w ++ [EvConnect] |}), O)).
Proof.
  intros Hn Ha. unfold Utils.measure_latency.
  rewrite bind_run, with_client_run, connect_closed, Ha by done. cbn [fst snd].
  replace (Z.to_nat samples) with O by lia. cbn [Utils.ping_each].
  rewrite bind_run, ret_run, bind_run, with_client_run.
  unfold Client.disconnect. rewrite bind_run. cbn. rewrite bind_run.
  unfold try_pass, Client.ws_close, hung_up. cbn.
  by destruct (hangup P s') as [s2 r2].
Qed.

(** X30: when the server answers the first [ping] with an error,
    [measure_latency] raises that error and does not close the connection
    it opened: its client still holds the socket. *)
Theorem measure_latency_leaves_socket_open (u : string) (samples : Z) w (s' : srv P)
    (kv : list (string * json)) (msg : string) :
  0 < samples ->
  accept P (server w) = (s', Ok tt) ->
  let w1 := {| server := s'; trace := trace w ++ [EvConnect] |} in
  reply_to w1 (Client.cmd0 "ping") = Ok (JObj kv) ->
  dict_get "error" kv = Some (JStr msg) ->
  Utils.measure_latency rt P clock stats u samples w =
    (Raise (RuntimeError ("Server error: " +:+ msg)),
     ((set_ws (Some (websocket_to u)) (new_client u), exchanged w1 (Client.cmd0 "ping")),
      1%nat)).
Proof.
  intros Hn Ha w1 Hr He. unfold Utils.measure_latency.
  rewrite bind_run, with_client_run, connect_closed, Ha by done. cbn [fst snd]. fold w1.
  destruct (Z.to_nat samples) as [|n] eqn:En; [lia|]. cbn [Utils.ping_each].
  rewrite bind_run, bind_run. unfold Utils.ping.
  rewrite (_send_connected rt P _ _ _ (websocket_to u)) by done.
  by rewrite Hr, (check_reply_error rt kv msg He).
Qed.

Lemma start_server_args (env_type : string) (port : json) (verbose : bool)
    (env_options : list (string * json)) :
  popen_args (Utils.start_server rt env_type port verbose env_options) =
    ["npx"; "tsx"; "bridge/server.ts"; "--env"; env_type; "--port"; py_str rt port]
    ++ (if verbose then ["--verbose"] else [])
    ++ flat_map (fun kv => Utils.option_args rt (fst kv) (snd kv)) env_options.
Proof.
  unfold Utils.start_server. cbn [popen_args].
  assert (H : forall opts cmd,
    fold_left (fun cmd '(key, value) => cmd ++ Utils.option_args rt key value) opts cmd
    = cmd ++ flat_map (fun kv => Utils.option_args rt (fst kv) (snd kv)) opts).
  { induction opts as [|[k v] opts IH]; intros cmd; simpl; [by rewrite app_nil_r|].
    by rewrite IH, <- app_assoc. }
  rewrite H. destruct verbose; [by rewrite <- app_assoc | done].
Qed.

(** X21: [start_server] ignores every keyword option other than
    [num_agents], [num_decks] and [seed]: leaving such an option out asks for
    the same process. *)
Theorem start_server_ignores_unknown_options (env_type : string) (port : json) (verbose : bool)
    (before after : list (string * json)) (key : string) (value : json) :
  known_option key = false ->
  Utils.start_server rt env_type port verbose (before ++ (key, value) :: after) =
  Utils.start_server rt env_type port verbose (before ++ after).
Proof.
  intros Hk.
  assert (Ho : Utils.option_args rt key value = []).
  { unfold known_option in Hk. unfold Utils.option_args.
    destruct (String.eqb key "num_agents"); [done|].
    destruct (String.eqb key "num_decks"); [done|].
    by destruct (String.eqb key "seed"). }
  assert (Ha : popen_args (Utils.start_server rt env_type port verbose (before ++ (key, value) :: after))
             = popen_args (Utils.start_server rt env_type port verbose (before ++ after))).
  { rewrite !start_server_args. do 2 f_equal.
    rewrite !flat_map_app. simpl. by rewrite Ho. }
  unfold Utils.start_server in *. cbn [popen_args] in Ha. by rewrite Ha.
Qed.
End UtilsFacts.

Lemma wait_for_server_probes_only_witness :
  let w := TurnServer.world_of (TurnServer.two_of_three 0 []) in
  let out := Utils.wait_for_server TurnServer.peer ticking 5 "ws://localhost:9999"
               three TurnServer.half w in
  fst out = Returned true /\
  ws (fst (fst (snd out))) = None /\
  trace (snd (fst (snd out))) = trace w ++ [EvConnect; EvClose].
Proof.
  intros w out. split; [vm_compute; reflexivity|].
  apply (wait_for_server_probes_only TurnServer.peer ticking 5 "ws://localhost:9999"
           three TurnServer.half w (Returned true) (fst (fst (snd out))) (snd (fst (snd out)))
           (snd (snd out))).
  vm_compute. reflexivity.
Defined.

Lemma wait_for_server_ends_witness :
  let w := Build_World no_peer tt [] in
  let out := Utils.wait_for_server no_peer ticking 3 "ws://localhost:9999"
               three TurnServer.half w in
  deadline_passed ticking three 3 = true /\
  fst out = Returned false /\
  fst out <> Unfinished /\ (snd (snd out) <= 4)%nat.
Proof.
  intros w out. split; [vm_compute; reflexivity|]. split; [vm_compute; reflexivity|].
  apply (wait_for_server_ends no_peer ticking 3 3 "ws://localhost:9999" three TurnServer.half w);
    [lia | lia | vm_compute; reflexivity].
Defined.

Lemma measure_latency_protocol_witness :
  let w := TurnServer.world_of (TurnServer.two_of_three 0 []) in
  let out := Utils.measure_latency TurnServer.runtime TurnServer.peer ticking single_statistics
               "ws://localhost:9999" 1 w in
  exists s, fst out = Ok s /\
    stats_min s = binary_normalize 53 1024 1000 0 false /\
    sends [Client.cmd0 "ping"] w (snd (fst (snd out))) /\
    ws (fst (fst (snd out))) = None.
Proof.
  intros w out.
  destruct (fst out) as [s|x] eqn:E; [|vm_compute in E; discriminate].
  destruct (measure_latency_protocol TurnServer.runtime TurnServer.peer ticking single_statistics
              "ws://localhost:9999" 1 w s (fst (fst (snd out))) (snd (fst (snd out)))
              (snd (snd out))) as (_ & H2 & _ & H4 & _).
  - rewrite <- E. unfold out. by destruct (Utils.measure_latency _ _ _ _ _ _ _) as [? [[? ?] ?]].
  - exists s. split; [reflexivity|]. split; [|split; [exact H2 | exact H4]].
    vm_compute in E. injection E as <-. vm_compute. reflexivity.
Defined.

Lemma measure_latency_needs_a_sample_witness :
  let g := TurnServer.two_of_three 0 [] in
  let w := TurnServer.world_of g in
  fst (Utils.measure_latency TurnServer.runtime TurnServer.peer ticking single_statistics
         "ws://localhost:9999" 0 w) = Raise ValueError.
Proof.
  intros g w.
  rewrite (measure_latency_needs_a_sample TurnServer.runtime TurnServer.peer ticking
             single_statistics "ws://localhost:9999" 0 w g); [reflexivity | lia | reflexivity].
Defined.

Lemma measure_latency_leaves_socket_open_witness :
  let w := TurnServer.world_of faulty_game in
  let out := Utils.measure_latency TurnServer.runtime TurnServer.peer ticking single_statistics
               "ws://localhost:9999" 3 w in
  fst out = Raise (RuntimeError ("Server error: " +:+ "shutting down")) /\
  ws (fst (fst (snd out))) = Some (websocket_to "ws://localhost:9999").
Proof.
  intros w out. unfold out.
  rewrite (measure_latency_leaves_socket_open TurnServer.runtime TurnServer.peer ticking
             single_statistics "ws://localhost:9999" 3 w faulty_game
             [("error", JStr "shutting down")] "shutting down");
    [split; reflexivity | lia | reflexivity | reflexivity | reflexivity].
Defined.

Lemma start_server_ignores_unknown_options_witness :
  known_option "agents" = false /\
  Utils.start_server TurnServer.runtime "blackjack" (JInt 9999) false
    ([("num_decks", JInt 6)] ++ ("agents", JInt 3) :: [("seed", JInt 42)]) =
  Utils.start_server TurnServer.runtime "blackjack" (JInt 9999) false
    ([("num_decks", JInt 6)] ++ [("seed", JInt 42)]).
Proof.
  split; [reflexivity|].
  apply (start_server_ignores_unknown_options TurnServer.runtime "blackjack" (JInt 9999) false
           [("num_decks", JInt 6)] [("seed", JInt 42)] "agents" (JInt 3)).
  reflexivity.
Defined.

(** ** Export *)

Lemma enumerate_into_lookup (l : list json) (i : nat) (acc : gmap nat json) (j : nat) :
  enumerate_into i l acc !! j =
  if decide (i <= j)%nat then
    match l !! (j - i)%nat with Some a => Some a | None => acc !! j end
  else acc !! j.
Proof.
  revert i acc. induction l as [|a l IH]; intros i acc; cbn [enumerate_into].
  - by destruct (decide _).
  - rewrite IH. destruct (decide (S i <= j)%nat) as [H|H].
    + rewrite decide_True by lia. replace (j - i)%nat with (S (j - S i)) by lia. simpl.
      destruct (l !! (j - S i)%nat); [done|]. rewrite lookup_insert_ne by lia. done.
    + destruct (decide (i <= j)%nat) as [H'|H'].
      * assert (j = i) as -> by lia. rewrite Nat.sub_diag. simpl. by rewrite lookup_insert_eq.
      * rewrite lookup_insert_ne by lia. done.
Qed.

(** X22: for metadata that lists its actions, the action map holds at index
    [i] the [i]-th action of the list, counting from 0, and nothing at any
    other index; for metadata without an [actions] entry the map is
    empty. *)
Theorem action_map_follows_the_list (kv : list (string * json)) :
  (forall l, dict_get "actions" kv = Some (JArr l) ->
     exists m, create_action_map_from_metadata (JObj kv) = Ok m /\ forall i, m !! i = l !! i) /\
  (dict_get "actions" kv = None -> create_action_map_from_metadata (JObj kv) = Ok ∅).
Proof.
  unfold create_action_map_from_metadata. simpl. unfold dict_has. split.
  - intros l ->. simpl. eexists. split; [reflexivity|]. intros i.
    rewrite enumerate_into_lookup. rewrite decide_True by lia. rewrite Nat.sub_0_r.
    destruct (l !! i); [done|]. apply lookup_empty.
  - by intros ->.
Qed.

Lemma action_map_follows_the_list_witness :
  let l := [JStr "blackjack:hit"; JStr "blackjack:stand"] in
  let kv := [("env", JStr "blackjack"); ("actions", JArr l)] in
  dict_get "actions" kv = Some (JArr l) /\
  dict_get "actions" [("env", JStr "blackjack")] = None /\
  (exists m, create_action_map_from_metadata (JObj kv) = Ok m /\ forall i, m !! i = l !! i) /\
  create_action_map_from_metadata (JObj [("env", JStr "blackjack")]) = Ok ∅.
Proof.
  intros l kv. split; [reflexivity|]. split; [reflexivity|]. split.
  - apply (proj1 (action_map_follows_the_list kv) l). reflexivity.
  - apply (proj2 (action_map_follows_the_list [("env", JStr "blackjack")])). reflexivity.
Defined.

(** ** The Gymnasium wrapper *)

Section WrapperFacts.
Context (rt : PyRuntime) (P : Peer).
Implicit Types (g : TrainAndExport.BlackjackGymWrapper) (c : HyperTokenClient) (w : World P).

Lemma set_wrapper_client_same g :
  TrainAndExport.set_client (TrainAndExport.client g) g = g.
Proof. by destruct g. Qed.

Lemma wrapper_via_client_ok {A} (m : M (Client.ClientSt P) A) (a : A) g w g' w' :
  TrainAndExport.via_client P m (g, w) = (Ok a, (g', w')) ->
  exists c', m (TrainAndExport.client g, w) = (Ok a, (c', w')) /\
             g' = TrainAndExport.set_client c' g.
Proof.
  unfold TrainAndExport.via_client.
  destruct (m (TrainAndExport.client g, w)) as [r [c1 w1]]. intros [= -> <- <-]. eauto.
Qed.

Lemma send_then_ok {A} (cmd : json) (k : json -> M (Client.ClientSt P) A) (a : A) c w c' w' :
  (forall x, respects eq (k x)) ->
  (Client._send rt P cmd ≫= k) (c, w) = (Ok a, (c', w')) ->
  c' = c /\ w' = exchanged w cmd.
Proof.
  intros Hk E. apply bind_ok_inv in E as (resp & [c1 w1] & E1 & E).
  rewrite _send_eq in E1. destruct (ws c); [|discriminate].
  injection E1 as _ <- <-. apply Hk in E. by injection E as <- <-.
Qed.

(** X23: when the wrapper's [step] returns, it has sent the [step] command
    with the given action, then [observe] for the wrapper's agent, then
    [last], and nothing else; the observation it returns is the one it keeps
    as its last observation, and its agent is unchanged. *)
Theorem wrapper_step_protocol (action : Z) (res : TrainAndExport.GymStep) g w g' w' :
  TrainAndExport.step rt P action (g, w) = (Ok res, (g', w')) ->
  sends [Client.step_cmd action;
         Client.cmd_agent "observe" (TrainAndExport.agent_id g);
         Client.cmd0 "last"] w w' /\
  TrainAndExport._last_obs g' = Some (step_obs res) /\
  TrainAndExport.agent_id g' = TrainAndExport.agent_id g.
Proof.
  unfold TrainAndExport.step. intros E.
  apply bind_ok_inv in E as ([] & [g1 w1] & E1 & E).
  apply wrapper_via_client_ok in E1 as (c1 & E1 & ->).
  unfold Client.step in E1. apply send_then_ok in E1 as [-> ->]; [|intros; pure_tac].
  rewrite set_wrapper_client_same in E.
  apply bind_ok_inv in E as (g0 & st & [= <- <-] & E). cbn [fst] in E.
  apply bind_ok_inv in E as (obs & [g2 w2] & E2 & E).
  apply wrapper_via_client_ok in E2 as (c2 & E2 & ->).
  assert (H2 : c2 = TrainAndExport.client g /\
               w2 = exchanged (exchanged w (Client.step_cmd action))
                      (Client.cmd_agent "observe" (TrainAndExport.agent_id g))).
  { revert E2. unfold Client.observe, Client.agent_field.
    intros E2. apply bind_ok_inv in E2 as (v & [c4 w4] & E2 & E3).
    apply send_then_ok in E2 as [-> ->]; [|intros; pure_tac].
    unfold lift_result in E3. by injection E3 as _ <- <-. }
  destruct H2 as [-> ->]. clear E2. rewrite set_wrapper_client_same in E.
  apply bind_ok_inv in E as (result & [g3 w3] & E3 & E).
  apply wrapper_via_client_ok in E3 as (c3 & E3 & ->).
  unfold Client.last in E3. rewrite _send_eq in E3.
  destruct (ws (TrainAndExport.client g)); [|discriminate].
  injection E3 as _ <- <-. rewrite set_wrapper_client_same in E.
  apply bind_ok_inv in E as ([] & st4 & [= <-] & E).
  apply bind_ok_inv in E as (reward & st5 & [= _ <-] & E).
  apply bind_ok_inv in E as (terminated & st6 & [= _ <-] & E).
  apply bind_ok_inv in E as (truncated & st7 & [= _ <-] & E).
  apply bind_ok_inv in E as (info & st8 & [= _ <-] & E).
  injection E as <- <- <-. split; [|done].
  apply (sends_app [_] [_; _] _ _ _ (sends_exchanged _ _)).
  apply (sends_app [_] [_] _ _ _ (sends_exchanged _ _)). apply sends_exchanged.
Qed.

(** X24: when the server accepts the connection and lists no agent, the
    wrapper's constructor raises [RuntimeError] with the message "No agents
    available from server", after the one [possible_agents] command. *)
Theorem wrapper_needs_an_agent (u : string) (mode : option string) w (s' : srv P)
    (kv : list (string * json)) :
  accept P (server w) = (s', Ok tt) ->
  let w1 := {| server := s'; trace := trace w ++ [EvConnect] |} in
  reply_to w1 (Client.cmd0 "possible_agents") = Ok (JObj kv) ->
  dict_get "error" kv = None ->
  dict_get "possible_agents" kv = Some (JArr []) ->
  TrainAndExport.__init__ rt P u mode w =
    (Raise (RuntimeError "No agents available from server"),
     exchanged w1 (Client.cmd0 "possible_agents")).
Proof.
  intros Hc w1 Hr He Ha. unfold TrainAndExport.__init__.
  rewrite bind_run, connect_closed, Hc by done. fold w1.
  unfold Client.possible_agents, Client.field.
  rewrite bind_run, (_send_connected rt P _ _ _ (websocket_to u)) by done.
  rewrite Hr. unfold check_reply. simpl. unfold dict_has. rewrite He. simpl.
  unfold lift_result. simpl. by rewrite Ha.
Qed.
End WrapperFacts.

Lemma wrapper_step_protocol_witness :
  let w := TurnServer.world_of (TurnServer.two_of_three 0 []) in
  let out := TrainAndExport.step TurnServer.runtime TurnServer.peer 1 (open_wrapper, w) in
  exists res, fst out = Ok res /\
    sends [Client.step_cmd 1; Client.cmd_agent "observe" (JStr "player_0"); Client.cmd0 "last"]
          w (snd (snd out)) /\
    TrainAndExport._last_obs (fst (snd out)) = Some (step_obs res).
Proof.
  intros w out.
  destruct (fst out) as [res|x] eqn:E; [|vm_compute in E; discriminate].
  destruct (wrapper_step_protocol TurnServer.runtime TurnServer.peer 1 res open_wrapper w
              (fst (snd out)) (snd (snd out))) as (H1 & H2 & _).
  - rewrite <- E. unfold out. by destruct (TrainAndExport.step _ _ _ _) as [? [? ?]].
  - exists res. split; [reflexivity|]. split; [exact H1 | exact H2].
Defined.

Lemma wrapper_needs_an_agent_witness :
  let g := {| TurnServer.g_possible := []; TurnServer.g_agents := []; TurnServer.g_turn := 0;
              TurnServer.g_done := []; TurnServer.g_fault := None; TurnServer.g_terse := false;
              TurnServer.g_log := [] |} in
  let w := TurnServer.world_of g in
  fst (TrainAndExport.__init__ TurnServer.runtime TurnServer.peer "ws://localhost:9999" None w) =
    Raise (RuntimeError "No agents available from server").
Proof.
  intros g w.
  rewrite (wrapper_needs_an_agent TurnServer.runtime TurnServer.peer "ws://localhost:9999" None w
             g [("possible_agents", JArr [])]);
    reflexivity.
Defined.

(** ** The basic-strategy policy *)

Lemma strategy_range (hand_value dealer_upcard : Z) (is_soft can_double : bool) :
  let a := strategy hand_value dealer_upcard is_soft can_double in
  (a = 0 \/ a = 1 \/ a = 2) /\ (a = 2 -> can_double = true).
Proof.
  unfold strategy.
  destruct is_soft, can_double; simpl;
    repeat match goal with
           | |- context [if ?b then _ else _] => destruct b; simpl
           end; split; auto; discriminate.
Qed.

Lemma np_where_first (mask : list bool) (i first : Z) (rest : list Z) :
  np_where i mask = first :: rest ->
  i <= first /\ mask !! Z.to_nat (first - i) = Some true.
Proof.
  revert i. induction mask as [|b mask IH]; intros i; cbn [np_where]; [discriminate|].
  destruct b.
  - intros [= <- _]. rewrite Z.sub_diag. by split; [lia|].
  - intros H. apply IH in H as [H1 H2]. split; [lia|].
    replace (Z.to_nat (first - i)) with (S (Z.to_nat (first - (i + 1)))) by lia. done.
Qed.

Lemma np_where_none (mask : list bool) (i : Z) :
  np_where i mask = [] -> existsb id mask = false.
Proof.
  revert i. induction mask as [|b mask IH]; intros i; cbn [np_where]; [done|].
  destruct b; [discriminate|]. simpl. apply IH.
Qed.

Section PolicyFacts.
Context (times : float32 -> Z -> spec_float).

(** X26: with a mask, whenever [basic_strategy_policy] returns and the mask
    allows some action, the action returned is one the mask allows; when the
    mask allows none, it returns 1. *)
Theorem policy_respects_mask (observation : list float32) (mask : list bool) (a : Z) :
  basic_strategy_policy times observation (Some mask) = Chooses a ->
  if existsb id mask then allows mask a = true else a = 1.
Proof.
  unfold basic_strategy_policy, scaled, above_half, mask_at.
  destruct (observation !! 0%nat) as [x0|]; [|discriminate].
  destruct (int_of_float (times x0 30)) as [hand_value|e]; [|discriminate].
  destruct (observation !! 1%nat) as [x1|]; [|discriminate].
  destruct (int_of_float (times x1 11)) as [dealer_upcard|e]; [|discriminate].
  destruct (observation !! 2%nat) as [x2|]; [|discriminate].
  destruct (observation !! 3%nat) as [x3|]; [|discriminate].
  destruct (observation !! 4%nat) as [x4|]; [|discriminate].
  cbv zeta.
  pose proof (strategy_range hand_value dealer_upcard (SFltb TurnServer.half (to_float64 x2))
                (SFltb TurnServer.half (to_float64 x3))) as [Hr _].
  set (action := strategy _ _ _ _) in *.
  assert (Hany : forall i, mask !! Z.to_nat i = Some true -> existsb id mask = true).
  { intros i Hi. apply existsb_exists. exists true. split; [|done].
    apply list_elem_of_In. by eapply list_elem_of_lookup_2. }
  assert (Hallow : forall i, 0 <= i -> mask !! Z.to_nat i = Some true ->
            if existsb id mask then allows mask i = true else i = 1).
  { intros i Hi Hm. rewrite (Hany i Hm). unfold allows. rewrite Hm.
    by destruct (Z.leb_spec 0 i); [|lia]. }
  destruct (mask !! Z.to_nat action) as [[|]|] eqn:Ha; [| |discriminate]; cbn [negb].
  - intros [= <-]. apply Hallow; [lia | done].
  - destruct (mask !! Z.to_nat 0) as [[|]|] eqn:H0; [| |discriminate].
    + intros [= <-]. by apply Hallow.
    + destruct (mask !! Z.to_nat 1) as [[|]|] eqn:H1; [| |discriminate].
      * intros [= <-]. by apply Hallow.
      * destruct (np_where 0 mask) as [|first rest] eqn:Hw.
        -- intros [= <-]. by rewrite (np_where_none mask 0 Hw).
        -- intros [= <-]. apply np_where_first in Hw as [Hf Hm].
           rewrite Z.sub_0_r in Hm. by apply Hallow.
Qed.

(** X27: without a mask, whenever [basic_strategy_policy] returns, the action
    is 0 (hit), 1 (stand) or 2 (double), and it is 2 only when the fourth
    entry of the observation (the one that says doubling is possible) has a
    value above one half. *)
Theorem policy_without_mask (observation : list float32) (a : Z) :
  basic_strategy_policy times observation None = Chooses a ->
  (a = 0 \/ a = 1 \/ a = 2) /\
  (a = 2 -> exists x, observation !! 3%nat = Some x /\
                      SFltb TurnServer.half (to_float64 x) = true).
Proof.
  unfold basic_strategy_policy, scaled, above_half.
  destruct (observation !! 0%nat) as [x0|]; [|discriminate].
  destruct (int_of_float (times x0 30)) as [hand_value|e]; [|discriminate].
  destruct (observation !! 1%nat) as [x1|]; [|discriminate].
  destruct (int_of_float (times x1 11)) as [dealer_upcard|e]; [|discriminate].
  destruct (observation !! 2%nat) as [x2|]; [|discriminate].
  destruct (observation !! 3%nat) as [x3|]; [|discriminate].
  destruct (observation !! 4%nat) as [x4|]; [|discriminate].
  intros [= <-].
  destruct (strategy_range hand_value dealer_upcard (SFltb TurnServer.half (to_float64 x2))
              (SFltb TurnServer.half (to_float64 x3))) as [Hr Hd].
  split; [exact Hr|]. intros H. exists x3. split; [done | by apply Hd].
Qed.
End PolicyFacts.

Lemma policy_respects_mask_witness :
  basic_strategy_policy times64 hard_fifteen None = Chooses 1 /\
  basic_strategy_policy times64 hard_fifteen (Some [true; false]) = Chooses 0 /\
  allows [true; false] 0 = true.
Proof.
  split; [vm_compute; reflexivity|]. split; [vm_compute; reflexivity|].
  apply (policy_respects_mask times64 hard_fifteen [true; false] 0). vm_compute. reflexivity.
Defined.

Lemma policy_without_mask_witness :
  basic_strategy_policy times64 hard_eleven None = Chooses 2 /\
  ((2 = 0 \/ 2 = 1 \/ 2 = 2) /\
   (2 = 2 -> exists x, hard_eleven !! 3%nat = Some x /\
                       SFltb TurnServer.half (to_float64 x) = true)).
Proof.
  split; [vm_compute; reflexivity|].
  apply (policy_without_mask times64 hard_eleven 2). vm_compute. reflexivity.
Defined.

(** With the entry for doubling at 0.25 the same hand is hit, not doubled. *)
Example policy_needs_more_than_half :
  basic_strategy_policy times64 hard_eleven_no_double None = Chooses 0.
Proof. vm_compute. reflexivity. Qed.
